(** * Ask-the-Web agent (phase 3): query planning, resilient web search,
      conversation memory, result fusion and orchestration.

    Shallow embedding of
      - [phase3/src/web_search.py]            (CircuitBreaker, WebSearchEngine)
      - [phase3/src/agent_orchestrator.py]    (SearchPlanner, WebAwareAgent)
      - [phase3/src/extended_rag_pipeline.py] (ConversationMemory,
                                               ExtendedRAGPipeline)
      - [phase3/src/html_parser.py]           (TextChunker,
                                               WebContentProcessor)
    and the properties of the specification that concern them.

    Conventions. A method that reads or changes an object takes and returns
    the object; a method that may raise returns a [result]. Times are
    rational numbers of seconds, read from a [world] that also counts the
    invocations of the search provider and the pauses. Strings of the
    program are lists of code points; messages of exceptions and the tags of
    strategies and breaker states are Rocq strings. *)

From Stdlib Require Import QArith Qminmax Lqa.
From stdpp Require Import base tactics option list sorting gmap strings pretty.

Local Open Scope Z_scope.

(** ** Python values used by the modelled code *)

Module Py.

(** A Python [str] is a sequence of Unicode code points. *)
Definition char := N.
Definition str := list char.

(** Literals are written as Rocq strings (UTF-8 bytes) and decoded. *)
Fixpoint utf8_decode (bs : list N) : str :=
  match bs with
  | [] => []
  | b0 :: r0 =>
    if (b0 <? 0x80)%N then b0 :: utf8_decode r0
    else match r0 with
    | [] => []
    | b1 :: r1 =>
      if (b0 <? 0xE0)%N
      then ((b0 - 0xC0) * 0x40 + (b1 - 0x80))%N :: utf8_decode r1
      else match r1 with
      | [] => []
      | b2 :: r2 =>
        if (b0 <? 0xF0)%N
        then ((b0 - 0xE0) * 0x1000 + (b1 - 0x80) * 0x40 + (b2 - 0x80))%N
               :: utf8_decode r2
        else match r2 with
        | [] => []
        | b3 :: r3 =>
          ((b0 - 0xF0) * 0x40000 + (b1 - 0x80) * 0x1000
             + (b2 - 0x80) * 0x40 + (b3 - 0x80))%N :: utf8_decode r3
        end
      end
    end
  end.

Definition py (s : string) : str :=
  utf8_decode (map Ascii.N_of_ascii (String.list_ascii_of_string s)).

(** [str.isspace] for one code point (the characters [str.split()] and
    [str.strip()] treat as whitespace). *)
Definition isspace (c : char) : bool :=
  ((0x09 <=? c) && (c <=? 0x0D) || (0x1C <=? c) && (c <=? 0x20)
   || (c =? 0x85) || (c =? 0xA0) || (c =? 0x1680)
   || (0x2000 <=? c) && (c <=? 0x200A)
   || (c =? 0x2028) || (c =? 0x2029) || (c =? 0x202F) || (c =? 0x205F)
   || (c =? 0x3000))%N.

(** [str.lower] per code point, for Basic Latin and Latin-1 (the alphabets
    of the keyword tables); other code points are left as they are. *)
Definition lower_char (c : char) : char :=
  if ((0x41 <=? c) && (c <=? 0x5A))%N then (c + 0x20)%N
  else if ((0xC0 <=? c) && (c <=? 0xDE) && negb (c =? 0xD7))%N then (c + 0x20)%N
  else c.

Definition lower (s : str) : str := map lower_char s.

(** [s.split()]: the maximal runs of non-whitespace characters. [cur] is the
    run being read, most recent character first. *)
Fixpoint split_go (cur : str) (s : str) : list str :=
  match s with
  | [] => match cur with [] => [] | _ => [rev cur] end
  | c :: s' =>
    if isspace c
    then match cur with
         | [] => split_go [] s'
         | _ => rev cur :: split_go [] s'
         end
    else split_go (c :: cur) s'
  end.

Definition split (s : str) : list str := split_go [] s.

(** [s.strip()] *)
Fixpoint lstrip (s : str) : str :=
  match s with
  | [] => []
  | c :: s' => if isspace c then lstrip s' else s
  end.

Definition rstrip (s : str) : str := rev (lstrip (rev s)).
Definition strip (s : str) : str := rstrip (lstrip s).

(** [s.startswith(p)], with the comparison of characters as a parameter
    (exact, or case-insensitive for [re.I]). *)
Fixpoint starts_with (eqc : char -> char -> bool) (p s : str) : bool :=
  match p, s with
  | [], _ => true
  | _ :: _, [] => false
  | a :: p', b :: s' => eqc a b && starts_with eqc p' s'
  end.

Definition startswith (s p : str) : bool := starts_with N.eqb p s.

(** [p in s] *)
Fixpoint occurs (eqc : char -> char -> bool) (p s : str) : bool :=
  starts_with eqc p s ||
  match s with
  | [] => false
  | _ :: s' => occurs eqc p s'
  end.

Definition contains (p s : str) : bool := occurs N.eqb p s.

(** [s.count(c)] for a one-character argument *)
Definition count (c : char) (s : str) : Z :=
  Z.of_nat (length (filter (fun x => x = c) s)).

(** [len] *)
Definition len {A} (l : list A) : Z := Z.of_nat (length l).

(** [s.split(sep)] is [re_split [sep] s] below. *)

(** [str.upper], for Basic Latin and Latin-1 as [lower_char] *)
Definition upper_char (c : char) : str :=
  if ((0x61 <=? c) && (c <=? 0x7A))%N then [(c - 0x20)%N]
  else if ((0xE0 <=? c) && (c <=? 0xFE) && negb (c =? 0xF7))%N
  then [(c - 0x20)%N]
  else if (c =? 0xDF)%N then [0x53%N; 0x53%N]
  else if (c =? 0xFF)%N then [0x178%N]
  else if (c =? 0xB5)%N then [0x39C%N]
  else [c].

Definition upper (s : str) : str := concat (map upper_char s).

(** [sep.join(parts)] *)
Fixpoint join (sep : str) (parts : list str) : str :=
  match parts with
  | [] => []
  | [p] => p
  | p :: ps => p ++ sep ++ join sep ps
  end.

(** [l[:n]] and [l[-n:]] for [n >= 0] *)
Definition slice_to {A} (n : nat) (l : list A) : list A := take n l.
Definition slice_last {A} (n : nat) (l : list A) : list A :=
  drop (length l - n) l.

Definition nl : str := [0x0A%N].

(** *** The regular expressions of the planner

    Every pattern of the source is an alternation of literal strings,
    [(a1|a2|...)]; it is kept as the list of its alternatives. *)

Definition regex := list str.

(** Characters compared by [re.I]. *)
Definition eq_ignore_case (a b : char) : bool :=
  (lower_char a =? lower_char b)%N.

(** [re.compile(alts, re.I).search(s)] as a truth value *)
Definition re_search_i (alts : regex) (s : str) : bool :=
  existsb (fun a => occurs eq_ignore_case a s) alts.

(** The first alternative that matches at the start of [s] *)
Definition match_here (alts : regex) (s : str) : option str :=
  find (fun a => starts_with N.eqb a s) alts.

(** [re.split(alts, s)] for non-empty alternatives: scan from the left, cut
    at each match, go on after it. [skip] counts the characters of the
    current match that are still to be passed over. *)
Fixpoint re_split_go (alts : regex) (skip : nat) (s : str) : list str :=
  match s with
  | [] => [[]]
  | c :: s' =>
    match skip with
    | S k => re_split_go alts k s'
    | O =>
      match match_here alts s with
      | Some a => [] :: re_split_go alts (length a - 1) s'
      | None =>
        match re_split_go alts 0 s' with
        | p :: ps => (c :: p) :: ps
        | [] => [[c]]
        end
      end
    end
  end.

Definition re_split (alts : regex) (s : str) : list str := re_split_go alts 0 s.

(** *** Exceptions and results *)

(** The response attached to an [HTTPError]: its status code, and its truth
    value as [e.response] is tested in [e.response.status_code if e.response
    else "Unknown"] (for a [requests.Response], the value of [ok]). *)
Record http_response := { truthy : bool; status_code : Z }.

(** A [requests.Response] of the given status. Its truth value is its [ok]
    ([Response.__bool__] returns [self.ok]), which is false when
    [raise_for_status] would raise: for the statuses from 400 to 599. *)
Definition Response (status_code : Z) : http_response :=
  {| truthy := negb (bool_decide (400 <= status_code < 600));
     status_code := status_code |}.

Inductive exn_class :=
| Exception_
| Timeout
| ConnectionError
| HTTPError (response : option http_response)
| TypeError
| KeyError
| ZeroDivisionError.

(** An exception object; [str(e)] is its message. *)
Record exn := Exn { exn_cls : exn_class; exn_msg : string }.

Inductive result (A : Type) :=
| Returned (a : A)
| Raised (e : exn).
Arguments Returned {A} a.
Arguments Raised {A} e.

(** Computations of the modelled code: they read and change a state [S], and
    return a value or raise. A change made before an exception is raised
    stays made. *)
Definition M (S A : Type) : Type := S -> result A * S.

Definition ret {S A} (a : A) : M S A := fun s => (Returned a, s).
Definition raise {S A} (e : exn) : M S A := fun s => (Raised e, s).
Definition bind {S A B} (m : M S A) (k : A -> M S B) : M S B :=
  fun s => match m s with
           | (Returned a, s') => k a s'
           | (Raised e, s') => (Raised e, s')
           end.
Definition try_except {S A} (body : M S A) (handler : exn -> M S A) : M S A :=
  fun s => match body s with
           | (Returned a, s') => (Returned a, s')
           | (Raised e, s') => handler e s'
           end.
Definition get {S} : M S S := fun s => (Returned s, s).
Definition modify {S} (f : S -> S) : M S unit := fun s => (Returned tt, f s).

Declare Scope py_scope.
Delimit Scope py_scope with py.
Notation "x <- m ;; k" := (bind m (fun x => k))
  (at level 20, m at level 99, k at level 200, only parsing) : py_scope.
Notation "' p <- m ;; k" := (bind m (fun p => k))
  (at level 20, p pattern, m at level 99, k at level 200, only parsing)
  : py_scope.
Notation "m ;;; k" := (bind m (fun _ => k))
  (at level 100, k at level 200, right associativity, only parsing) : py_scope.

Definition is_raised {A} (r : result A) : bool :=
  match r with Raised _ => true | Returned _ => false end.

(** Comparisons of times and scores *)
Definition Qlt_bool (a b : Q) : bool := negb (Qle_bool b a).
Definition Qgt_bool (a b : Q) : bool := negb (Qle_bool a b).

End Py.

Import Py.

(** ** SearchPlanner ([agent_orchestrator.py]) *)

Module SearchPlanner.

Definition complexity_patterns : list (string * regex) :=
  [ ("comparison"%string,
     map py ["comparer"; "comparaison"; "vs"; "versus"; "différence"]%string);
    ("multi_aspect"%string,
     map py ["et"; "ainsi que"; "également"; "plus"; "comment"; "pourquoi";
             "quand"; "où"]%string);
    ("temporal"%string,
     map py ["aujourd'hui"; "hier"; "demain"; "cette année"; "dernier";
             "prochain"; "récemment"]%string);
    ("quantitative"%string,
     map py ["prix"; "coût"; "valeur"; "montant"; "chiffre"; "statistique";
             "pourcentage"]%string) ].

Definition web_indicators : list str :=
  map py ["aujourd'hui"; "actuellement"; "récemment"; "dernier"; "nouveau";
          "prix"; "coût"; "valeur"; "statistique"; "actualité"; "news";
          "météo"; "température"; "prévision"; "cours"; "bourse";
          "site web"; "internet"; "online"; "disponible"]%string.

Definition _needs_web_search (question : str) : bool :=
  let question_lower := lower question in
  existsb (fun indicator => contains indicator question_lower) web_indicators.

Definition _assess_complexity (question : str) : Z :=
  let complexity := 0 in
  let complexity :=
    if bool_decide (len (split question) > 15) then complexity + 2
    else complexity in
  let complexity :=
    fold_left
      (fun complexity '(_, pattern) =>
         if re_search_i pattern question then complexity + 2 else complexity)
      complexity_patterns complexity in
  let complexity :=
    if bool_decide (count 0x3F%N question > 1)
       || existsb (fun word => contains word (lower question))
                  (map py ["et"; "ou"; "mais"]%string)
    then complexity + 3 else complexity in
  Z.min 10 complexity.

Definition connectors : regex :=
  map py ["et"; "ou"; "mais"; "ainsi que"; "également"]%string.

Definition _break_down_question (question : str) : list str :=
  let sub_questions := [question] in
  if bool_decide (len (split question) > 20) then
    let parts := re_split connectors question in
    if bool_decide (len parts > 1)
    then map (fun part => strip part ++ py "?")
             (filter (fun part => strip part ≠ []) parts)
    else sub_questions
  else sub_questions.

Record analysis := {
  needs_web : bool;
  complexity : Z;
  sub_questions : list str;
  search_strategy : string;
  estimated_searches : Z
}.

Definition analyze_question (question : str) : analysis :=
  let needs_web := _needs_web_search question in
  let complexity := _assess_complexity question in
  let sub_questions := _break_down_question question in
  if bool_decide (len sub_questions > 1) then
    {| needs_web := needs_web; complexity := complexity;
       sub_questions := sub_questions;
       search_strategy :=
         if bool_decide (complexity > 7) then "sequential" else "parallel";
       estimated_searches := len sub_questions |}
  else
    {| needs_web := needs_web; complexity := complexity;
       sub_questions := sub_questions;
       search_strategy := "single";
       estimated_searches := 1 |}.

End SearchPlanner.


(** ** The environment of a run

    What the modelled code observes of the outside: the clock read by
    [time.time()] and [datetime.now()] (seconds), the pauses made with
    [time.sleep], and how often the search provider has been invoked. *)

Record world := {
  now : Q;
  provider_calls : nat;
  slept : list Z
}.

Definition time_sleep (seconds : Z) : M world unit :=
  modify (fun w => {| now := (now w + inject_Z seconds)%Q;
                      provider_calls := provider_calls w;
                      slept := slept w ++ [seconds] |}).

(** ** CircuitBreaker and WebSearchEngine ([web_search.py]) *)

Module CircuitBreaker.

Record t := {
  failure_threshold : Z;
  recovery_timeout : Z;
  failure_count : Z;
  last_failure_time : option Q;
  state : string
}.

Definition __init__ (failure_threshold recovery_timeout : Z) : t :=
  {| failure_threshold := failure_threshold;
     recovery_timeout := recovery_timeout;
     failure_count := 0;
     last_failure_time := None;
     state := "CLOSED" |}.

Definition set_state (self : t) (st : string) : t :=
  {| failure_threshold := failure_threshold self;
     recovery_timeout := recovery_timeout self;
     failure_count := failure_count self;
     last_failure_time := last_failure_time self;
     state := st |}.

Definition _on_success (self : t) : t :=
  {| failure_threshold := failure_threshold self;
     recovery_timeout := recovery_timeout self;
     failure_count := 0;
     last_failure_time := last_failure_time self;
     state := "CLOSED" |}.

Definition _on_failure (self : t) (time_time : Q) : t :=
  let failure_count := failure_count self + 1 in
  {| failure_threshold := failure_threshold self;
     recovery_timeout := recovery_timeout self;
     failure_count := failure_count;
     last_failure_time := Some time_time;
     state := if bool_decide (failure_count >= failure_threshold self)
              then "OPEN" else state self |}.

Definition blocked : exn := Exn Exception_ "Circuit breaker is OPEN".

(** The test at the head of [call]: the breaker after it, or the exception
    it raises. With no failure recorded, [time.time() - None] is a
    [TypeError]. *)
Definition gate (self : t) (time_time : Q) : result t :=
  if bool_decide (state self = "OPEN") then
    match last_failure_time self with
    | None =>
      Raised (Exn TypeError "unsupported operand type(s) for -: 'float' and 'NoneType'")
    | Some last =>
      if Qgt_bool (time_time - last) (inject_Z (recovery_timeout self))
      then Returned (set_state self "HALF_OPEN")
      else Raised blocked
    end
  else Returned self.

Definition call {A} (func : M world A) : M (t * world) A :=
  fun '(self, w) =>
    match gate self (now w) with
    | Raised e => (Raised e, (self, w))
    | Returned self =>
      match func w with
      | (Returned result, w') => (Returned result, (_on_success self, w'))
      | (Raised e, w') => (Raised e, (_on_failure self (now w'), w'))
      end
    end.

(** A sequence of calls, one function after the other; their outcomes. *)
Fixpoint calls {A} (funcs : list (M world A)) (s : t * world)
  : list (result A) * (t * world) :=
  match funcs with
  | [] => ([], s)
  | func :: rest =>
    let '(r, s') := call func s in
    let '(rs, s'') := calls rest s' in
    (r :: rs, s'')
  end.

End CircuitBreaker.

Module WebSearchEngine.

(** One entry as the provider yields it: any of the keys may be absent. *)
Record ddgs_result := {
  ddgs_title : option str;
  ddgs_href : option str;
  ddgs_body : option str
}.

(** A search result of the engine (a dict; [_validate_results] tests the
    presence of the first three keys). *)
Record search_result := {
  title : option str;
  url : option str;
  snippet : option str;
  source : str;
  timestamp : Q;
  query : str
}.

Record t := {
  max_retries : Z;
  timeout : Z;
  max_results : Z;
  circuit_breaker : CircuitBreaker.t
}.

Definition __init__ (max_retries timeout max_results : Z) : t :=
  {| max_retries := max_retries; timeout := timeout;
     max_results := max_results;
     circuit_breaker := CircuitBreaker.__init__ 5 60 |}.

Definition set_circuit_breaker (self : t) (cb : CircuitBreaker.t) : t :=
  {| max_retries := max_retries self; timeout := timeout self;
     max_results := max_results self; circuit_breaker := cb |}.

(** [range(n)] *)
Definition range (n : Z) : list Z := map Z.of_nat (seq 0 (Z.to_nat n)).

(** [f"{x}"] for [x] an [int] or [None] or a string *)
Definition fmt_opt (x : option string) : string :=
  match x with Some s => s | None => "None" end.

(** The value of [e.response.status_code if e.response else "Unknown"] *)
Inductive status := Code (n : Z) | Unknown.

Definition status_of (response : option http_response) : status :=
  match response with
  | Some r => if truthy r then Code (status_code r) else Unknown
  | None => Unknown
  end.

Definition fmt_status (s : status) : string :=
  match s with Code n => pretty n | Unknown => "Unknown" end.

(** The provider answers 429 (with a response that counts as true) *)
Definition is_429 (r : result (list ddgs_result)) : Prop :=
  exists response msg,
    r = Raised (Exn (HTTPError (Some response)) msg)
    /\ truthy response = true /\ status_code response = 429.

Section Provider.

(** The search provider: the outcome of its [i]-th invocation
    ([DDGS().text(query, max_results=..., timelimit=...)], read to the end). *)
Variable provider : nat -> str -> Z -> Z -> result (list ddgs_result).

Definition ddgs_text (query : str) (max_results timelimit : Z)
  : M world (list ddgs_result) :=
  fun w =>
    (provider (provider_calls w) query max_results timelimit,
     {| now := now w; provider_calls := S (provider_calls w);
        slept := slept w |}).

Definition to_result (query : str) (time_time : Q) (r : ddgs_result)
  : search_result :=
  {| title := Some (default [] (ddgs_title r));
     url := Some (default [] (ddgs_href r));
     snippet := Some (default [] (ddgs_body r));
     source := py "duckduckgo";
     timestamp := time_time;
     query := query |}.

Definition exhausted (self : t) (last_exception : option string) : exn :=
  Exn Exception_
      ("Échec après " +:+ pretty (max_retries self)
       +:+ " tentatives. Dernière erreur: " +:+ fmt_opt last_exception).

(** The loop [for attempt in range(self.max_retries)] of
    [_perform_search_with_retry], over the attempts still to make. *)
Fixpoint retry_loop (self : t) (query : str) (max_results : Z)
    (attempts : list Z) (last_exception : option string)
  : M world (list search_result) :=
  match attempts with
  | [] => raise (exhausted self last_exception)
  | attempt :: rest =>
    fun w =>
    match ddgs_text query max_results (timeout self) w with
    | (Returned search_results, w) =>
      (Returned (map (to_result query (now w)) search_results), w)
    | (Raised e, w) =>
      let pause (seconds : Z) : M world unit :=
        if bool_decide (attempt < max_retries self - 1)
        then time_sleep seconds else ret tt in
      match exn_cls e with
      | Timeout =>
        (pause (2 ^ attempt) ;;;
         retry_loop self query max_results rest (Some "Timeout"))%py w
      | ConnectionError =>
        (pause 1 ;;;
         retry_loop self query max_results rest (Some "Connection Error"))%py w
      | HTTPError response =>
        let status_code := status_of response in
        let last_exception := Some ("HTTP " +:+ fmt_status status_code) in
        match status_code with
        | Code n =>
          if bool_decide (n = 429) then
            (time_sleep 60 ;;;
             retry_loop self query max_results rest last_exception)%py w
          else if bool_decide (n >= 500) then
            (pause 5 ;;;
             retry_loop self query max_results rest last_exception)%py w
          else
            (* break *)
            raise (exhausted self last_exception) w
        | Unknown =>
          (* "Unknown" >= 500, raised inside the handler *)
          raise (Exn TypeError
                   "'>=' not supported between instances of 'str' and 'int'") w
        end
      | _ =>
        (pause 1 ;;;
         retry_loop self query max_results rest (Some (exn_msg e)))%py w
      end
    end
  end.

Definition _perform_search_with_retry (self : t) (query : str)
    (max_results : Z) : M world (list search_result) :=
  retry_loop self query max_results (range (max_retries self)) None.

Definition http_prefixes : list str := [py "http://"; py "https://"].

(** One round of the loop of [_validate_results]: the cleaned entry, or
    [None] where the source says [continue]. *)
Definition validate_one (result : search_result) : option search_result :=
  match title result, url result, snippet result with
  | Some title_, Some url_, Some snippet_ =>
    if negb (existsb (startswith url_) http_prefixes) then None
    else
      let title_ := strip title_ in
      let snippet_ := strip snippet_ in
      if bool_decide (title_ = []) || bool_decide (snippet_ = []) then None
      else if bool_decide (len title_ < 3) || bool_decide (len snippet_ < 10)
      then None
      else Some {| title := Some title_; url := Some url_;
                   snippet := Some snippet_; source := source result;
                   timestamp := timestamp result; query := query result |}
  | _, _, _ => None
  end.

Definition _validate_results (results : list search_result)
  : list search_result :=
  omap validate_one results.

Definition search (query : str) (max_results : option Z)
  : M (t * world) (list search_result) :=
  fun '(self, w) =>
    let max_results := default (WebSearchEngine.max_results self) max_results in
    match CircuitBreaker.call
            (_perform_search_with_retry self query max_results)
            (circuit_breaker self, w) with
    | (Returned results, (cb, w)) =>
      (Returned (_validate_results results), (set_circuit_breaker self cb, w))
    | (Raised e, (cb, w)) =>
      (* except Exception: return [] *)
      (Returned [], (set_circuit_breaker self cb, w))
    end.

(** The loop of [search_multiple_queries], with the dict [results] *)
Fixpoint search_multiple_loop (queries : list str) (max_results_per_query : Z)
    (results : gmap str (list search_result))
  : M (t * world) (gmap str (list search_result)) :=
  match queries with
  | [] => ret results
  | query :: rest =>
    (found <- search query (Some max_results_per_query) ;;
     search_multiple_loop rest max_results_per_query
       (<[query := found]> results))%py
  end.

Definition search_multiple_queries (queries : list str)
    (max_results_per_query : Z)
  : M (t * world) (gmap str (list search_result)) :=
  search_multiple_loop queries max_results_per_query ∅.

End Provider.

(** The dict of [get_search_stats] *)
Record search_stats := {
  circuit_breaker_state : string;
  stats_failure_count : Z;
  stats_max_retries : Z;
  stats_timeout : Z
}.

Definition get_search_stats (self : t) : search_stats :=
  {| circuit_breaker_state := CircuitBreaker.state (circuit_breaker self);
     stats_failure_count := CircuitBreaker.failure_count (circuit_breaker self);
     stats_max_retries := max_retries self;
     stats_timeout := timeout self |}.

End WebSearchEngine.

(** ** Responses

    The dicts returned by [ExtendedRAGPipeline.ask_question] and
    [WebAwareAgent.answer_question]; a key that a dict may lack is an
    [option]. *)

Record source_entry := {
  src_url : str;
  src_type : str;
  src_title : str
}.

Record sub_response := {
  sr_step : option Z;
  sr_question : str;
  sr_enriched_question : option str;
  sr_answer : str;
  sr_sources : list source_entry
}.

Record response := {
  answer : str;
  sources : option (list source_entry);
  error : option string;
  processing_time : option Q;
  search_strategy : option string;
  sub_questions_count : option Z;
  context_chunks : option Z;
  context_length : option Z;
  search_queries : option (list str);
  web_sources : option (list str);
  local_sources : option Z;
  sub_responses : option (list sub_response);
  sequential_steps : option (list sub_response)
}.

(** ** ConversationMemory ([extended_rag_pipeline.py]) *)

Module ConversationMemory.

(** An interaction. (Its ["response"] key, a reference to the response dict,
    is read by no method and is left out.) *)
Record interaction := {
  timestamp : Q;
  question : str;
  i_search_queries : list str;
  i_web_sources : list str
}.

(** [adds] is not a field of the source: it counts the calls of
    [add_interaction], to state how often the memory is written. *)
Record t := {
  max_memory : Z;
  ttl_hours : Z;
  interactions : list interaction;
  adds : nat
}.

Definition __init__ (max_memory ttl_hours : Z) : t :=
  {| max_memory := max_memory; ttl_hours := ttl_hours;
     interactions := []; adds := 0 |}.

(** [datetime.now() - timedelta(hours=hours)] *)
Definition cutoff (datetime_now : Q) (hours : Z) : Q :=
  (datetime_now - inject_Z (hours * 3600))%Q.

Definition fresh (cutoff : Q) (i : interaction) : bool :=
  Qgt_bool (timestamp i) cutoff.

Definition _cleanup_expired (self : t) (datetime_now : Q) : t :=
  let cutoff := cutoff datetime_now (ttl_hours self) in
  {| max_memory := max_memory self; ttl_hours := ttl_hours self;
     interactions := List.filter (fresh cutoff) (interactions self);
     adds := adds self |}.

Definition add_interaction (self : t) (datetime_now : Q) (question : str)
    (response : response) : t :=
  let interaction :=
    {| timestamp := datetime_now;
       question := question;
       i_search_queries := default [] (search_queries response);
       i_web_sources := default [] (web_sources response) |} in
  let interactions := interactions self ++ [interaction] in
  let interactions :=
    if bool_decide (len interactions > max_memory self)
    then tail interactions (* pop(0) *)
    else interactions in
  _cleanup_expired
    {| max_memory := max_memory self; ttl_hours := ttl_hours self;
       interactions := interactions; adds := S (adds self) |}
    datetime_now.

Definition get_recent_context (self : t) (datetime_now : Q) (hours : Z)
  : list interaction :=
  let cutoff := cutoff datetime_now hours in
  let recent := List.filter (fresh cutoff) (interactions self) in
  slice_last 5 recent.

Definition word_set (query : str) : gset str :=
  list_to_set (split (lower query)).

Definition _similar_queries (query1 query2 : str) : bool :=
  let words1 := word_set query1 in
  let words2 := word_set query2 in
  let intersection := words1 ∩ words2 in
  let union := words1 ∪ words2 in
  if bool_decide (union = ∅) then false
  else Qgt_bool (Z.of_nat (size intersection) # Pos.of_nat (size union))
                (7 # 10).

Definition is_recently_searched (self : t) (datetime_now : Q) (query : str)
    (hours : Z) : bool :=
  let cutoff := cutoff datetime_now hours in
  existsb (fun interaction =>
             fresh cutoff interaction
             && existsb (_similar_queries query) (i_search_queries interaction))
          (interactions self).

(** The operations of the memory, as a caller issues them *)
Inductive op :=
| Record_ (datetime_now : Q) (question : str) (response : response)
| RecentContext (datetime_now : Q) (hours : Z)
| RecentlySearched (datetime_now : Q) (query : str) (hours : Z).

Definition step (self : t) (o : op) : t :=
  match o with
  | Record_ datetime_now question response =>
    add_interaction self datetime_now question response
  | RecentContext _ _ => self
  | RecentlySearched _ _ _ => self
  end.

Definition run (self : t) (ops : list op) : t := fold_left step ops self.

End ConversationMemory.

(** ** ExtendedRAGPipeline ([extended_rag_pipeline.py]) *)

Module ExtendedRAGPipeline.

(** A retrieval chunk (a dict): the keys the pipeline reads. *)
Record chunk := {
  text : option str;
  source : option str;
  source_type : option str;
  timestamp : option Q;
  relevance_score : option Q;
  title : option str;
  url : option str;
  chunk_id : option Z
}.

Definition set_relevance_score (c : chunk) (score : Q) : chunk :=
  {| text := text c; source := source c; source_type := source_type c;
     timestamp := timestamp c; relevance_score := Some score;
     title := title c; url := url c; chunk_id := chunk_id c |}.

Record stats := {
  total_queries : Z;
  web_searches : Z;
  local_searches : Z;
  cache_hits : Z
}.

Record t := {
  local_available : bool;
  web_search : WebSearchEngine.t;
  memory : ConversationMemory.t;
  pstats : stats
}.

Definition set_web_search (self : t) (e : WebSearchEngine.t) : t :=
  {| local_available := local_available self; web_search := e;
     memory := memory self; pstats := pstats self |}.
Definition set_memory (self : t) (m : ConversationMemory.t) : t :=
  {| local_available := local_available self; web_search := web_search self;
     memory := m; pstats := pstats self |}.
Definition set_stats (self : t) (st : stats) : t :=
  {| local_available := local_available self; web_search := web_search self;
     memory := memory self; pstats := st |}.

Definition incr_total_queries (st : stats) : stats :=
  {| total_queries := total_queries st + 1; web_searches := web_searches st;
     local_searches := local_searches st; cache_hits := cache_hits st |}.
Definition incr_web_searches (st : stats) : stats :=
  {| total_queries := total_queries st; web_searches := web_searches st + 1;
     local_searches := local_searches st; cache_hits := cache_hits st |}.
Definition incr_local_searches (st : stats) : stats :=
  {| total_queries := total_queries st; web_searches := web_searches st;
     local_searches := local_searches st + 1; cache_hits := cache_hits st |}.
Definition incr_cache_hits (st : stats) : stats :=
  {| total_queries := total_queries st; web_searches := web_searches st;
     local_searches := local_searches st; cache_hits := cache_hits st + 1 |}.

(** The pipeline before its first question: the engine and the memory with
    their default arguments. *)
Definition __init__ (local_available : bool) : t :=
  {| local_available := local_available;
     web_search := WebSearchEngine.__init__ 3 10 5;
     memory := ConversationMemory.__init__ 10 24;
     pstats := {| total_queries := 0; web_searches := 0;
                  local_searches := 0; cache_hits := 0 |} |}.

(** *** Scoring and fusion *)

Definition clamp01 (score : Q) : Q := Qmax 0 (Qmin 1 score).

Definition _calculate_relevance_score (datetime_now : Q) (result : chunk) : Q :=
  let score := (5 # 10)%Q in
  let score :=
    if bool_decide (source_type result = Some (py "web")) then
      let timestamp := default 0%Q (timestamp result) in
      let hours_old := ((datetime_now - timestamp) / 3600)%Q in
      if Qlt_bool hours_old 24 then (score + (3 # 10))%Q
      else if Qlt_bool hours_old 168 then (score + (2 # 10))%Q
      else score
    else score in
  let score :=
    if bool_decide (source_type result = Some (py "local"))
    then (score + (2 # 10))%Q else score in
  let text_length := len (default [] (text result)) in
  let score :=
    if bool_decide (text_length < 100) then (score - (2 # 10))%Q
    else if bool_decide (text_length > 1000) then (score + (1 # 10))%Q
    else score in
  clamp01 score.

(** [sorted(l, key=key, reverse=True)]: descending, and stable (entries with
    equal keys stay in their order). *)
Fixpoint insert_desc {A} (key : A -> Q) (x : A) (l : list A) : list A :=
  match l with
  | [] => [x]
  | y :: l' =>
    if Qgt_bool (key y) (key x) then y :: insert_desc key x l'
    else x :: l
  end.

Definition sorted_desc {A} (key : A -> Q) (l : list A) : list A :=
  foldr (insert_desc key) [] l.

Definition source_type_of (result : chunk) : str :=
  default (py "unknown") (source_type result).

(** The loop of [_diversify_sources], with the dict [source_counts] *)
Fixpoint diversify_loop (max_per_source : Z) (source_counts : gmap str Z)
    (results : list chunk) : list chunk :=
  match results with
  | [] => []
  | result :: rest =>
    let source_type := source_type_of result in
    if bool_decide (default 0 (source_counts !! source_type) < max_per_source)
    then result ::
         diversify_loop max_per_source
           (<[source_type := default 0 (source_counts !! source_type) + 1]>
              source_counts)
           rest
    else diversify_loop max_per_source source_counts rest
  end.

Definition _diversify_sources (results : list chunk) (max_per_source : Z)
  : list chunk :=
  diversify_loop max_per_source ∅ results.

Definition score_of (c : chunk) : Q := default 0%Q (relevance_score c).

(** The loop that writes the score into each result *)
Definition scored (calculate : chunk -> Q) (all_results : list chunk)
  : list chunk :=
  map (fun result => set_relevance_score result (calculate result)) all_results.

(** [_fuse_results], for a scoring function. The scores of the source are
    floats; [_calculate_relevance_score] above computes them as exact
    rationals, which can differ from the floats in the last bit (0.7 - 0.2)
    and so in which chunks tie. *)
Definition fuse_with (calculate : chunk -> Q)
    (local_results web_results : list chunk) : list chunk :=
  let all_results := local_results ++ web_results in
  let all_results := scored calculate all_results in
  let sorted_results := sorted_desc score_of all_results in
  let diversified := _diversify_sources sorted_results 3 in
  slice_to 10 diversified.

Definition _fuse_results (datetime_now : Q)
    (local_results web_results : list chunk) : list chunk :=
  fuse_with (_calculate_relevance_score datetime_now)
    local_results web_results.

(** For the statements: the number of chunks of a source type, and the
    chunks of a given score. *)
Definition count_source_type (st : str) (l : list chunk) : nat :=
  length (filter (fun c => source_type_of c = st) l).

Definition has_score (v : Q) (c : chunk) : bool := Qeq_bool (score_of c) v.

(** *** Generation *)

Definition _build_context_text (context : list chunk) : result str :=
  let part (chunk : chunk) : result str :=
    let source_type := source_type_of chunk in
    let source := default (py "unknown") (source chunk) in
    let source_marker :=
      py "[" ++ upper source_type ++ py ": " ++ source ++ py "]" in
    match text chunk with
    | Some text => Returned (source_marker ++ nl ++ text)
    | None => Raised (Exn KeyError "'text'")
    end in
  let fix parts (context : list chunk) : result (list str) :=
    match context with
    | [] => Returned []
    | chunk :: rest =>
      match part chunk with
      | Raised e => Raised e
      | Returned p =>
        match parts rest with
        | Raised e => Raised e
        | Returned ps => Returned (p :: ps)
        end
      end
    end in
  match parts context with
  | Raised e => Raised e
  | Returned context_parts =>
    Returned (join (nl ++ nl ++ py "---" ++ nl ++ nl) context_parts)
  end.

Definition _fallback_generation (question : str) (context : list chunk) : str :=
  let has_local :=
    existsb (fun c => bool_decide (source_type c = Some (py "local"))) context in
  let has_web :=
    existsb (fun c => bool_decide (source_type c = Some (py "web"))) context in
  if has_web && has_local then
    py "Basé sur les documents internes et les informations web récentes, voici la réponse à votre question."
  else if has_web then
    py "Selon les informations trouvées sur le web, voici ce que je peux vous dire."
  else if has_local then
    py "D'après les documents internes, voici la réponse à votre question."
  else
    py "Je n'ai pas trouvé d'informations pertinentes dans les sources disponibles.".

(** The loop of [_extract_sources], with the set [seen_sources] *)
Fixpoint extract_loop (seen_sources : gset str) (context : list chunk)
  : list source_entry :=
  match context with
  | [] => []
  | chunk :: rest =>
    let source := default (py "unknown") (source chunk) in
    let source_type := source_type_of chunk in
    if bool_decide (source ∉ seen_sources) then
      {| src_url := if bool_decide (source_type = py "web") then source else [];
         src_type := source_type;
         src_title := default source (title chunk) |}
      :: extract_loop ({[ source ]} ∪ seen_sources) rest
    else extract_loop seen_sources rest
  end.

Definition _extract_sources (context : list chunk) : list source_entry :=
  extract_loop ∅ context.

Section Collaborators.

(** The collaborators of the pipeline:
    - the search provider behind [WebSearchEngine];
    - [local_rag.ask_question(question, max_context_results=5)]: the value
      under ["context"] of the dict it returns, if any, or the exception;
    - [web_processor.process_search_result];
    - the LM Studio client: the answer it generates, or [None] when it is
      not reachable or fails. *)
Variable provider : nat -> str -> Z -> Z -> result (list WebSearchEngine.ddgs_result).
Variable local_rag : str -> result (option str).
Variable process_search_result : WebSearchEngine.search_result -> result (list chunk).
Variable lm_studio : str -> list chunk -> option str.

Definition _simulate_generation (question : str) (context : list chunk) : str :=
  match lm_studio question context with
  | Some answer => answer
  | None => _fallback_generation question context
  end.

(** The keys of the dict built by [_generate_response] *)
Record generated := {
  g_answer : str;
  g_sources : list source_entry;
  g_context_chunks : Z;
  g_context_length : Z
}.

Definition _generate_response (question : str) (context : list chunk)
  : result generated :=
  match _build_context_text context with
  | Raised e => Raised e
  | Returned context_text =>
    let answer := _simulate_generation question context in
    let sources := _extract_sources context in
    Returned {| g_answer := answer; g_sources := sources;
                g_context_chunks := len context;
                g_context_length := len context_text |}
  end.

(** [enumerate(l)] *)
Definition enumerate {A} (l : list A) : list (Z * A) :=
  imap (fun i x => (Z.of_nat i, x)) l.

Definition _search_local (self : t) (question : str) : list chunk :=
  if negb (local_available self) then []
  else
    match local_rag question with
    | Raised _ => []
    | Returned None => []
    | Returned (Some context) =>
      let context_parts := re_split [nl ++ nl] context in
      omap (fun '(i, part) =>
              if bool_decide (strip part ≠ []) then
                Some {| text := Some (strip part);
                        source := Some (py "local_documents");
                        chunk_id := Some i;
                        source_type := Some (py "local");
                        relevance_score := Some (8 # 10)%Q;
                        timestamp := None; title := None; url := None |}
              else None)
           (enumerate context_parts)
    end.

(** The loop over the search results in [_search_web_enhanced] *)
Fixpoint process_all (search_results : list WebSearchEngine.search_result)
  : result (list chunk) :=
  match search_results with
  | [] => Returned []
  | result :: rest =>
    match process_search_result result with
    | Raised e => Raised e
    | Returned chunks =>
      match process_all rest with
      | Raised e => Raised e
      | Returned web_chunks => Returned (chunks ++ web_chunks)
      end
    end
  end.

(** [_index_web_chunks_temporarily] acts on the embedding manager and the
    vector database only and catches every exception: it leaves no trace in
    the state modelled here. *)
Definition _search_web_enhanced (question : str) (max_results : Z)
  : M (t * world) (list chunk * list str) :=
  fun '(self, w) =>
    let search_queries := [question] in
    match WebSearchEngine.search provider question (Some max_results)
            (web_search self, w) with
    | (Returned search_results, (engine, w)) =>
      match process_all search_results with
      | Returned web_chunks =>
        (Returned (web_chunks, search_queries), (set_web_search self engine, w))
      | Raised _ =>
        (Returned ([], search_queries), (set_web_search self engine, w))
      end
    | (Raised _, (engine, w)) =>
      (Returned ([], search_queries), (set_web_search self engine, w))
    end.

Definition error_response (e : exn) (elapsed : Q) : response :=
  {| answer := py "Désolé, une erreur s'est produite lors du traitement de votre question.";
     sources := Some [];
     error := Some (exn_msg e);
     processing_time := Some elapsed;
     search_strategy := None; sub_questions_count := None;
     context_chunks := None; context_length := None;
     search_queries := None; web_sources := None; local_sources := None;
     sub_responses := None; sequential_steps := None |}.

(** Step 2 of [ask_question]: the web search, when it is asked for and no
    similar search was made in the last hour. *)
Definition search_web_step (question : str) (use_web : bool)
    (max_web_results : Z) : M (t * world) (list chunk * list str) :=
  fun '(self, w) =>
    if use_web then
      if negb (ConversationMemory.is_recently_searched
                 (memory self) (now w) question 1)
      then
        match _search_web_enhanced question max_web_results (self, w) with
        | (Returned (web_results, queries), (self, w)) =>
          (Returned (web_results, queries),
           (set_stats self (incr_web_searches (pstats self)), w))
        | (Raised e, s) => (Raised e, s)
        end
      else
        (Returned ([], []),
         (set_stats self (incr_cache_hits (pstats self)), w))
    else (Returned ([], []), (self, w)).

(** The body of the [try] of [ask_question] *)
Definition ask_body (question : str) (use_web : bool) (max_web_results : Z)
    (start_time : Q) : M (t * world) response :=
  fun '(self, w) =>
    let local_results := _search_local self question in
    let self := set_stats self (incr_local_searches (pstats self)) in
    match search_web_step question use_web max_web_results (self, w) with
    | (Raised e, s) => (Raised e, s)
    | (Returned (web_results, search_queries), (self, w)) =>
      let combined_context := _fuse_results (now w) local_results web_results in
      match _generate_response question combined_context with
      | Raised e => (Raised e, (self, w))
      | Returned response =>
        let full_response :=
          {| answer := g_answer response;
             sources := Some (g_sources response);
             context_chunks := Some (g_context_chunks response);
             context_length := Some (g_context_length response);
             search_queries := Some search_queries;
             web_sources :=
               Some (map (fun r => default [] (url r)) web_results);
             local_sources := Some (len local_results);
             processing_time := Some (now w - start_time)%Q;
             error := None; search_strategy := None;
             sub_questions_count := None;
             sub_responses := None; sequential_steps := None |} in
        let self :=
          set_memory self
            (ConversationMemory.add_interaction (memory self) (now w)
               question full_response) in
        (Returned full_response, (self, w))
      end
    end.

(** The handler of the [except] of [ask_question] *)
Definition ask_handler (start_time : Q) (e : exn) : M (t * world) response :=
  fun '(self, w) =>
    (Returned (error_response e (now w - start_time)%Q), (self, w)).

Definition ask_question (question : str) (use_web : bool) (max_web_results : Z)
  : M (t * world) response :=
  fun '(self, w) =>
    let self := set_stats self (incr_total_queries (pstats self)) in
    let start_time := now w in
    try_except (ask_body question use_web max_web_results start_time)
      (ask_handler start_time)
      (self, w).

End Collaborators.

End ExtendedRAGPipeline.

(** ** WebAwareAgent ([agent_orchestrator.py]) *)

Module WebAwareAgent.

(** [stats["average_response_time"]] is a Python float, which the source
    updates in floating point, with a rounding at each operation. Its value
    is not computed here: the field holds the expression that the source
    evaluates, [RunningMean previous n t] standing for the float
    [((previous * (n - 1)) + t) / n]. *)
Inductive float_mean :=
| Float0
| RunningMean (previous : float_mean) (total_questions : Z)
              (processing_time : Q).

Record stats := {
  total_questions : Z;
  web_searches_performed : Z;
  sub_questions_generated : Z;
  average_response_time : float_mean
}.

(** [rag_pipeline] and [web_search] are [None] exactly when [available] is
    false; the pipeline is the state [PS] below. *)
Record t := {
  available : bool;
  astats : stats
}.

Definition __init__ (available : bool) : t :=
  {| available := available;
     astats := {| total_questions := 0; web_searches_performed := 0;
                  sub_questions_generated := 0;
                  average_response_time := Float0 |} |}.

Definition set_stats (self : t) (st : stats) : t :=
  {| available := available self; astats := st |}.

(** [self.stats["total_questions"] += 1] *)
Definition count_question (self : t) : t :=
  let st := astats self in
  set_stats self
    {| total_questions := total_questions st + 1;
       web_searches_performed := web_searches_performed st;
       sub_questions_generated := sub_questions_generated st;
       average_response_time := average_response_time st |}.

Definition empty_response (answer : str) : response :=
  {| answer := answer; sources := None; error := None;
     processing_time := None; search_strategy := None;
     sub_questions_count := None; context_chunks := None;
     context_length := None; search_queries := None; web_sources := None;
     local_sources := None; sub_responses := None;
     sequential_steps := None |}.

Definition unavailable_response (elapsed : Q) : response :=
  {| answer := py "Le système de recherche web n'est pas disponible actuellement. Veuillez vérifier que tous les composants sont installés.";
     processing_time := Some elapsed;
     search_strategy := Some "unavailable"%string;
     sources := None; error := None;
     sub_questions_count := None; context_chunks := None;
     context_length := None; search_queries := None; web_sources := None;
     local_sources := None; sub_responses := None;
     sequential_steps := None |}.

Definition error_response (e : exn) (elapsed : Q) : response :=
  {| answer := py "Désolé, une erreur s'est produite lors du traitement de votre question.";
     error := Some (exn_msg e);
     processing_time := Some elapsed;
     search_strategy := Some "error"%string;
     sources := None;
     sub_questions_count := None; context_chunks := None;
     context_length := None; search_queries := None; web_sources := None;
     local_sources := None; sub_responses := None;
     sequential_steps := None |}.

(** The three assignments that close a successful request *)
Definition with_metrics (r : response) (processing_time : Q)
    (strategy : string) (count : Z) : response :=
  {| answer := answer r; sources := sources r; error := error r;
     processing_time := Some processing_time;
     search_strategy := Some strategy;
     sub_questions_count := Some count;
     context_chunks := context_chunks r; context_length := context_length r;
     search_queries := search_queries r; web_sources := web_sources r;
     local_sources := local_sources r; sub_responses := sub_responses r;
     sequential_steps := sequential_steps r |}.

(** The loop of [_merge_sources], with the set [seen_urls] *)
Fixpoint merge_loop (seen_urls : gset str) (all : list source_entry)
  : list source_entry :=
  match all with
  | [] => []
  | source :: rest =>
    let url := src_url source in
    if bool_decide (url ≠ []) && bool_decide (url ∉ seen_urls)
    then source :: merge_loop ({[ url ]} ∪ seen_urls) rest
    else merge_loop seen_urls rest
  end.

Definition _merge_sources (responses : list sub_response) : list source_entry :=
  merge_loop ∅ (concat (map sr_sources responses)).

Definition _synthesize_responses (sub_questions : list str)
    (sub_responses : list sub_response) : str :=
  let synthesis_parts := [py "Voici une synthèse des informations trouvées:"] in
  let synthesis_parts :=
    synthesis_parts ++
    map (fun resp =>
           let question := sr_question resp in
           let answer :=
             if bool_decide (len (sr_answer resp) > 300)
             then slice_to 300 (sr_answer resp) ++ py "..."
             else sr_answer resp in
           nl ++ py "**" ++ question ++ py "**" ++ nl ++ answer)
        sub_responses in
  let synthesis_parts :=
    synthesis_parts ++
    [nl ++ py "Cette réponse combine des informations provenant de sources multiples."] in
  join nl synthesis_parts.

Definition _synthesize_sequential_responses (sub_questions : list str)
    (step_responses : list sub_response) : str :=
  let synthesis_parts := [py "Voici le résultat de l'analyse étape par étape:"] in
  let synthesis_parts :=
    synthesis_parts ++
    concat (map (fun resp =>
           let step := default 0 (sr_step resp) in
           [nl ++ py "### Étape " ++ py (pretty step) ++ py ": "
               ++ sr_question resp;
            sr_answer resp])
        step_responses) in
  let synthesis_parts :=
    synthesis_parts ++
    [nl ++ py "**Conclusion:** Cette analyse progressive permet d'approfondir le sujet."] in
  join nl synthesis_parts.

Section Pipeline.

(** The pipeline as the agent sees it: a state [PS], the method
    [ask_question(question, use_web=...)] called on it, and the clock. *)
Context {PS : Type}.
Variable rag_ask_question : str -> bool -> M PS response.
Variable datetime_now : PS -> Q.

Definition _execute_single_search (question : str) (analysis : SearchPlanner.analysis)
  : M PS response :=
  let use_web := SearchPlanner.needs_web analysis in
  rag_ask_question question use_web.

(** The loop of [_execute_parallel_search]: the sub-responses, the web
    sources and the count of local sources collected so far. *)
Fixpoint parallel_loop (analysis : SearchPlanner.analysis) (sub_questions : list str)
    (sub_responses : list sub_response) (all_web_sources : list str)
    (all_local_sources : Z)
  : M PS (list sub_response * list str * Z) :=
  match sub_questions with
  | [] => ret (sub_responses, all_web_sources, all_local_sources)
  | sub_q :: rest =>
    (response <- _execute_single_search sub_q analysis ;;
     parallel_loop analysis rest
       (sub_responses ++
        [{| sr_step := None; sr_question := sub_q;
            sr_enriched_question := None;
            sr_answer := answer response;
            sr_sources := default [] (sources response) |}])
       (all_web_sources ++ default [] (web_sources response))
       (all_local_sources + default 0 (local_sources response)))%py
  end.

(** [list(set(all_web_sources))]: the distinct entries, in the order the
    set yields them. *)
Definition list_set (l : list str) : list str :=
  elements (list_to_set l : gset str).

Definition _execute_parallel_search (sub_questions : list str)
    (analysis : SearchPlanner.analysis) : M PS response :=
  ('(sub_responses, all_web_sources, all_local_sources) <-
     parallel_loop analysis sub_questions [] [] 0 ;;
   let combined_answer := _synthesize_responses sub_questions sub_responses in
   ret {| answer := combined_answer;
          sources := Some (_merge_sources sub_responses);
          web_sources := Some (list_set all_web_sources);
          local_sources := Some all_local_sources;
          sub_responses := Some sub_responses;
          error := None; processing_time := None; search_strategy := None;
          sub_questions_count := None; context_chunks := None;
          context_length := None; search_queries := None;
          sequential_steps := None |})%py.

(** The loop of [_execute_sequential_search] from step [i] on *)
Fixpoint sequential_loop (analysis : SearchPlanner.analysis) (max_depth : Z) (i : Z)
    (sub_questions : list str) (current_context : str)
    (all_responses : list sub_response) : M PS (list sub_response) :=
  match sub_questions with
  | [] => ret all_responses
  | sub_q :: rest =>
    if bool_decide (i >= max_depth) then ret all_responses (* break *)
    else
      let enriched_question :=
        if bool_decide (current_context ≠ [])
        then sub_q ++ py " (Contexte: " ++ slice_to 200 current_context
                   ++ py "...)"
        else sub_q in
      (response <- _execute_single_search enriched_question analysis ;;
       sequential_loop analysis max_depth (i + 1) rest
         (current_context ++ py " " ++ answer response)
         (all_responses ++
          [{| sr_step := Some (i + 1); sr_question := sub_q;
              sr_enriched_question := Some enriched_question;
              sr_answer := answer response;
              sr_sources := default [] (sources response) |}]))%py
  end.

Definition _execute_sequential_search (sub_questions : list str)
    (analysis : SearchPlanner.analysis) (max_depth : Z) : M PS response :=
  (all_responses <- sequential_loop analysis max_depth 0 sub_questions [] [] ;;
   let final_answer :=
     _synthesize_sequential_responses sub_questions all_responses in
   ret {| answer := final_answer;
          sources := Some (_merge_sources all_responses);
          sequential_steps := Some all_responses;
          web_sources := None; local_sources := None; sub_responses := None;
          error := None; processing_time := None; search_strategy := None;
          sub_questions_count := None; context_chunks := None;
          context_length := None; search_queries := None |})%py.

(** A method of the pipeline run from the agent *)
Definition on_pipeline {A} (m : M PS A) : M (t * PS) A :=
  fun '(self, ps) =>
    let '(r, ps') := m ps in (r, (self, ps')).

(** Step 2 of [answer_question]: the execution the strategy calls for *)
Definition execute (question : str) (analysis : SearchPlanner.analysis)
    (max_depth : Z) : M PS response :=
  let strategy := SearchPlanner.search_strategy analysis in
  if bool_decide (strategy = "single"%string) then
    _execute_single_search question analysis
  else if bool_decide (strategy = "parallel"%string) then
    _execute_parallel_search (SearchPlanner.sub_questions analysis) analysis
  else if bool_decide (strategy = "sequential"%string) then
    _execute_sequential_search (SearchPlanner.sub_questions analysis) analysis
      max_depth
  else _execute_single_search question analysis.

(** The body of the [try] of [answer_question] *)
Definition answer_body (question : str) (max_depth : Z) (start_time : Q)
  : M (t * PS) response :=
  fun '(self, ps) =>
    if negb (available self) then
      (Returned (unavailable_response (datetime_now ps - start_time)%Q),
       (self, ps))
    else
      let analysis := SearchPlanner.analyze_question question in
      let strategy := SearchPlanner.search_strategy analysis in
      match on_pipeline (execute question analysis max_depth) (self, ps) with
      | (Raised e, s) => (Raised e, s)
      | (Returned response, (self, ps)) =>
        let processing_time := (datetime_now ps - start_time)%Q in
        let response :=
          with_metrics response processing_time strategy
            (len (SearchPlanner.sub_questions analysis)) in
        let st := astats self in
        let st :=
          {| total_questions := total_questions st;
             web_searches_performed :=
               web_searches_performed st + SearchPlanner.estimated_searches analysis;
             sub_questions_generated :=
               sub_questions_generated st + len (SearchPlanner.sub_questions analysis);
             average_response_time := average_response_time st |} in
        if bool_decide (total_questions st = 0) then
          (Raised (Exn ZeroDivisionError "float division by zero"),
           (set_stats self st, ps))
        else
          let st :=
            {| total_questions := total_questions st;
               web_searches_performed := web_searches_performed st;
               sub_questions_generated := sub_questions_generated st;
               average_response_time :=
                 RunningMean (average_response_time st) (total_questions st)
                   processing_time |} in
          (Returned response, (set_stats self st, ps))
      end.

(** The handler of the [except] of [answer_question] *)
Definition answer_handler (start_time : Q) (e : exn) : M (t * PS) response :=
  fun '(self, ps) =>
    (Returned (error_response e (datetime_now ps - start_time)%Q), (self, ps)).

Definition answer_question (question : str) (max_depth : Z)
  : M (t * PS) response :=
  fun '(self, ps) =>
    let start_time := datetime_now ps in
    let self := count_question self in
    try_except (answer_body question max_depth start_time)
      (answer_handler start_time)
      (self, ps).

End Pipeline.

(** The agent on the pipeline of this repository
    ([get_extended_rag_pipeline()]), with [max_web_results] at its
    default. *)
Section Assembled.

Variable provider : nat -> str -> Z -> Z -> result (list WebSearchEngine.ddgs_result).
Variable local_rag : str -> result (option str).
Variable process_search_result :
  WebSearchEngine.search_result -> result (list ExtendedRAGPipeline.chunk).
Variable lm_studio : str -> list ExtendedRAGPipeline.chunk -> option str.

Definition pipeline_ask (question : str) (use_web : bool)
  : M (ExtendedRAGPipeline.t * world) response :=
  ExtendedRAGPipeline.ask_question provider local_rag process_search_result
    lm_studio question use_web 3.

Definition pipeline_clock (ps : ExtendedRAGPipeline.t * world) : Q := now ps.2.

Definition answer (question : str) (max_depth : Z)
  : M (t * (ExtendedRAGPipeline.t * world)) response :=
  answer_question pipeline_ask pipeline_clock question max_depth.

End Assembled.

End WebAwareAgent.

(** A string that neither starts nor ends with whitespace (for the
    statements about [strip]) *)
Definition no_space_at_ends (s : str) : Prop :=
  (forall c, head s = Some c -> isspace c = false)
  /\ (forall c, last s = Some c -> isspace c = false).

(** ** TextChunker and WebContentProcessor ([html_parser.py])

    The part of the web processor that the pipeline runs on each search
    result. The download and the extraction of the text of a page
    ([HTMLParser.parse_url]) are a collaborator. *)

Module TextChunker.

Record t := {
  chunk_size : Z;
  overlap : Z;
  min_chunk_size : Z
}.

Definition __init__ (chunk_size overlap min_chunk_size : Z) : t :=
  {| chunk_size := chunk_size; overlap := overlap;
     min_chunk_size := min_chunk_size |}.

(** The metadata dict handed to [chunk_text] by
    [WebContentProcessor.process_search_result]. *)
Record metadata := {
  m_source : str;
  m_url : str;
  m_title : str;
  m_search_query : str;
  m_timestamp : Q;
  m_source_type : str
}.

(** A chunk as [chunk_text] builds it: its own keys, then those of the
    metadata, which replace ["source"]. *)
Record chunk_data := {
  cd_text : str;
  cd_chunk_id : Z;
  cd_start_word : Z;
  cd_end_word : Z;
  cd_word_count : Z;
  cd_source : str;
  cd_metadata : option metadata
}.

(** What [chunk_text] does: it returns, or [range] raises [ValueError]. *)
Inductive outcome (A : Type) :=
| Done (a : A)
| ValueError (msg : string).
Arguments Done {A} a.
Arguments ValueError {A} msg.

(** A bound of a slice, brought into [0, len]. *)
Definition slice_index (n : Z) (i : Z) : nat :=
  Z.to_nat (if bool_decide (i < 0) then Z.max 0 (n + i) else Z.min i n).

(** [l[a:b]] *)
Definition py_slice {A} (l : list A) (a b : Z) : list A :=
  let a' := slice_index (len l) a in
  let b' := slice_index (len l) b in
  drop a' (take b' l).

(** [range(0, n, step)] for [step <> 0] *)
Definition range_step (n step : Z) : list Z :=
  if bool_decide (step < 0) then []
  else map (fun k => Z.of_nat k * step) (seq 0 (Z.to_nat ((n + step - 1) / step))).

(** The loop of [chunk_text] over the start positions *)
Fixpoint chunk_loop (self : t) (metadata : option metadata) (words : list str)
    (starts : list Z) (chunks : list chunk_data) : list chunk_data :=
  match starts with
  | [] => chunks
  | i :: rest =>
    let chunk_words := py_slice words i (i + chunk_size self) in
    let chunk_text := join (py " ") chunk_words in
    if bool_decide (len chunk_words < min_chunk_size self / 2) then
      chunk_loop self metadata words rest chunks
    else
      let chunk_data :=
        {| cd_text := chunk_text;
           cd_chunk_id := len chunks;
           cd_start_word := i;
           cd_end_word := Z.min (i + chunk_size self) (len words);
           cd_word_count := len chunk_words;
           cd_source :=
             match metadata with
             | Some m => m_source m
             | None => py "web_parsed"
             end;
           cd_metadata := metadata |} in
      chunk_loop self metadata words rest (chunks ++ [chunk_data])
  end.

Definition chunk_text (self : t) (text : str) (metadata : option metadata)
  : outcome (list chunk_data) :=
  if bool_decide (text = []) || bool_decide (len (strip text) < min_chunk_size self)
  then Done []
  else
    let words := split text in
    let step := chunk_size self - overlap self in
    if bool_decide (step = 0)
    then ValueError "range() arg 3 must not be zero"
    else Done (chunk_loop self metadata words (range_step (len words) step) []).

End TextChunker.

Module WebContentProcessor.

Record t := {
  parser_timeout : Z;
  chunker : TextChunker.t
}.

(** [WebContentProcessor(chunk_size, overlap)]: the chunker is built with
    its default [min_chunk_size]. *)
Definition __init__ (chunk_size overlap : Z) : t :=
  {| parser_timeout := 10;
     chunker := TextChunker.__init__ chunk_size overlap 100 |}.

(** The instance of the module, [WebContentProcessor()] *)
Definition web_processor : t := __init__ 500 50.

Section Parser.

(** [self.parser.parse_url(url)]: the cleaned text of the page, or [None];
    it catches every exception. *)
Variable parse_url : str -> option str.

Definition process_search_result (self : t)
    (search_result : WebSearchEngine.search_result)
  : TextChunker.outcome (list TextChunker.chunk_data) :=
  match WebSearchEngine.url search_result with
  | None => TextChunker.Done []
  | Some url =>
    if bool_decide (url = []) then TextChunker.Done []
    else
      match parse_url url with
      | None => TextChunker.Done []
      | Some text =>
        if bool_decide (text = []) then TextChunker.Done []
        else
          let metadata :=
            {| TextChunker.m_source := py "web";
               TextChunker.m_url := url;
               TextChunker.m_title :=
                 default [] (WebSearchEngine.title search_result);
               TextChunker.m_search_query := WebSearchEngine.query search_result;
               TextChunker.m_timestamp := WebSearchEngine.timestamp search_result;
               TextChunker.m_source_type := py "web_page" |} in
          TextChunker.chunk_text (chunker self) text (Some metadata)
      end
  end.

(** The chunk as the pipeline reads it: the keys of [chunk_data] that
    [ExtendedRAGPipeline] looks up. *)
Definition as_chunk (c : TextChunker.chunk_data) : ExtendedRAGPipeline.chunk :=
  {| ExtendedRAGPipeline.text := Some (TextChunker.cd_text c);
     ExtendedRAGPipeline.source := Some (TextChunker.cd_source c);
     ExtendedRAGPipeline.source_type :=
       TextChunker.m_source_type <$> TextChunker.cd_metadata c;
     ExtendedRAGPipeline.timestamp :=
       TextChunker.m_timestamp <$> TextChunker.cd_metadata c;
     ExtendedRAGPipeline.relevance_score := None;
     ExtendedRAGPipeline.title :=
       TextChunker.m_title <$> TextChunker.cd_metadata c;
     ExtendedRAGPipeline.url :=
       TextChunker.m_url <$> TextChunker.cd_metadata c;
     ExtendedRAGPipeline.chunk_id := Some (TextChunker.cd_chunk_id c) |}.

(** [process_search_result] as the collaborator of the pipeline *)
Definition for_pipeline (self : t)
    (search_result : WebSearchEngine.search_result)
  : result (list ExtendedRAGPipeline.chunk) :=
  match process_search_result self search_result with
  | TextChunker.Done chunks => Returned (map as_chunk chunks)
  | TextChunker.ValueError msg => Raised (Exn Exception_ msg)
  end.

End Parser.

End WebContentProcessor.

(** ** Inputs used in the statements below *)

Module Inputs.

(** The question of the scenario, as the specification words it, and the
    question of the module's own test run. *)
Definition bitcoin_en : str := py "What is the Bitcoin price today?".
Definition bitcoin_fr : str := py "Quel est le prix du Bitcoin aujourd'hui?".

(** Twenty-one words, each of them a connector. *)
Definition only_connectors : str :=
  py "et et et et et et et et et et et et et et et et et et et et et".

(** Twenty-two words around one connector. *)
Definition two_parts : str :=
  py "a b c d e f g h i j k et l m n p q r s t v w".

(** The same, with a keyword of quantity and one of time. *)
Definition two_steps : str :=
  py "a b c d e f g h i j k et l m n p q r s t v w prix hier".

(** Twenty-three words around one connector, one of them an indicator of
    the web. *)
Definition two_parts_news : str :=
  py "a b c d e f g h i j k et l m n p q r s t v w news".

(** A world at rest, and a function that fails whenever it is called (it
    counts as one invocation of the provider). *)
Definition w0 : world := {| now := 1000; provider_calls := 0; slept := [] |}.

Definition at_time (t : Q) : world :=
  {| now := t; provider_calls := 0; slept := [] |}.

Definition failing : M world unit :=
  fun w => (Raised (Exn Exception_ "test error"),
            {| now := now w; provider_calls := S (provider_calls w);
               slept := slept w |}).

(** Providers: one that answers, one that is rate-limited three times and
    answers from then on, one that always times out. [rate_limited] carries
    a response object that counts as true, which a mock can be and a
    [requests.Response] of status 429 is not. *)
Definition one_hit : WebSearchEngine.ddgs_result :=
  {| WebSearchEngine.ddgs_title := Some (py "Bitcoin price");
     WebSearchEngine.ddgs_href := Some (py "https://example.org/btc");
     WebSearchEngine.ddgs_body := Some (py "The price of Bitcoin today") |}.

Definition rate_limited : exn :=
  Exn (HTTPError (Some {| truthy := true; status_code := 429 |}))
      "429 Client Error: Too Many Requests".

(** The error [raise_for_status] raises on a 429, with its response. *)
Definition too_many_requests : exn :=
  Exn (HTTPError (Some (Response 429)))
      "429 Client Error: Too Many Requests for url".

(** A provider that is rate-limited once and answers from then on. *)
Definition provider_429_once (i : nat) (query : str)
    (max_results timelimit : Z) : result (list WebSearchEngine.ddgs_result) :=
  if bool_decide (i < 1)%nat then Raised too_many_requests
  else Returned [one_hit].

Definition provider_up (i : nat) (query : str) (max_results timelimit : Z)
  : result (list WebSearchEngine.ddgs_result) := Returned [one_hit].

Definition provider_429_thrice (i : nat) (query : str)
    (max_results timelimit : Z) : result (list WebSearchEngine.ddgs_result) :=
  if bool_decide (i < 3)%nat then Raised rate_limited else Returned [one_hit].

Definition provider_down (i : nat) (query : str) (max_results timelimit : Z)
  : result (list WebSearchEngine.ddgs_result) :=
  Raised (Exn Timeout "timed out").

Definition engine0 : WebSearchEngine.t := WebSearchEngine.__init__ 3 10 5.

(** An engine whose breaker opened ten seconds before [w0]. *)
Definition open_breaker : CircuitBreaker.t :=
  {| CircuitBreaker.failure_threshold := 5;
     CircuitBreaker.recovery_timeout := 60;
     CircuitBreaker.failure_count := 5;
     CircuitBreaker.last_failure_time := Some 990%Q;
     CircuitBreaker.state := "OPEN" |}.

Definition engine_open : WebSearchEngine.t :=
  WebSearchEngine.set_circuit_breaker engine0 open_breaker.

(** A response with no key but its answer. *)
Definition plain_response : response :=
  WebAwareAgent.empty_response (py "ok").

(** Collaborators of the pipeline at rest: no local context, no page
    content, no language model. *)
Definition local_none (question : str) : result (option str) := Returned None.

Definition no_chunks (r : WebSearchEngine.search_result)
  : result (list ExtendedRAGPipeline.chunk) := Returned [].

Definition lm_offline (question : str)
    (context : list ExtendedRAGPipeline.chunk) : option str := None.

(** A parser that finds a page of sixty words at every URL. *)
Definition page : str := join (py " ") (replicate 60 (py "cours")).

Definition parser_up (url : str) : option str := Some page.

Definition agent0 : WebAwareAgent.t := WebAwareAgent.__init__ true.
Definition agent_unavailable : WebAwareAgent.t := WebAwareAgent.__init__ false.
Definition pipeline0 : ExtendedRAGPipeline.t := ExtendedRAGPipeline.__init__ false.

(** A pipeline whose [ask_question] raises, on a state that is the clock. *)
Definition broken_pipeline (question : str) (use_web : bool) : M Q response :=
  raise (Exn Exception_ "vector store unreachable").

(** Chunks for the fusion: 150 characters of text, local or from the web. *)
Definition local_chunk : ExtendedRAGPipeline.chunk :=
  {| ExtendedRAGPipeline.text := Some (replicate 150 0x61%N);
     ExtendedRAGPipeline.source := Some (py "local_documents");
     ExtendedRAGPipeline.source_type := Some (py "local");
     ExtendedRAGPipeline.timestamp := None;
     ExtendedRAGPipeline.relevance_score := Some (8 # 10)%Q;
     ExtendedRAGPipeline.title := None;
     ExtendedRAGPipeline.url := None;
     ExtendedRAGPipeline.chunk_id := Some 0 |}.

Definition web_chunk (fetched : Q) : ExtendedRAGPipeline.chunk :=
  {| ExtendedRAGPipeline.text := Some (replicate 150 0x62%N);
     ExtendedRAGPipeline.source := Some (py "web");
     ExtendedRAGPipeline.source_type := Some (py "web");
     ExtendedRAGPipeline.timestamp := Some fetched;
     ExtendedRAGPipeline.relevance_score := None;
     ExtendedRAGPipeline.title := Some (py "Bitcoin price");
     ExtendedRAGPipeline.url := Some (py "https://example.org/btc");
     ExtendedRAGPipeline.chunk_id := Some 0 |}.

(** Responses that carry the search queries of their question. *)
Definition searched_response : response :=
  {| answer := py "ok"; sources := Some []; error := None;
     processing_time := Some 0%Q; search_strategy := None;
     sub_questions_count := None; context_chunks := Some 0;
     context_length := Some 0;
     search_queries := Some [bitcoin_fr];
     web_sources := Some []; local_sources := Some 0;
     sub_responses := None; sequential_steps := None |}.

Definition blank_response : response :=
  {| answer := py "ok"; sources := Some []; error := None;
     processing_time := Some 0%Q; search_strategy := None;
     sub_questions_count := None; context_chunks := Some 0;
     context_length := Some 0;
     search_queries := Some [py "  "];
     web_sources := Some []; local_sources := Some 0;
     sub_responses := None; sequential_steps := None |}.

End Inputs.

(** ** Lists and lengths *)

Lemma len_ge_0 {A} (l : list A) : 0 <= len l.
Proof. unfold len. lia. Qed.

Lemma len_eq_cons {A} (x : A) (l : list A) : len (x :: l) = len l + 1.
Proof. unfold len. simpl. lia. Qed.

(** ** Properties of SearchPlanner *)

Module SearchPlannerFacts.

Import SearchPlanner Inputs.

(** The decomposition is the question itself, or the non-empty trimmed
    segments between connectors, each with a question mark. *)
Lemma break_down_shape (question : str) :
  _break_down_question question = [question]
  \/ (len (split question) > 20
      /\ Forall (fun sub => exists part,
                   part ∈ re_split connectors question
                   /\ strip part ≠ [] /\ sub = strip part ++ py "?")
                (_break_down_question question)).
Proof.
  unfold _break_down_question.
  case_bool_decide as Hw; [ | by left ].
  case_bool_decide as Hp; [ | by left ].
  right. split; [ done | ].
  apply Forall_forall. intros sub Hsub.
  apply list_elem_of_fmap in Hsub as (part & -> & Hpart).
  apply list_elem_of_filter in Hpart as [Hne Hin].
  by exists part.
Qed.

Lemma break_down_short (question : str) :
  len (split question) <= 20 -> _break_down_question question = [question].
Proof.
  intros H. unfold _break_down_question.
  case_bool_decide; [ lia | done ].
Qed.

Lemma assess_complexity_range (question : str) :
  0 <= _assess_complexity question <= 10.
Proof.
  unfold _assess_complexity.
  set (c0 := if bool_decide (len (split question) > 15) then 0 + 2 else 0).
  assert (H0 : 0 <= c0) by (subst c0; case_bool_decide; lia).
  assert (Hfold : forall (ps : list (string * regex)) c, 0 <= c ->
            0 <= fold_left
                   (fun complexity '(_, pattern) =>
                      if re_search_i pattern question
                      then complexity + 2 else complexity) ps c).
  { induction ps as [ | [n p] ps IH ]; intros c Hc; simpl; [ done | ].
    apply IH. destruct (re_search_i p question); lia. }
  specialize (Hfold complexity_patterns c0 H0).
  destruct (_ || _); lia.
Qed.

(** The decomposition of [only_connectors] is empty (the defect shown by
    [break_down_only_connectors] below): its length is not 1 and the
    complexity, 7, is not above 7, yet the strategy is "single" and not
    "parallel". The selection of the strategy is stated next for the
    decompositions that have a sub-question. *)
Lemma strategy_of_empty_decomposition :
  let a := analyze_question only_connectors in
  len (sub_questions a) ≠ 1
  /\ ¬ (complexity a > 7)
  /\ search_strategy a ≠ "parallel"%string
  /\ search_strategy a = "single"%string.
Proof. vm_compute. repeat split; congruence. Qed.

(** C5: for every question whose decomposition has a sub-question, as the
    planner's result requires, the strategy is "single" when there is one
    sub-question; otherwise it is "sequential" when the complexity exceeds
    7 and "parallel" when it does not; and the estimated number of searches
    is the number of sub-questions when there are several, and 1 when there
    is one. *)
Theorem analyze_question_strategy (question : str) :
  _break_down_question question ≠ [] ->
  let a := analyze_question question in
  sub_questions a = _break_down_question question
  /\ complexity a = _assess_complexity question
  /\ (len (sub_questions a) = 1 ->
      search_strategy a = "single"%string /\ estimated_searches a = 1)
  /\ (len (sub_questions a) ≠ 1 -> complexity a > 7 ->
      search_strategy a = "sequential"%string
      /\ estimated_searches a = len (sub_questions a))
  /\ (len (sub_questions a) ≠ 1 -> ¬ complexity a > 7 ->
      search_strategy a = "parallel"%string
      /\ estimated_searches a = len (sub_questions a)).
Proof.
  intros Hsome. cbv zeta. unfold analyze_question.
  assert (Hlen : len (_break_down_question question) >= 1).
  { destruct (_break_down_question question); [ done | ].
    unfold len. simpl. lia. }
  case_bool_decide as Hseveral; simpl.
  - split_and!; try done.
    + intros H1. lia.
    + intros _ Hc. by rewrite bool_decide_true.
    + intros _ Hc. by rewrite bool_decide_false.
  - split_and!; try done; intros; lia.
Qed.

Lemma analyze_question_strategy_witness :
  (search_strategy (analyze_question bitcoin_fr) = "single"%string
   /\ estimated_searches (analyze_question bitcoin_fr) = 1)
  /\ (search_strategy (analyze_question two_parts) = "parallel"%string
      /\ estimated_searches (analyze_question two_parts) = 2)
  /\ (search_strategy (analyze_question two_steps) = "sequential"%string
      /\ estimated_searches (analyze_question two_steps) = 2).
Proof.
  assert (H1 : _break_down_question bitcoin_fr ≠ [])
    by (vm_compute; discriminate).
  assert (H2 : _break_down_question two_parts ≠ [])
    by (vm_compute; discriminate).
  assert (H3 : _break_down_question two_steps ≠ [])
    by (vm_compute; discriminate).
  pose proof (analyze_question_strategy bitcoin_fr H1) as S1.
  pose proof (analyze_question_strategy two_parts H2) as S2.
  pose proof (analyze_question_strategy two_steps H3) as S3.
  cbv zeta in S1, S2, S3.
  destruct S1 as (_ & _ & S1 & _ & _).
  destruct S2 as (_ & _ & _ & _ & S2).
  destruct S3 as (_ & _ & _ & S3 & _).
  split; [ | split ].
  - apply S1. vm_compute. reflexivity.
  - destruct S2 as [Hs He];
      [ vm_compute; discriminate | vm_compute; discriminate | ].
    split; [ exact Hs | rewrite He; vm_compute; reflexivity ].
  - destruct S3 as [Hs He];
      [ vm_compute; discriminate | vm_compute; reflexivity | ].
    split; [ exact Hs | rewrite He; vm_compute; reflexivity ].
Defined.

(** C6, as the claim words it, fails: the keyword tables are French, and
    the English question matches none of them. *)
Lemma bitcoin_en_analysis :
  let a := analyze_question bitcoin_en in
  (needs_web a = false /\ complexity a = 0)
  /\ ¬ (needs_web a = true /\ complexity a >= 2).
Proof.
  vm_compute. split; [ done | ]. intros [H _]. discriminate H.
Qed.

(** C6 (amended): for the French wording of the question the analysis
    yields [needs_web] (the indicators "aujourd'hui" and "prix" occur in
    it), complexity 7, no decomposition and the strategy "single"; for the
    English wording it yields no web need, complexity 0, and "single". *)
Theorem bitcoin_question_analysis :
  (let a := analyze_question bitcoin_fr in
   needs_web a = true
   /\ contains (py "aujourd'hui") (lower bitcoin_fr) = true
   /\ contains (py "prix") (lower bitcoin_fr) = true
   /\ complexity a = 7 /\ complexity a >= 2
   /\ sub_questions a = [bitcoin_fr]
   /\ search_strategy a = "single"%string)
  /\ (let a := analyze_question bitcoin_en in
      needs_web a = false /\ complexity a = 0
      /\ sub_questions a = [bitcoin_en]
      /\ search_strategy a = "single"%string).
Proof. vm_compute. repeat split; congruence. Qed.

(** C7 at the failing input: a question of more than twenty words that are
    all connectors is decomposed into no sub-question at all. *)
Theorem break_down_only_connectors :
  len (split only_connectors) = 21
  /\ _break_down_question only_connectors = []
  /\ sub_questions (analyze_question only_connectors) = [].
Proof. vm_compute. repeat split. Qed.

End SearchPlannerFacts.

(** ** Properties of CircuitBreaker *)

Module CircuitBreakerFacts.

Import CircuitBreaker.

Section Calls.

Context {A : Type}.
Implicit Types (func : M world A) (funcs : list (M world A)).

Lemma gate_not_open (cb : t) (time_time : Q) :
  state cb ≠ "OPEN"%string -> gate cb time_time = Returned cb.
Proof. intros H. unfold gate. by rewrite bool_decide_false. Qed.

(** An open breaker whose last failure is less than [recovery_timeout]
    seconds old (or exactly that old) refuses the call. *)
Lemma gate_open_early (cb : t) (time_time last : Q) :
  state cb = "OPEN"%string ->
  last_failure_time cb = Some last ->
  (time_time - last <= inject_Z (recovery_timeout cb))%Q ->
  gate cb time_time = Raised blocked.
Proof.
  intros Hst Hlast Hle. unfold gate.
  rewrite bool_decide_true by done. rewrite Hlast.
  unfold Qgt_bool.
  apply Qle_bool_iff in Hle. by rewrite Hle.
Qed.

(** A refused call leaves the breaker and the world as they were: [func]
    has not run. *)
Lemma call_blocked func (cb : t) (w : world) (last : Q) :
  state cb = "OPEN"%string ->
  last_failure_time cb = Some last ->
  (now w - last < inject_Z (recovery_timeout cb))%Q ->
  call func (cb, w) = (Raised blocked, (cb, w)).
Proof.
  intros Hst Hlast Hlt. unfold call.
  rewrite (gate_open_early cb (now w) last); auto using Qlt_le_weak.
Qed.

(** A call that fails on a closed breaker has run [func] and counted the
    failure. *)
Lemma call_closed_failure func (cb : t) (w : world) :
  state cb = "CLOSED"%string ->
  is_raised (call func (cb, w)).1 = true ->
  (call func (cb, w)).2 = (_on_failure cb (now (func w).2), (func w).2).
Proof.
  intros Hst. unfold call.
  rewrite gate_not_open by (rewrite Hst; discriminate).
  destruct (func w) as [[r | e] w']; simpl; [ discriminate | done ].
Qed.

Lemma calls_cons func funcs (s : t * world) :
  calls (func :: funcs) s
  = ((call func s).1 :: (calls funcs (call func s).2).1,
     (calls funcs (call func s).2).2).
Proof.
  simpl. destruct (call func s) as [r s']. simpl.
  by destruct (calls funcs s') as [rs s''].
Qed.

(** Failing calls on a closed breaker: each one is counted; the breaker
    stays closed below the threshold and opens when the count reaches it. *)
Lemma failures_from_closed funcs : forall (cb : t) (w : world),
  state cb = "CLOSED"%string ->
  Forall (fun r => is_raised r = true) (calls funcs (cb, w)).1 ->
  failure_count cb + len funcs <= failure_threshold cb ->
  let cb' := (calls funcs (cb, w)).2.1 in
  failure_count cb' = failure_count cb + len funcs
  /\ failure_threshold cb' = failure_threshold cb
  /\ recovery_timeout cb' = recovery_timeout cb
  /\ (failure_count cb + len funcs < failure_threshold cb ->
      state cb' = "CLOSED"%string)
  /\ (funcs ≠ [] -> failure_count cb + len funcs = failure_threshold cb ->
      state cb' = "OPEN"%string
      /\ last_failure_time cb' = Some (now (calls funcs (cb, w)).2.2)).
Proof.
  induction funcs as [ | func funcs IH ]; intros cb w Hst Hall Hle.
  - simpl. unfold len; simpl. split_and!; try done; lia.
  - rewrite calls_cons in *. cbn [fst snd] in *.
    apply Forall_cons in Hall as [Hr Hall].
    pose proof (call_closed_failure func cb w Hst Hr) as Hcall.
    rewrite len_eq_cons in *.
    pose proof (len_ge_0 funcs) as Hn.
    destruct (call func (cb, w)) as [r [cb1 w1]]. cbn [fst snd] in *.
    injection Hcall as -> ->.
    destruct funcs as [ | func' funcs ].
    + simpl. unfold len in *; simpl in *.
      split_and!; try done.
      * intros Hlt. rewrite bool_decide_false by lia. done.
      * intros _ Heq. rewrite bool_decide_true by lia. done.
    + assert (Hst1 : state (_on_failure cb (now (func w).2)) = "CLOSED"%string).
      { simpl. rewrite len_eq_cons in Hle. pose proof (len_ge_0 funcs).
        rewrite bool_decide_false by lia. done. }
      specialize (IH _ _ Hst1 Hall). cbv zeta in IH |- *.
      set (res := calls (func' :: funcs) _) in *. clearbody res.
      destruct IH as (Hc & Hth & Hrt & Hclosed & Hopen); [ simpl; lia | ].
      simpl in Hc, Hth, Hrt, Hclosed, Hopen.
      split_and!; try done.
      * lia.
      * intros Hlt. apply Hclosed. lia.
      * intros _ Heq. apply Hopen; [ done | lia ].
Qed.

(** C2: starting closed with no failure counted, [failure_threshold]
    consecutive failing calls leave the breaker open; and on an open
    breaker, a call made less than [recovery_timeout] seconds after the
    last failure raises at once, with the breaker and the world (and so the
    provider's call count) unchanged: the function was not invoked. *)
Theorem breaker_opens_then_blocks (failure_threshold recovery_timeout : Z)
    funcs (w : world) :
  1 <= failure_threshold ->
  len funcs = failure_threshold ->
  Forall (fun r => is_raised r = true)
         (calls funcs (__init__ failure_threshold recovery_timeout, w)).1 ->
  let after := (calls funcs (__init__ failure_threshold recovery_timeout, w)).2 in
  state after.1 = "OPEN"%string
  /\ CircuitBreaker.failure_count after.1 = failure_threshold
  /\ last_failure_time after.1 = Some (now after.2)
  /\ (forall func (w' : world),
        (now w' - now after.2 < inject_Z recovery_timeout)%Q ->
        call func (after.1, w') = (Raised blocked, (after.1, w'))
        /\ provider_calls (call func (after.1, w')).2.2 = provider_calls w')
  /\ (forall (cb : t) (last : Q) func (w' : world),
        state cb = "OPEN"%string ->
        last_failure_time cb = Some last ->
        (now w' - last < inject_Z (CircuitBreaker.recovery_timeout cb))%Q ->
        call func (cb, w') = (Raised blocked, (cb, w'))
        /\ provider_calls (call func (cb, w')).2.2 = provider_calls w').
Proof.
  intros Hth Hlen Hall.
  pose proof (failures_from_closed funcs
                (__init__ failure_threshold recovery_timeout) w
                eq_refl Hall) as H.
  simpl in H. destruct H as (Hc & _ & Hrt & _ & Hopen); [ lia | ].
  destruct Hopen as [Hst Hlast].
  { intros ->. unfold len in Hlen; simpl in Hlen. lia. }
  { lia. }
  assert (Hgen : forall (cb : t) (last : Q) func (w' : world),
             state cb = "OPEN"%string ->
             last_failure_time cb = Some last ->
             (now w' - last < inject_Z (CircuitBreaker.recovery_timeout cb))%Q ->
             call func (cb, w') = (Raised blocked, (cb, w'))
             /\ provider_calls (call func (cb, w')).2.2 = provider_calls w').
  { intros cb last func w' H1 H2 H3.
    by rewrite (call_blocked func cb w' last). }
  cbv zeta. split_and!; try done.
  - lia.
  - intros func w' Hlt. apply (Hgen _ _ _ _ Hst Hlast). by rewrite Hrt.
Qed.

End Calls.

End CircuitBreakerFacts.

Module CircuitBreakerExamples.

Import CircuitBreaker CircuitBreakerFacts Inputs.

Lemma breaker_opens_then_blocks_witness :
  let after := (calls (replicate 5 failing) (__init__ 5 60, w0)).2 in
  state after.1 = "OPEN"%string
  /\ provider_calls after.2 = 5%nat
  /\ provider_calls (call failing (after.1, at_time 1030)).2.2 = 0%nat.
Proof.
  pose proof (breaker_opens_then_blocks 5 60 (replicate 5 failing) w0) as H.
  destruct H as (Hst & _ & _ & Hblock & _).
  - lia.
  - reflexivity.
  - vm_compute. repeat constructor.
  - split_and!.
    + exact Hst.
    + reflexivity.
    + apply (Hblock failing (at_time 1030)). reflexivity.
Defined.

End CircuitBreakerExamples.

(** ** Properties of WebSearchEngine *)

Module WebSearchEngineFacts.

Import WebSearchEngine.

Lemma time_sleep_calls (seconds : Z) (w : world) :
  provider_calls (time_sleep seconds w).2 = provider_calls w
  /\ slept (time_sleep seconds w).2 = slept w ++ [seconds]
  /\ (time_sleep seconds w).1 = Returned tt.
Proof. done. Qed.

(** What [_validate_results] lets through *)
Lemma validate_one_valid (r r' : search_result) :
  validate_one r = Some r' ->
  exists title_ url_ snippet_,
    title r' = Some title_ /\ url r' = Some url_ /\ snippet r' = Some snippet_
    /\ (startswith url_ (py "http://") = true
        \/ startswith url_ (py "https://") = true)
    /\ 3 <= len title_ /\ 10 <= len snippet_
    /\ url r = Some url_
    /\ (exists t, title r = Some t /\ title_ = strip t)
    /\ (exists s, snippet r = Some s /\ snippet_ = strip s).
Proof.
  unfold validate_one.
  destruct (title r) as [t | ] eqn:Ht; [ | done ].
  destruct (url r) as [u | ] eqn:Hu; [ | done ].
  destruct (snippet r) as [s | ] eqn:Hs; [ | done ].
  destruct (existsb _ _) eqn:Hpre; simpl; [ | done ].
  destruct (_ || _) eqn:Hblank; [ done | ].
  destruct (bool_decide (len (strip t) < 3) || _) eqn:Hshort; [ done | ].
  intros [= <-]. simpl.
  apply orb_false_elim in Hshort as [H3 H10].
  apply bool_decide_eq_false in H3. apply bool_decide_eq_false in H10.
  exists (strip t), u, (strip s). split_and!; try done; try lia; eauto.
  unfold http_prefixes in Hpre. simpl in Hpre.
  rewrite orb_false_r in Hpre.
  apply orb_true_iff in Hpre. done.
Qed.

Section Provider.

Variable provider : nat -> str -> Z -> Z -> result (list ddgs_result).

(** C3 (amended): [search] never fails. It returns a list in every case;
    each entry of the list passed validation (an http or https URL, a
    stripped title of at least 3 characters, a stripped snippet of at least
    10); and the list is empty when the guarded call raised, be it because
    the breaker is open, because the retries are exhausted, or for any
    other exception. *)
Theorem search_never_fails (query : str) (max_results : option Z) (self : t)
    (w : world) :
  let inner :=
    CircuitBreaker.call
      (_perform_search_with_retry provider self query
         (default (WebSearchEngine.max_results self) max_results))
      (circuit_breaker self, w) in
  exists results,
    (search provider query max_results (self, w)).1 = Returned results
    /\ (forall r, r ∈ results ->
          exists title_ url_ snippet_,
            title r = Some title_ /\ url r = Some url_
            /\ snippet r = Some snippet_
            /\ (startswith url_ (py "http://") = true
                \/ startswith url_ (py "https://") = true)
            /\ 3 <= len title_ /\ 10 <= len snippet_)
    /\ (is_raised inner.1 = true -> results = []).
Proof.
  cbv zeta. unfold search.
  destruct (CircuitBreaker.call _ _) as [[results | e] [cb w']]; simpl.
  - exists (_validate_results results). split_and!; [ done | | done ].
    intros r Hr. unfold _validate_results in Hr.
    apply list_elem_of_omap in Hr as (raw & _ & Hraw).
    apply validate_one_valid in Hraw
      as (t & u & s & Ht & Hu & Hs & Hpre & H3 & H10 & _).
    exists t, u, s. done.
  - exists []. split_and!; [ done | | done ].
    intros r Hr. by apply not_elem_of_nil in Hr.
Qed.

(** One run of [_perform_search_with_retry] invokes the provider at most
    [max_retries] times, whatever the provider answers. *)
Lemma retry_loop_calls_le (self : t) (query : str) (max_results : Z)
    (attempts : list Z) :
  forall (last_exception : option string) (w : world),
    (provider_calls
       (retry_loop provider self query max_results attempts last_exception w).2
     <= provider_calls w + length attempts)%nat.
Proof.
  induction attempts as [ | attempt rest IH ]; intros last w; simpl.
  - lia.
  - destruct (provider _ _ _ _) as [rs | e]; simpl; [ lia | ].
    destruct (exn_cls e) as [ | | | response | | | ];
      try (unfold bind; case_bool_decide; simpl;
           match goal with
           | |- context [retry_loop _ _ _ _ _ ?l ?w'] =>
             specialize (IH l w'); simpl in IH; lia
           end).
    destruct (status_of response) as [n | ]; [ | simpl; lia ].
    case_bool_decide; [ | case_bool_decide ].
    + unfold bind; simpl.
      match goal with
      | |- context [retry_loop _ _ _ _ _ ?l ?w'] =>
        specialize (IH l w'); simpl in IH; lia
      end.
    + unfold bind; case_bool_decide; simpl;
      match goal with
      | |- context [retry_loop _ _ _ _ _ ?l ?w'] =>
        specialize (IH l w'); simpl in IH; lia
      end.
    + simpl. lia.
Qed.

Lemma range_length (n : Z) : length (range n) = Z.to_nat n.
Proof. unfold range. by rewrite length_map, length_seq. Qed.

(** One 429: a pause of 60 seconds, then the rest of the attempts. *)
Lemma retry_loop_429 (self : t) (query : str) (max_results : Z)
    (attempt : Z) (rest : list Z) (last : option string) (w : world) :
  is_429 (provider (provider_calls w) query max_results (timeout self)) ->
  exists w',
    retry_loop provider self query max_results (attempt :: rest) last w
    = retry_loop provider self query max_results rest
        (Some "HTTP 429"%string) w'
    /\ provider_calls w' = S (provider_calls w)
    /\ slept w' = slept w ++ [60].
Proof.
  intros (response & msg & Hp & Htrue & Hcode). simpl.
  rewrite Hp. simpl. rewrite Htrue, Hcode. simpl.
  unfold bind. simpl. eexists. split_and!; [ reflexivity | done | done ].
Qed.

Lemma retry_loop_429s_then_success (self : t) (query : str) (max_results : Z)
    (rs : list ddgs_result) (k : nat) :
  forall (attempts : list Z) (last : option string) (w : world),
    (forall i, (i < k)%nat ->
       is_429 (provider (provider_calls w + i) query max_results (timeout self))) ->
    provider (provider_calls w + k) query max_results (timeout self)
      = Returned rs ->
    (k < length attempts)%nat ->
    exists w',
      retry_loop provider self query max_results attempts last w
      = (Returned (map (to_result query (now w')) rs), w')
      /\ provider_calls w' = (provider_calls w + k + 1)%nat
      /\ slept w' = slept w ++ replicate k 60.
Proof.
  induction k as [ | k IH ]; intros attempts last w H429 Hok Hlen.
  - destruct attempts as [ | attempt rest ]; [ simpl in Hlen; lia | ].
    rewrite Nat.add_0_r in Hok. simpl. rewrite Hok.
    exists {| now := now w; provider_calls := S (provider_calls w);
              slept := slept w |}.
    split_and!; [ reflexivity | simpl; lia | simpl ].
    by rewrite app_nil_r.
  - destruct attempts as [ | attempt rest ]; [ simpl in Hlen; lia | ].
    destruct (retry_loop_429 self query max_results attempt rest last w)
      as (w1 & -> & Hc1 & Hs1).
    { specialize (H429 0%nat). rewrite Nat.add_0_r in H429.
      apply H429. lia. }
    destruct (IH rest (Some "HTTP 429"%string) w1) as (w' & -> & Hc & Hs).
    + intros i Hi. rewrite Hc1.
      replace (S (provider_calls w) + i)%nat
        with (provider_calls w + S i)%nat by lia.
      apply H429. lia.
    + rewrite Hc1.
      by replace (S (provider_calls w) + k)%nat
        with (provider_calls w + S k)%nat by lia.
    + simpl in Hlen. lia.
    + exists w'. split_and!; [ done | lia | ].
      rewrite Hs, Hs1. by rewrite <- app_assoc.
Qed.

Lemma retry_loop_429s_exhaust (self : t) (query : str) (max_results : Z)
    (attempts : list Z) :
  forall (last : option string) (w : world),
    attempts ≠ [] ->
    (forall i, (i < length attempts)%nat ->
       is_429 (provider (provider_calls w + i) query max_results (timeout self))) ->
    exists w',
      retry_loop provider self query max_results attempts last w
      = (Raised (exhausted self (Some "HTTP 429"%string)), w')
      /\ provider_calls w' = (provider_calls w + length attempts)%nat
      /\ slept w' = slept w ++ replicate (length attempts) 60.
Proof.
  induction attempts as [ | attempt rest IH ]; intros last w Hne H429;
    [ done | ].
  destruct (retry_loop_429 self query max_results attempt rest last w)
    as (w1 & -> & Hc1 & Hs1).
  { specialize (H429 0%nat). rewrite Nat.add_0_r in H429.
    apply H429. simpl. lia. }
  destruct rest as [ | attempt' rest ].
  - exists w1. split_and!; [ done | simpl; lia | by rewrite Hs1 ].
  - destruct (IH (Some "HTTP 429"%string) w1) as (w' & -> & Hc & Hs).
    + done.
    + intros i Hi. rewrite Hc1.
      replace (S (provider_calls w) + i)%nat
        with (provider_calls w + S i)%nat by lia.
      apply H429. simpl in *. lia.
    + exists w'. split_and!; [ done | simpl in *; lia | ].
      rewrite Hs, Hs1. rewrite <- app_assoc. done.
Qed.

(** The branch for the status 429, which takes a response object that
    counts as true ([is_429]): it pauses 60 seconds and goes on to the next
    attempt of the loop, so that it uses up one of the [max_retries]
    attempts like any other failure. When the provider answers so [k] times
    and then succeeds, the run returns that success, after [k] pauses of 60
    seconds and [k + 1] calls, if [k < max_retries], and it fails after
    [max_retries] calls, never reaching the success, otherwise. *)
Lemma rate_limit_uses_retries (self : t) (query : str) (max_results : Z)
    (w : world) (k : nat) (rs : list ddgs_result) :
  (forall i, (i < k)%nat ->
     is_429 (provider (provider_calls w + i) query max_results (timeout self))) ->
  provider (provider_calls w + k) query max_results (timeout self)
    = Returned rs ->
  let out := _perform_search_with_retry provider self query max_results w in
  (provider_calls out.2 <= provider_calls w + Z.to_nat (max_retries self))%nat
  /\ (Z.of_nat k < max_retries self ->
      out.1 = Returned (map (to_result query (now out.2)) rs)
      /\ provider_calls out.2 = (provider_calls w + k + 1)%nat
      /\ slept out.2 = slept w ++ replicate k 60)
  /\ (0 < max_retries self <= Z.of_nat k ->
      out.1 = Raised (exhausted self (Some "HTTP 429"%string))
      /\ provider_calls out.2
         = (provider_calls w + Z.to_nat (max_retries self))%nat
      /\ slept out.2 = slept w ++ replicate (Z.to_nat (max_retries self)) 60).
Proof.
  intros H429 Hok. cbv zeta. unfold _perform_search_with_retry.
  split_and!.
  - rewrite <- range_length. apply retry_loop_calls_le.
  - intros Hk.
    destruct (retry_loop_429s_then_success self query max_results rs k
                (range (max_retries self)) None w H429 Hok)
      as (w' & -> & Hc & Hs).
    + rewrite range_length. lia.
    + done.
  - intros Hk.
    destruct (retry_loop_429s_exhaust self query max_results
                (range (max_retries self)) None w)
      as (w' & -> & Hc & Hs).
    + intros Hnil. apply (f_equal length) in Hnil.
      rewrite range_length in Hnil. simpl in Hnil. lia.
    + intros i Hi. rewrite range_length in Hi. apply H429. lia.
    + rewrite range_length in Hc, Hs. done.
Qed.

(** A 429 as [requests] delivers it: the response is false as a condition,
    the status read from it is "Unknown", and the comparison with 500
    raises inside the handler. *)
Lemma retry_loop_real_429 (self : t) (query : str) (max_results : Z)
    (attempt : Z) (rest : list Z) (last : option string) (w : world)
    (msg : string) :
  provider (provider_calls w) query max_results (timeout self)
    = Raised (Exn (HTTPError (Some (Response 429))) msg) ->
  exists msg' w',
    retry_loop provider self query max_results (attempt :: rest) last w
    = (Raised (Exn TypeError msg'), w')
    /\ now w' = now w
    /\ provider_calls w' = S (provider_calls w)
    /\ slept w' = slept w.
Proof.
  intros Hp. cbn [retry_loop]. unfold ddgs_text. rewrite Hp.
  cbn [exn_cls]. by eexists _, _.
Qed.

(** C4 at the failing input: the provider raises the [HTTPError] of a
    response of status 429. The run of [_perform_search_with_retry] does
    not wait 60 seconds and does not try again: after the one call of the
    provider it ends with the [TypeError] raised in the handler, without
    any pause. Seen from [search], on a breaker that is not open: the
    caller gets the empty list, and the failure is counted by the
    breaker. *)
Theorem rate_limit_is_not_awaited (self : t) (query : str) (max_results : Z)
    (w : world) (msg : string) :
  1 <= max_retries self ->
  provider (provider_calls w) query max_results (timeout self)
    = Raised (Exn (HTTPError (Some (Response 429))) msg) ->
  let out := _perform_search_with_retry provider self query max_results w in
  let found := search provider query (Some max_results) (self, w) in
  status_of (Some (Response 429)) = Unknown
  /\ (exists msg', out.1 = Raised (Exn TypeError msg'))
  /\ provider_calls out.2 = S (provider_calls w)
  /\ slept out.2 = slept w
  /\ (CircuitBreaker.state (circuit_breaker self) ≠ "OPEN"%string ->
      found.1 = Returned []
      /\ provider_calls found.2.2 = S (provider_calls w)
      /\ slept found.2.2 = slept w
      /\ CircuitBreaker.failure_count (circuit_breaker found.2.1)
         = CircuitBreaker.failure_count (circuit_breaker self) + 1).
Proof.
  intros Hn Hp. cbv zeta.
  destruct (range (max_retries self)) as [ | attempt rest ] eqn:Hrange.
  { apply (f_equal length) in Hrange.
    rewrite range_length in Hrange. simpl in Hrange. lia. }
  destruct (retry_loop_real_429 self query max_results attempt rest None w
              msg Hp) as (msg' & w' & Hrun & Hnow & Hcalls & Hslept).
  assert (Hout : _perform_search_with_retry provider self query max_results w
                 = (Raised (Exn TypeError msg'), w')).
  { unfold _perform_search_with_retry. by rewrite Hrange. }
  split_and!.
  - reflexivity.
  - rewrite Hout. by eexists.
  - by rewrite Hout.
  - by rewrite Hout.
  - intros Hstate. unfold search, CircuitBreaker.call.
    rewrite CircuitBreakerFacts.gate_not_open by done.
    change (default (WebSearchEngine.max_results self) (Some max_results))
      with max_results.
    rewrite Hout. simpl. rewrite Hcalls, Hslept. by split_and!.
Qed.

End Provider.

End WebSearchEngineFacts.

Module WebSearchEngineExamples.

Import WebSearchEngine WebSearchEngineFacts Inputs.

(** C3, as the claim words it, fails: with the breaker open, and with every
    retry timed out, [search] returns the empty list to its caller and
    raises nothing. *)
Lemma search_returns_when_unavailable :
  ((search provider_up (py "bitcoin") None (engine_open, w0)).1 = Returned []
   /\ provider_calls (search provider_up (py "bitcoin") None (engine_open, w0)).2.2
      = 0%nat
   /\ (search provider_down (py "bitcoin") None (engine0, w0)).1 = Returned []
   /\ provider_calls (search provider_down (py "bitcoin") None (engine0, w0)).2.2
      = 3%nat)
  /\ ¬ (exists e,
          (search provider_up (py "bitcoin") None (engine_open, w0)).1
          = Raised e).
Proof.
  split.
  - vm_compute. done.
  - intros [e He]. vm_compute in He. discriminate He.
Qed.

(** With [max_retries = 3], three 429 answers whose response counts as true
    end the run; the provider is called three times and its next answer, a
    success, is never asked for. *)
Lemma three_429_exhaust_the_retries :
  let out :=
    _perform_search_with_retry provider_429_thrice engine0 (py "bitcoin") 5 w0 in
  provider_429_thrice 3 (py "bitcoin") 5 10 = Returned [one_hit]
  /\ is_raised out.1 = true
  /\ provider_calls out.2 = 3%nat
  /\ slept out.2 = [60; 60; 60].
Proof. vm_compute. done. Qed.

Lemma rate_limit_uses_retries_thrice :
  let out :=
    _perform_search_with_retry provider_429_thrice engine0 (py "bitcoin") 5 w0 in
  (provider_calls out.2 <= 3)%nat
  /\ out.1 = Raised (exhausted engine0 (Some "HTTP 429"%string)).
Proof.
  pose proof (rate_limit_uses_retries provider_429_thrice engine0
                (py "bitcoin") 5 w0 3 [one_hit]) as H.
  destruct H as (Hle & _ & Hex).
  - intros i Hi. unfold provider_429_thrice. simpl.
    rewrite bool_decide_true by lia.
    eexists _, _. split_and!; reflexivity.
  - reflexivity.
  - split; [ exact Hle | ]. apply Hex. simpl. lia.
Defined.

(** The provider is rate-limited once and would answer the next call: the
    run ends at the first call, without a pause. *)
Lemma rate_limit_is_not_awaited_witness :
  let out :=
    _perform_search_with_retry provider_429_once engine0 (py "bitcoin") 5 w0 in
  let found := search provider_429_once (py "bitcoin") (Some 5) (engine0, w0) in
  provider_429_once 1 (py "bitcoin") 5 10 = Returned [one_hit]
  /\ (exists msg', out.1 = Raised (Exn TypeError msg'))
  /\ provider_calls out.2 = 1%nat
  /\ slept out.2 = []
  /\ found.1 = Returned []
  /\ CircuitBreaker.failure_count (circuit_breaker found.2.1) = 1.
Proof.
  pose proof (rate_limit_is_not_awaited provider_429_once engine0
                (py "bitcoin") 5 w0
                "429 Client Error: Too Many Requests for url") as H.
  cbv zeta in H.
  destruct H as (_ & Hraised & Hcalls & Hslept & Hsearch);
    [ simpl; lia | reflexivity | ].
  destruct Hsearch as (Hfound & _ & _ & Hcount); [ simpl; discriminate | ].
  split_and!; [ reflexivity | exact Hraised | exact Hcalls | exact Hslept
              | exact Hfound | exact Hcount ].
Defined.

End WebSearchEngineExamples.

(** ** Properties of ConversationMemory *)

Module ConversationMemoryFacts.

Import ConversationMemory.

Lemma filter_len_le {A} (f : A -> bool) (l : list A) :
  len (List.filter f l) <= len l.
Proof. unfold len. pose proof (List.filter_length_le f l). lia. Qed.

Lemma elem_of_List_filter {A} (f : A -> bool) (l : list A) (x : A) :
  x ∈ List.filter f l <-> x ∈ l /\ f x = true.
Proof. rewrite !list_elem_of_In. apply List.filter_In. Qed.

Lemma List_filter_sublist {A} (f : A -> bool) (l : list A) :
  List.filter f l `sublist_of` l.
Proof.
  induction l as [ | x l IH ]; simpl; [ constructor | ].
  destruct (f x); by constructor.
Qed.

Lemma tail_sublist {A} (l : list A) : tail l `sublist_of` l.
Proof. destruct l; simpl; [ constructor | by constructor ]. Qed.

Lemma slice_last_suffix {A} (n : nat) (l : list A) :
  slice_last n l `suffix_of` l.
Proof. apply suffix_drop. Qed.

Lemma slice_last_sublist {A} (n : nat) (l : list A) :
  slice_last n l `sublist_of` l.
Proof. apply sublist_drop. Qed.

Lemma slice_last_length {A} (n : nat) (l : list A) :
  (length (slice_last n l) <= n)%nat.
Proof. unfold slice_last. rewrite length_drop. lia. Qed.

(** What [add_interaction] stores: the old list and the new entry, less the
    oldest entry when the list would exceed [max_memory], less the entries
    that have expired. *)
Lemma add_interaction_interactions (self : t) (datetime_now : Q)
    (question : str) (response : response) :
  let new :=
    {| timestamp := datetime_now; question := question;
       i_search_queries := default [] (search_queries response);
       i_web_sources := default [] (web_sources response) |} in
  let appended := interactions self ++ [new] in
  interactions (add_interaction self datetime_now question response)
  = List.filter (fresh (cutoff datetime_now (ttl_hours self)))
      (if bool_decide (len (interactions self) + 1 > max_memory self)
       then tail appended else appended).
Proof.
  cbv zeta. unfold add_interaction, _cleanup_expired. simpl.
  replace (len (interactions self ++ _)) with (len (interactions self) + 1).
  - done.
  - unfold len. rewrite length_app. simpl. lia.
Qed.

Lemma add_interaction_fields (self : t) (datetime_now : Q) (question : str)
    (response : response) :
  max_memory (add_interaction self datetime_now question response)
    = max_memory self
  /\ ttl_hours (add_interaction self datetime_now question response)
     = ttl_hours self
  /\ adds (add_interaction self datetime_now question response)
     = S (adds self).
Proof. done. Qed.

(** One [add_interaction] keeps the memory within its capacity. *)
Lemma add_interaction_bounded (self : t) (datetime_now : Q) (question : str)
    (response : response) :
  len (interactions self) <= Z.max 0 (max_memory self) ->
  len (interactions (add_interaction self datetime_now question response))
  <= Z.max 0 (max_memory self).
Proof.
  intros Hinv. rewrite add_interaction_interactions. cbv zeta.
  etrans; [ apply filter_len_le | ].
  case_bool_decide as Hcap.
  - unfold len in *. destruct (interactions self); simpl in *; [ lia | ].
    rewrite length_app. simpl. lia.
  - unfold len in *. rewrite length_app. simpl. lia.
Qed.

Lemma run_fields (ops : list op) : forall (self : t),
  max_memory (run self ops) = max_memory self
  /\ ttl_hours (run self ops) = ttl_hours self.
Proof.
  induction ops as [ | o ops IH ]; intros self; [ done | ].
  simpl. destruct (IH (step self o)) as [-> ->]. by destruct o.
Qed.

Lemma run_bounded (ops : list op) : forall (self : t),
  len (interactions self) <= Z.max 0 (max_memory self) ->
  len (interactions (run self ops)) <= Z.max 0 (max_memory self).
Proof.
  induction ops as [ | o ops IH ]; intros self Hinv; [ done | ].
  simpl. change (fold_left step ops (step self o)) with (run (step self o) ops).
  destruct o as [ t q r | | ]; simpl; try by apply IH.
  pose proof (add_interaction_bounded self t q r Hinv) as Hb.
  specialize (IH (add_interaction self t q r)). simpl in IH. by apply IH.
Qed.

(** What [get_recent_context] returns: at most five entries, the last ones
    of the stored entries younger than the window, in their order. *)
Lemma get_recent_context_shape (self : t) (datetime_now : Q) (hours : Z) :
  let recent := get_recent_context self datetime_now hours in
  (length recent <= 5)%nat
  /\ recent `suffix_of`
       List.filter (fresh (cutoff datetime_now hours)) (interactions self)
  /\ recent `sublist_of` interactions self
  /\ (forall i, i ∈ recent ->
        i ∈ interactions self
        /\ (cutoff datetime_now hours < timestamp i)%Q).
Proof.
  cbv zeta. unfold get_recent_context.
  set (recent := List.filter _ _).
  split_and!.
  - apply slice_last_length.
  - apply slice_last_suffix.
  - etrans; [ apply slice_last_sublist | ].
    apply List_filter_sublist.
  - intros i Hi.
    assert (Hin : i ∈ recent).
    { eapply elem_of_sublist; [ exact Hi | apply slice_last_sublist ]. }
    apply elem_of_List_filter in Hin as [Hin Hfresh]. split; [ done | ].
    unfold fresh, Qgt_bool in Hfresh.
    apply negb_true_iff in Hfresh.
    destruct (Qlt_le_dec (cutoff datetime_now hours) (timestamp i)) as [ | Hle ];
      [ done | ].
    apply Qle_bool_iff in Hle. congruence.
Qed.

(** C8, as the claim words it, fails: [get_recent_context] selects by the
    window it is given, not by [ttl_hours]. An entry recorded at time 0 is
    returned thirty hours later (108000 s) for a window of 48 hours, though
    it is older than the 24 hours of [ttl_hours]. *)
Lemma recent_context_beyond_ttl :
  let self :=
    run (__init__ 10 24) [Record_ 0 Inputs.bitcoin_fr Inputs.plain_response] in
  exists i,
    i ∈ get_recent_context self 108000 48
    /\ (timestamp i < cutoff 108000 (ttl_hours self))%Q.
Proof.
  eexists. split.
  - vm_compute. apply list_elem_of_here.
  - vm_compute. reflexivity.
Qed.

(** C8 (amended): whatever operations were issued, the memory holds at most
    [max_memory] interactions (none for a negative [max_memory]), and a
    further [add_interaction] keeps it so: it appends the entry, drops the
    oldest entry if the list then exceeds [max_memory], and purges the
    entries older than [ttl_hours]. [get_recent_context] returns at most 5
    interactions, the last ones of those younger than the window [hours]
    it is given, in the order of recording; none of them is older than
    [hours], and so none is older than [ttl_hours] when
    [hours <= ttl_hours]. *)
Theorem memory_bounded_and_windowed (max_memory ttl_hours : Z)
    (ops : list op) (datetime_now : Q) (hours : Z) :
  let self := run (__init__ max_memory ttl_hours) ops in
  len (interactions self) <= Z.max 0 max_memory
  /\ (forall t q r,
        len (interactions (add_interaction self t q r)) <= Z.max 0 max_memory
        /\ interactions (add_interaction self t q r)
           = List.filter (fresh (cutoff t ttl_hours))
               (let appended :=
                  interactions self
                  ++ [{| timestamp := t; question := q;
                         i_search_queries := default [] (search_queries r);
                         i_web_sources := default [] (web_sources r) |}] in
                if bool_decide (len (interactions self) + 1 > max_memory)
                then tail appended else appended))
  /\ (let recent := get_recent_context self datetime_now hours in
      (length recent <= 5)%nat
      /\ recent `suffix_of`
           List.filter (fresh (cutoff datetime_now hours)) (interactions self)
      /\ (forall i, i ∈ recent ->
            (cutoff datetime_now hours < timestamp i)%Q)
      /\ (hours <= ttl_hours ->
          forall i, i ∈ recent ->
            (cutoff datetime_now ttl_hours < timestamp i)%Q)).
Proof.
  cbv zeta.
  destruct (run_fields ops (__init__ max_memory ttl_hours)) as [Hmm Httl].
  simpl in Hmm, Httl.
  assert (Hinv : len (interactions (run (__init__ max_memory ttl_hours) ops))
                 <= Z.max 0 max_memory).
  { apply (run_bounded ops (__init__ max_memory ttl_hours)).
    unfold len; simpl. lia. }
  destruct (get_recent_context_shape
              (run (__init__ max_memory ttl_hours) ops) datetime_now hours)
    as (H5 & Hsuf & _ & Hage).
  split_and!; try done.
  - intros t q r. split.
    + pose proof (add_interaction_bounded
                    (run (__init__ max_memory ttl_hours) ops) t q r) as Hb.
      rewrite Hmm in Hb. by apply Hb.
    + rewrite add_interaction_interactions. cbv zeta. by rewrite Hmm, Httl.
  - intros i Hi. by apply Hage.
  - intros Hle i Hi. apply Hage in Hi as [_ Hi].
    assert (H3600 : (inject_Z (hours * 3600) <= inject_Z (ttl_hours * 3600))%Q).
    { rewrite <- Zle_Qle. lia. }
    unfold cutoff in *. lra.
Qed.

Lemma memory_bounded_and_windowed_witness :
  let self :=
    run (__init__ 10 24) [Record_ 0 Inputs.bitcoin_fr Inputs.plain_response] in
  Forall (fun i => (cutoff 1800 24 < timestamp i)%Q)
         (get_recent_context self 1800 1).
Proof.
  apply Forall_forall.
  apply (memory_bounded_and_windowed 10 24
           [Record_ 0 Inputs.bitcoin_fr Inputs.plain_response] 1800 1).
  lia.
Defined.

End ConversationMemoryFacts.

(** ** Properties of the fusion of results *)

Module FusionFacts.

Import ExtendedRAGPipeline.

Section Sorting.

Context {A : Type} (key : A -> Q).

Local Abbreviation desc := (fun x y : A => (key y <= key x)%Q).

Lemma Qgt_bool_true (a b : Q) : Qgt_bool a b = true <-> (b < a)%Q.
Proof.
  unfold Qgt_bool. rewrite negb_true_iff. split.
  - intros H. destruct (Qlt_le_dec b a) as [ | Hle ]; [ done | ].
    apply Qle_bool_iff in Hle. congruence.
  - intros H. destruct (Qle_bool a b) eqn:Hle; [ | done ].
    apply Qle_bool_iff in Hle. lra.
Qed.

Lemma Qgt_bool_false (a b : Q) : Qgt_bool a b = false <-> (a <= b)%Q.
Proof.
  unfold Qgt_bool. rewrite negb_false_iff. apply Qle_bool_iff.
Qed.

Lemma insert_desc_perm (x : A) (l : list A) : insert_desc key x l ≡ₚ x :: l.
Proof.
  induction l as [ | y l IH ]; simpl; [ done | ].
  destruct (Qgt_bool (key y) (key x)); [ | done ].
  rewrite IH. apply Permutation_swap.
Qed.

Lemma sorted_desc_perm (l : list A) : sorted_desc key l ≡ₚ l.
Proof.
  induction l as [ | x l IH ]; simpl; [ done | ].
  unfold sorted_desc in *. simpl. rewrite insert_desc_perm. by rewrite IH.
Qed.

Lemma insert_desc_sorted (x : A) (l : list A) :
  StronglySorted desc l -> StronglySorted desc (insert_desc key x l).
Proof.
  induction l as [ | y l IH ]; intros Hs; simpl.
  - repeat constructor.
  - apply StronglySorted_inv in Hs as [Hl Hy].
    destruct (Qgt_bool (key y) (key x)) eqn:Hgt.
    + apply Qgt_bool_true in Hgt. constructor; [ by apply IH | ].
      apply Forall_forall. intros z Hz.
      rewrite insert_desc_perm in Hz.
      apply elem_of_cons in Hz as [-> | Hz].
      * simpl. lra.
      * by eapply Forall_forall in Hy.
    + apply Qgt_bool_false in Hgt.
      constructor; [ by constructor | ].
      constructor; [ done | ].
      eapply Forall_impl; [ exact Hy | ].
      intros z Hz. simpl in *. lra.
Qed.

Lemma sorted_desc_sorted (l : list A) : StronglySorted desc (sorted_desc key l).
Proof.
  induction l as [ | x l IH ]; [ constructor | ].
  unfold sorted_desc in *. simpl. by apply insert_desc_sorted.
Qed.

(** Stability: the entries of one score keep their order. *)
Lemma filter_insert_desc (v : Q) (x : A) (l : list A) :
  let p := fun c => Qeq_bool (key c) v in
  List.filter p (insert_desc key x l)
  = if p x then x :: List.filter p l else List.filter p l.
Proof.
  cbv zeta. induction l as [ | y l IH ]; simpl.
  - by destruct (Qeq_bool (key x) v).
  - destruct (Qgt_bool (key y) (key x)) eqn:Hgt; simpl.
    + rewrite IH. apply Qgt_bool_true in Hgt.
      destruct (Qeq_bool (key x) v) eqn:Hx; [ | done ].
      apply Qeq_bool_iff in Hx.
      destruct (Qeq_bool (key y) v) eqn:Hy; [ | done ].
      apply Qeq_bool_iff in Hy. lra.
    + done.
Qed.

Lemma filter_sorted_desc (v : Q) (l : list A) :
  let p := fun c => Qeq_bool (key c) v in
  List.filter p (sorted_desc key l) = List.filter p l.
Proof.
  cbv zeta. induction l as [ | x l IH ]; [ done | ].
  unfold sorted_desc in *. simpl.
  rewrite filter_insert_desc. cbv zeta. by rewrite IH.
Qed.

Lemma StronglySorted_sublist (l1 l2 : list A) :
  l1 `sublist_of` l2 -> StronglySorted desc l2 -> StronglySorted desc l1.
Proof.
  induction 1 as [ | x l1 l2 Hsub IH | x l1 l2 Hsub IH ]; intros Hs.
  - constructor.
  - apply StronglySorted_inv in Hs as [Hl Hx].
    constructor; [ by apply IH | ].
    apply Forall_forall. intros z Hz.
    eapply Forall_forall in Hx; [ exact Hx | ].
    by eapply elem_of_sublist.
  - apply StronglySorted_inv in Hs as [Hl _]. by apply IH.
Qed.

End Sorting.

Lemma List_filter_sublist_mono {A} (p : A -> bool) (l1 l2 : list A) :
  l1 `sublist_of` l2 -> List.filter p l1 `sublist_of` List.filter p l2.
Proof.
  induction 1 as [ | x l1 l2 Hsub IH | x l1 l2 Hsub IH ]; simpl.
  - constructor.
  - destruct (p x); [ by constructor | done ].
  - destruct (p x); [ by constructor | done ].
Qed.

Lemma count_source_type_sublist (st : str) (l1 l2 : list chunk) :
  l1 `sublist_of` l2 ->
  (count_source_type st l1 <= count_source_type st l2)%nat.
Proof.
  unfold count_source_type.
  induction 1 as [ | x l1 l2 Hsub IH | x l1 l2 Hsub IH ]; [ done | | ];
    rewrite ?filter_cons; case_decide; simpl; lia.
Qed.

(** The loop of [_diversify_sources] selects entries in their order. *)
Lemma diversify_loop_sublist (max_per_source : Z) (results : list chunk) :
  forall (source_counts : gmap str Z),
    diversify_loop max_per_source source_counts results `sublist_of` results.
Proof.
  induction results as [ | r rest IH ]; intros counts; simpl; [ done | ].
  case_bool_decide; [ by apply sublist_skip | by apply sublist_cons ].
Qed.

(** With [c] entries of a type already counted, the loop adds at most
    [max_per_source - c] more of that type. *)
Lemma diversify_loop_count (max_per_source : Z) (st : str)
    (results : list chunk) :
  forall (source_counts : gmap str Z),
    Z.of_nat (count_source_type st
                (diversify_loop max_per_source source_counts results))
    <= Z.max 0 (max_per_source - default 0 (source_counts !! st)).
Proof.
  induction results as [ | r rest IH ]; intros counts; simpl.
  - unfold count_source_type. simpl. lia.
  - case_bool_decide as Hroom; [ | apply IH ].
    unfold count_source_type in *. rewrite filter_cons.
    specialize (IH (<[source_type_of r := default 0 (counts !! source_type_of r) + 1]>
                      counts)).
    case_decide as Hst.
    + subst st. rewrite lookup_insert_eq in IH. simpl in *. lia.
    + rewrite lookup_insert_ne in IH by done. done.
Qed.

Lemma clamp01_range (score : Q) : (0 <= clamp01 score <= 1)%Q.
Proof.
  unfold clamp01. split.
  - apply Q.le_max_l.
  - apply Q.max_lub; [ lra | apply Q.le_min_l ].
Qed.

Lemma scored_score (calculate : chunk -> Q) (l : list chunk) (c : chunk) :
  c ∈ scored calculate l ->
  exists c0, c0 ∈ l /\ relevance_score c = Some (calculate c0).
Proof.
  unfold scored. intros Hc.
  apply list_elem_of_fmap in Hc as (c0 & -> & Hc0). by exists c0.
Qed.

(** The fusion for any scoring function (the float scores of the source
    among them): bounds, order, provenance and stability. *)
Lemma fuse_with_bounded_sorted (calculate : chunk -> Q)
    (local_results web_results : list chunk) :
  let out := fuse_with calculate local_results web_results in
  let all := scored calculate (local_results ++ web_results) in
  (length out <= 10)%nat
  /\ (forall st, (count_source_type st out <= 3)%nat)
  /\ StronglySorted (fun x y => (score_of y <= score_of x)%Q) out
  /\ out `sublist_of` sorted_desc score_of all
  /\ sorted_desc score_of all ≡ₚ all
  /\ (forall v, List.filter (has_score v) out
                `sublist_of` List.filter (has_score v) all).
Proof.
  cbv zeta. unfold fuse_with, slice_to, _diversify_sources.
  set (all := scored calculate (local_results ++ web_results)).
  set (sorted := sorted_desc score_of all).
  set (div := diversify_loop 3 ∅ sorted).
  assert (Hdiv : div `sublist_of` sorted) by apply diversify_loop_sublist.
  assert (Hout : take 10 div `sublist_of` sorted).
  { etrans; [ apply sublist_take | exact Hdiv ]. }
  split_and!.
  - rewrite length_take. lia.
  - intros st.
    pose proof (count_source_type_sublist st (take 10 div) div
                  (sublist_take _ _)) as H1.
    pose proof (diversify_loop_count 3 st sorted ∅) as H2.
    rewrite lookup_empty in H2. simpl in H2. fold div in H2. lia.
  - apply (StronglySorted_sublist score_of _ sorted); [ done | ].
    apply sorted_desc_sorted.
  - done.
  - apply sorted_desc_perm.
  - intros v.
    change (has_score v) with (fun c => Qeq_bool (score_of c) v).
    rewrite <- (filter_sorted_desc score_of v all).
    by apply List_filter_sublist_mono.
Qed.

Lemma fuse_results_bounded_sorted_parts (datetime_now : Q)
    (local_results web_results : list chunk) :
  let all :=
    scored (_calculate_relevance_score datetime_now)
           (local_results ++ web_results) in
  _fuse_results datetime_now local_results web_results
    `sublist_of` sorted_desc score_of all
  /\ sorted_desc score_of all ≡ₚ all.
Proof.
  cbv zeta.
  destruct (fuse_with_bounded_sorted (_calculate_relevance_score datetime_now)
              local_results web_results) as (_ & _ & _ & Hsub & Hperm & _).
  done.
Qed.

(** C9: whatever the two input lists, the fused context has at most 10
    chunks, at most 3 of any source type, in descending order of their
    relevance scores, each score being within [0, 1]; it is made of scored
    input chunks only, and chunks of equal score come in their input order
    (local chunks before web chunks, each list in its own order). *)
Theorem fuse_results_bounded_sorted (datetime_now : Q)
    (local_results web_results : list chunk) :
  let out := _fuse_results datetime_now local_results web_results in
  let all :=
    scored (_calculate_relevance_score datetime_now)
           (local_results ++ web_results) in
  (length out <= 10)%nat
  /\ (forall st, (count_source_type st out <= 3)%nat)
  /\ StronglySorted (fun x y => (score_of y <= score_of x)%Q) out
  /\ (forall c, c ∈ out ->
        exists s, relevance_score c = Some s /\ (0 <= s <= 1)%Q)
  /\ out `sublist_of` sorted_desc score_of all
  /\ sorted_desc score_of all ≡ₚ all
  /\ (forall v, List.filter (has_score v) out
                `sublist_of` List.filter (has_score v) all).
Proof.
  cbv zeta. unfold _fuse_results.
  destruct (fuse_with_bounded_sorted (_calculate_relevance_score datetime_now)
              local_results web_results)
    as (Hlen & Hcount & Hsorted & Hsub & Hperm & Hstable).
  split_and!; try done.
  intros c Hc.
  eapply elem_of_sublist in Hc; [ | exact Hsub ].
  rewrite Hperm in Hc.
  apply scored_score in Hc as (c0 & _ & ->).
  eexists. split; [ reflexivity | ].
  unfold _calculate_relevance_score. apply clamp01_range.
Qed.

(** The scenario of the specification, with the scores as the source
    computes them: two long local chunks, three recent web chunks and two
    old ones give two local chunks and three web chunks. *)
Example fuse_two_local_five_web :
  map source_type_of
      (_fuse_results 1000000
         [Inputs.local_chunk; Inputs.local_chunk]
         [Inputs.web_chunk 999000; Inputs.web_chunk 999000;
          Inputs.web_chunk 999000; Inputs.web_chunk 0; Inputs.web_chunk 0])
  = [py "web"; py "web"; py "web"; py "local"; py "local"].
Proof. vm_compute. reflexivity. Qed.

End FusionFacts.

(** ** Properties of WebAwareAgent *)

Module WebAwareAgentFacts.

(** The key "answer" of a response ([answer] is the request below) *)
Local Abbreviation answer_text := answer.

Import WebAwareAgent.

Section Pipeline.

Context {PS : Type}.
Variable rag_ask_question : str -> bool -> M PS response.
Variable datetime_now : PS -> Q.

Local Abbreviation body := (answer_body rag_ask_question datetime_now).
Local Abbreviation answer_question_ :=
  (answer_question rag_ask_question datetime_now).

(** A response returned by the body of the [try] carries its strategy and
    its processing time. *)
Lemma answer_body_returned (question : str) (max_depth : Z) (start_time : Q)
    (s s' : t * PS) (r : response) :
  body question max_depth start_time s = (Returned r, s') ->
  exists strategy elapsed,
    search_strategy r = Some strategy /\ processing_time r = Some elapsed
    /\ strategy ≠ "error"%string.
Proof.
  destruct s as [self ps]. unfold answer_body.
  destruct (available self); cbn [negb].
  - destruct (on_pipeline _ _) as [[resp | e] [self' ps']]; [ | done ].
    case_bool_decide; [ done | ].
    intros [= <- <-]. simpl. eexists _, _. split_and!; [ done | done | ].
    unfold SearchPlanner.analyze_question.
    case_bool_decide; simpl; [ case_bool_decide | ]; done.
  - intros [= <- <-]. simpl. eexists _, _. split_and!; done.
Qed.

(** C1: [answer_question] returns a response for every question and every
    [max_depth], whatever the pipeline does. The response carries a
    strategy and a processing time. When the agent is not available it is
    the degraded response whose strategy is "unavailable", with an answer
    and no "error" key; when the body of the [try] raises an exception [e]
    (an exception of the pipeline, for one), it is the degraded response
    whose strategy is "error", with [str(e)] under "error". *)
Theorem answer_question_never_raises (question : str) (max_depth : Z)
    (self : t) (ps : PS) :
  let out := answer_question_ question max_depth (self, ps) in
  (exists r strategy elapsed,
     out.1 = Returned r
     /\ search_strategy r = Some strategy
     /\ processing_time r = Some elapsed)
  /\ (available self = false ->
      out = (Returned (unavailable_response (datetime_now ps - datetime_now ps)%Q),
             (count_question self, ps))
      /\ search_strategy
           (unavailable_response (datetime_now ps - datetime_now ps)%Q)
         = Some "unavailable"%string
      /\ error (unavailable_response (datetime_now ps - datetime_now ps)%Q)
         = None
      /\ answer_text
           (unavailable_response (datetime_now ps - datetime_now ps)%Q)
         ≠ [])
  /\ (forall e s',
        body question max_depth (datetime_now ps) (count_question self, ps)
          = (Raised e, s') ->
        out = (Returned
                 (error_response e (datetime_now s'.2 - datetime_now ps)%Q),
               s')
        /\ search_strategy (error_response e (datetime_now s'.2 - datetime_now ps)%Q)
           = Some "error"%string
        /\ error (error_response e (datetime_now s'.2 - datetime_now ps)%Q)
           = Some (exn_msg e))
  /\ (forall e ps',
        available self = true ->
        SearchPlanner.search_strategy (SearchPlanner.analyze_question question)
          = "single"%string ->
        rag_ask_question question
          (SearchPlanner.needs_web (SearchPlanner.analyze_question question)) ps
          = (Raised e, ps') ->
        out = (Returned
                 (error_response e (datetime_now ps' - datetime_now ps)%Q),
               (count_question self, ps'))).
Proof.
  cbv zeta. unfold answer_question, try_except.
  split_and!.
  - destruct (body _ _ _ _) as [[r | e] [self' ps']] eqn:Hbody.
    + apply answer_body_returned in Hbody as (st & el & Hst & Hel & _).
      by exists r, st, el.
    + simpl. by eexists _, _, _.
  - intros Hav. unfold answer_body.
    replace (available (count_question self)) with false by done.
    split_and!; [ done | done | done | ].
    intros Hempty. vm_compute in Hempty. discriminate Hempty.
  - intros e [self' ps'] ->. done.
  - intros e ps' Hav Hsingle Hraise.
    unfold answer_body.
    replace (available (count_question self)) with true by done.
    cbn [negb]. unfold on_pipeline, execute. rewrite Hsingle.
    rewrite bool_decide_true by done.
    unfold _execute_single_search. by rewrite Hraise.
Qed.

(** The pipeline after a request: as the execution of the strategy leaves
    it, and untouched when the agent is not available. *)
Lemma answer_question_pipeline (question : str) (max_depth : Z)
    (self : t) (ps : PS) :
  (answer_question_ question max_depth (self, ps)).2.2
  = if available self
    then (execute rag_ask_question question
            (SearchPlanner.analyze_question question) max_depth ps).2
    else ps.
Proof.
  unfold answer_question, try_except, answer_body, on_pipeline.
  replace (available (count_question self)) with (available self) by done.
  destruct (available self); cbn [negb]; [ | done ].
  destruct (execute _ _ _ _ ps) as [[r | e] ps']; [ | done ].
  by case_bool_decide.
Qed.

End Pipeline.

(** A pipeline that raises: the caller gets the "error" response. *)
Example answer_with_broken_pipeline :
  (answer_question Inputs.broken_pipeline id Inputs.bitcoin_fr 3
     (Inputs.agent0, 1000%Q)).1
  = Returned (error_response (Exn Exception_ "vector store unreachable") (0 # 1)).
Proof. vm_compute. reflexivity. Qed.

End WebAwareAgentFacts.

(** ** Properties of ExtendedRAGPipeline.ask_question *)

Module PipelineFacts.

Import ExtendedRAGPipeline.

Local Abbreviation has_text := (fun c : chunk => is_Some (text c)).

Lemma build_context_text_ok (context : list chunk) :
  Forall has_text context ->
  exists context_text, _build_context_text context = Returned context_text.
Proof.
  intros Hall. unfold _build_context_text.
  match goal with
  | |- context [match ?parts context with _ => _ end] =>
    assert (Hparts : exists ps, parts context = Returned ps)
  end.
  { induction Hall as [ | c rest [t Ht] _ [ps IH] ]; [ by eexists | ].
    simpl. rewrite Ht. simpl in IH. rewrite IH. by eexists. }
  destruct Hparts as [ps ->]. by eexists.
Qed.

Lemma fuse_results_text (datetime_now : Q) (local_results web_results : list chunk) :
  Forall has_text local_results ->
  Forall has_text web_results ->
  Forall has_text (_fuse_results datetime_now local_results web_results).
Proof.
  intros Hl Hw. apply Forall_forall. intros c Hc.
  destruct (FusionFacts.fuse_results_bounded_sorted_parts datetime_now
              local_results web_results) as [Hsub Hperm].
  eapply elem_of_sublist in Hc; [ | exact Hsub ].
  rewrite Hperm in Hc. unfold scored in Hc.
  apply list_elem_of_fmap in Hc as (c0 & -> & Hc0). simpl.
  apply elem_of_app in Hc0 as [Hc0 | Hc0];
    [ eapply Forall_forall in Hl | eapply Forall_forall in Hw ]; eauto.
Qed.

Section Collaborators.

Variable provider : nat -> str -> Z -> Z -> result (list WebSearchEngine.ddgs_result).
Variable local_rag : str -> result (option str).
Variable process_search_result : WebSearchEngine.search_result -> result (list chunk).
Variable lm_studio : str -> list chunk -> option str.

Local Abbreviation ask :=
  (ask_question provider local_rag process_search_result lm_studio).

Lemma search_local_text (self : t) (question : str) :
  Forall has_text (_search_local local_rag self question).
Proof.
  unfold _search_local.
  destruct (local_available self); simpl; [ | constructor ].
  destruct (local_rag question) as [[context | ] | e]; try constructor.
  apply Forall_forall. intros c Hc.
  apply list_elem_of_omap in Hc as ([i part] & _ & Hc).
  case_bool_decide; [ | done ]. injection Hc as <-. simpl. by eexists.
Qed.

Lemma process_all_text (search_results : list WebSearchEngine.search_result) :
  (forall r chunks, process_search_result r = Returned chunks ->
                    Forall has_text chunks) ->
  forall web_chunks,
    process_all process_search_result search_results = Returned web_chunks ->
    Forall has_text web_chunks.
Proof.
  intros Htext.
  induction search_results as [ | r rest IH ]; simpl; intros web_chunks.
  - intros [= <-]. constructor.
  - destruct (process_search_result r) as [chunks | e] eqn:Hr; [ | done ].
    destruct (process_all _ rest) as [more | e]; [ | done ].
    intros [= <-]. apply Forall_app. split; [ by eapply Htext | by apply IH ].
Qed.

(** The web search of the pipeline returns in every case and leaves the
    memory alone. *)
Lemma search_web_enhanced_returns (question : str) (max_results : Z)
    (self : t) (w : world) :
  exists web_chunks engine w',
    _search_web_enhanced provider process_search_result question max_results
      (self, w)
    = (Returned (web_chunks, [question]), (set_web_search self engine, w'))
    /\ ((forall r chunks, process_search_result r = Returned chunks ->
                          Forall has_text chunks) ->
        Forall has_text web_chunks).
Proof.
  unfold _search_web_enhanced.
  destruct (WebSearchEngine.search _ _ _ _) as [[results | e] [engine w']].
  - destruct (process_all _ results) as [web_chunks | e] eqn:Hp.
    + exists web_chunks, engine, w'. split; [ done | ].
      intros Htext. by eapply process_all_text.
    + exists [], engine, w'. split; [ done | constructor ].
  - exists [], engine, w'. split; [ done | constructor ].
Qed.

(** One call of [ask_question]: it returns, and it has recorded one
    interaction unless it returns the error response. *)
Lemma search_web_step_returns (question : str) (use_web : bool)
    (max_web_results : Z) (self : t) (w : world) :
  exists web_results search_queries self' w',
    search_web_step provider process_search_result question use_web
      max_web_results (self, w)
    = (Returned (web_results, search_queries), (self', w'))
    /\ memory self' = memory self
    /\ ((forall r chunks, process_search_result r = Returned chunks ->
                          Forall has_text chunks) ->
        Forall has_text web_results).
Proof.
  unfold search_web_step.
  destruct use_web; [ | by eexists [], _, _, _ ].
  destruct (negb _); [ | by eexists [], _, _, _ ].
  destruct (search_web_enhanced_returns question max_web_results self w)
    as (web_chunks & engine & w' & -> & Htext).
  by eexists web_chunks, _, _, _.
Qed.

Lemma ask_question_records (question : str) (use_web : bool)
    (max_web_results : Z) (self : t) (w : world) :
  exists r self' w',
    ask question use_web max_web_results (self, w) = (Returned r, (self', w'))
    /\ ConversationMemory.adds (memory self')
       = (ConversationMemory.adds (memory self)
          + match error r with None => 1 | Some _ => 0 end)%nat
    /\ ((forall r chunks, process_search_result r = Returned chunks ->
                          Forall has_text chunks) ->
        error r = None).
Proof.
  unfold ask_question, try_except, ask_body.
  set (self1 := set_stats self (incr_total_queries (pstats self))).
  set (self2 := set_stats self1 (incr_local_searches (pstats self1))).
  assert (Hlocal := search_local_text self1 question).
  set (local_results := _search_local local_rag self1 question) in *.
  destruct (search_web_step_returns question use_web max_web_results self2 w)
    as (web_results & search_queries & self3 & w3 & -> & Hmem & Hweb).
  destruct (_generate_response lm_studio question _) as [g | e] eqn:Hgen.
  - eexists _, _, _. split_and!; [ reflexivity | simpl; rewrite Hmem; simpl; lia | done ].
  - eexists _, _, _. split_and!; [ reflexivity | simpl; rewrite Hmem; simpl; lia | ].
    intros Htext. exfalso.
    unfold _generate_response in Hgen.
    destruct (build_context_text_ok
                (_fuse_results (now w3) local_results web_results))
      as [ct Hct].
    { apply fuse_results_text; auto. }
    by rewrite Hct in Hgen.
Qed.

End Collaborators.

End PipelineFacts.

(** ** The agent on the pipeline: what a request writes to the memory *)

Module OrchestrationFacts.

Import WebAwareAgent.

(** The number of interactions recorded so far *)
Local Abbreviation recorded :=
  (fun s : ExtendedRAGPipeline.t * world =>
     ConversationMemory.adds (ExtendedRAGPipeline.memory s.1)).

Section Collaborators.

Variable provider : nat -> str -> Z -> Z -> result (list WebSearchEngine.ddgs_result).
Variable local_rag : str -> result (option str).
Variable process_search_result :
  WebSearchEngine.search_result -> result (list ExtendedRAGPipeline.chunk).
Variable lm_studio : str -> list ExtendedRAGPipeline.chunk -> option str.

Hypothesis chunks_have_text :
  forall r chunks,
    process_search_result r = Returned chunks ->
    Forall (fun c => is_Some (ExtendedRAGPipeline.text c)) chunks.

Local Abbreviation ask :=
  (pipeline_ask provider local_rag process_search_result lm_studio).

Lemma pipeline_ask_records (question : str) (use_web : bool)
    (s : ExtendedRAGPipeline.t * world) :
  exists r s', ask question use_web s = (Returned r, s')
               /\ recorded s' = S (recorded s).
Proof.
  destruct s as [self w]. unfold pipeline_ask.
  destruct (PipelineFacts.ask_question_records provider local_rag
              process_search_result lm_studio question use_web 3 self w)
    as (r & self' & w' & -> & Hadds & Herr).
  rewrite (Herr chunks_have_text) in Hadds.
  exists r, (self', w'). split; [ done | simpl; lia ].
Qed.

Lemma parallel_loop_records (analysis : SearchPlanner.analysis)
    (sub_questions : list str) :
  forall sub_responses all_web_sources all_local_sources s,
  exists res s',
    parallel_loop ask analysis sub_questions sub_responses all_web_sources
      all_local_sources s = (Returned res, s')
    /\ recorded s' = (recorded s + length sub_questions)%nat.
Proof.
  induction sub_questions as [ | sub_q rest IH ]; intros acc1 acc2 acc3 s.
  - exists (acc1, acc2, acc3), s. split; [ done | simpl; lia ].
  - cbn [parallel_loop]. unfold bind, _execute_single_search.
    destruct (pipeline_ask_records sub_q (SearchPlanner.needs_web analysis) s)
      as (r & s1 & -> & H1).
    edestruct IH as (res & s' & -> & H2).
    exists res, s'. split; [ done | ]. rewrite H2, H1. simpl. lia.
Qed.

Lemma sequential_loop_records (analysis : SearchPlanner.analysis)
    (max_depth : Z) (sub_questions : list str) :
  forall i current_context all_responses s,
  exists res s',
    sequential_loop ask analysis max_depth i sub_questions current_context
      all_responses s = (Returned res, s')
    /\ recorded s'
       = (recorded s + length sub_questions `min` Z.to_nat (max_depth - i))%nat.
Proof.
  induction sub_questions as [ | sub_q rest IH ]; intros i ctx acc s.
  - exists acc, s. split; [ done | simpl; lia ].
  - cbn [sequential_loop]. case_bool_decide as Hdepth.
    + exists acc, s. split; [ done | ].
      replace (Z.to_nat (max_depth - i)) with 0%nat by lia. simpl. lia.
    + unfold bind, _execute_single_search.
      match goal with
      | |- context [ask ?q ?u s] =>
        destruct (pipeline_ask_records q u s) as (r & s1 & -> & H1)
      end.
      edestruct IH as (res & s' & -> & H2).
      exists res, s'. split; [ done | ]. rewrite H2, H1. simpl length.
      replace (Z.to_nat (max_depth - i))
        with (S (Z.to_nat (max_depth - (i + 1)))) by lia.
      lia.
Qed.

(** C10 (amended): every retrieval round records its own interaction. A
    request of an available agent appends one interaction for the strategy
    "single", one per sub-question for "parallel", and one per executed
    step, at most [max_depth] of them, for "sequential"; the agent itself
    appends none, and an agent that is not available appends none. (The
    chunks made from web pages are taken to carry their text, so that no
    round ends in the error response of the pipeline.) *)
Theorem request_records_each_round (question : str) (max_depth : Z)
    (self : t) (ps : ExtendedRAGPipeline.t * world) :
  let a := SearchPlanner.analyze_question question in
  let out :=
    answer provider local_rag process_search_result lm_studio question
      max_depth (self, ps) in
  (available self = false -> recorded out.2.2 = recorded ps)
  /\ (available self = true ->
      SearchPlanner.search_strategy a = "single"%string ->
      recorded out.2.2 = (recorded ps + 1)%nat)
  /\ (available self = true ->
      SearchPlanner.search_strategy a = "parallel"%string ->
      recorded out.2.2
      = (recorded ps + length (SearchPlanner.sub_questions a))%nat)
  /\ (available self = true ->
      SearchPlanner.search_strategy a = "sequential"%string ->
      recorded out.2.2
      = (recorded ps
         + length (SearchPlanner.sub_questions a) `min` Z.to_nat max_depth)%nat).
Proof.
  cbv zeta. unfold answer.
  rewrite WebAwareAgentFacts.answer_question_pipeline.
  split_and!.
  - by intros ->.
  - intros -> Hst. unfold execute. rewrite Hst.
    rewrite bool_decide_true by done. unfold _execute_single_search.
    match goal with
    | |- context [pipeline_ask _ _ _ _ ?q ?u ps] =>
      destruct (pipeline_ask_records q u ps) as (r & s1 & -> & H1)
    end.
    simpl. simpl in H1. lia.
  - intros -> Hst. unfold execute. rewrite Hst.
    rewrite bool_decide_false by done. rewrite bool_decide_true by done.
    unfold _execute_parallel_search, bind.
    edestruct parallel_loop_records as (res & s' & -> & H).
    destruct res as [[r1 r2] r3]. simpl. simpl in H. exact H.
  - intros -> Hst. unfold execute. rewrite Hst.
    rewrite !bool_decide_false by done. rewrite bool_decide_true by done.
    unfold _execute_sequential_search, bind.
    edestruct sequential_loop_records as (res & s' & -> & H).
    simpl. simpl in H. rewrite H. by rewrite Z.sub_0_r.
Qed.

End Collaborators.

Import Inputs.

(** C10, as the claim words it, fails: a request decomposed into two
    sub-questions and run in parallel leaves two interactions in a memory
    that was empty, one for each sub-question. *)
Lemma parallel_request_records_twice :
  let out := answer provider_up local_none no_chunks lm_offline two_parts 3
               (agent0, (pipeline0, w0)) in
  (exists r, out.1 = Returned r /\ search_strategy r = Some "parallel"%string)
  /\ recorded (pipeline0, w0) = 0%nat
  /\ recorded out.2.2 = 2%nat
  /\ map ConversationMemory.question
       (ConversationMemory.interactions (ExtendedRAGPipeline.memory out.2.2.1))
     = [py "a b c d e f g h i j k?"; py "l m n p q r s t v w?"].
Proof.
  vm_compute. split_and!; try reflexivity. eexists. split; reflexivity.
Qed.

Lemma request_records_each_round_witness :
  recorded
    (answer provider_up local_none no_chunks lm_offline two_parts 3
       (agent0, (pipeline0, w0))).2.2
  = 2%nat.
Proof.
  assert (Htext : forall r chunks,
             no_chunks r = Returned chunks ->
             Forall (fun c => is_Some (ExtendedRAGPipeline.text c)) chunks).
  { intros r chunks [= <-]. constructor. }
  pose proof (request_records_each_round provider_up local_none no_chunks
                lm_offline Htext two_parts 3 agent0 (pipeline0, w0)) as H.
  cbv zeta in H. destruct H as (_ & _ & Hparallel & _).
  rewrite Hparallel.
  - vm_compute. reflexivity.
  - reflexivity.
  - vm_compute. reflexivity.
Defined.

End OrchestrationFacts.

(** ** Properties of [strip] *)

Module StripFacts.

Lemma last_rev {A} (l : list A) : last (rev l) = head l.
Proof. destruct l as [ | a l ]; [ done | ]. simpl. apply last_snoc. Qed.

Lemma head_rev {A} (l : list A) : head (rev l) = last l.
Proof. rewrite <- (rev_involutive l) at 2. by rewrite last_rev. Qed.

Lemma lstrip_head (s : str) (c : char) :
  head (lstrip s) = Some c -> isspace c = false.
Proof.
  induction s as [ | a s IH ]; simpl; [ done | ].
  destruct (isspace a) eqn:Ha; [ done | ].
  simpl. by intros [= <-].
Qed.

Lemma lstrip_suffix (s : str) : exists pre, s = pre ++ lstrip s.
Proof.
  induction s as [ | a s [pre IH] ]; simpl; [ by exists [] | ].
  destruct (isspace a).
  - exists (a :: pre). simpl. by rewrite <- IH.
  - by exists [].
Qed.

Lemma lstrip_fixed (s : str) :
  (forall c, head s = Some c -> isspace c = false) -> lstrip s = s.
Proof.
  destruct s as [ | a s ]; simpl; [ done | ].
  intros H. by rewrite (H a).
Qed.

Lemma rstrip_prefix (s : str) : exists post, s = rstrip s ++ post.
Proof.
  unfold rstrip. destruct (lstrip_suffix (rev s)) as [pre Hpre].
  exists (rev pre).
  rewrite <- (rev_involutive s) at 1. rewrite Hpre at 1.
  by rewrite rev_app_distr.
Qed.

Lemma rstrip_last (s : str) (c : char) :
  last (rstrip s) = Some c -> isspace c = false.
Proof.
  unfold rstrip. rewrite last_rev. apply lstrip_head.
Qed.

Lemma rstrip_fixed (s : str) :
  (forall c, last s = Some c -> isspace c = false) -> rstrip s = s.
Proof.
  intros H. unfold rstrip. rewrite lstrip_fixed.
  - apply rev_involutive.
  - intros c Hc. apply H. by rewrite <- head_rev.
Qed.

Lemma strip_no_space_at_ends (s : str) : no_space_at_ends (strip s).
Proof.
  unfold strip. split.
  - intros c Hc. apply (lstrip_head s).
    destruct (rstrip_prefix (lstrip s)) as [post Hpost].
    rewrite Hpost. destruct (rstrip (lstrip s)); [ done | ]. exact Hc.
  - apply rstrip_last.
Qed.

Lemma strip_fixed (s : str) : no_space_at_ends s -> strip s = s.
Proof.
  intros [Hh Hl]. unfold strip. rewrite (lstrip_fixed s Hh).
  by apply rstrip_fixed.
Qed.

Lemma strip_idempotent (s : str) : strip (strip s) = strip s.
Proof. apply strip_fixed, strip_no_space_at_ends. Qed.

End StripFacts.

(** ** Further properties of SearchPlanner *)

Module SearchPlannerMore.

Import SearchPlanner.

(** The complexity score of every question lies between 0 and 10. *)
Lemma complexity_between_0_and_10 (question : str) :
  0 <= complexity (analyze_question question) <= 10.
Proof.
  assert (H : complexity (analyze_question question)
              = _assess_complexity question).
  { unfold analyze_question. by case_bool_decide. }
  rewrite H. apply SearchPlannerFacts.assess_complexity_range.
Qed.

(** X1: A question of at most twenty words is never decomposed: it is its own
    single sub-question, whatever connectors and keywords it contains, and
    it is answered with the strategy "single" and one estimated search. *)
Theorem short_question_not_decomposed (question : str) :
  len (split question) <= 20 ->
  sub_questions (analyze_question question) = [question]
  /\ search_strategy (analyze_question question) = "single"%string
  /\ estimated_searches (analyze_question question) = 1.
Proof.
  intros Hshort. unfold analyze_question.
  rewrite (SearchPlannerFacts.break_down_short question Hshort).
  rewrite bool_decide_false; [ done | ]. unfold len. simpl. lia.
Qed.

Lemma short_question_not_decomposed_witness :
  sub_questions (analyze_question Inputs.bitcoin_fr) = [Inputs.bitcoin_fr]
  /\ search_strategy (analyze_question Inputs.bitcoin_fr) = "single"%string
  /\ estimated_searches (analyze_question Inputs.bitcoin_fr) = 1.
Proof.
  apply (short_question_not_decomposed Inputs.bitcoin_fr).
  vm_compute. discriminate.
Defined.

(** X2: When a question is decomposed, every sub-question is a segment of the
    question between two connectors, stripped of the whitespace at its ends
    and not empty, followed by a question mark; and there are no more
    sub-questions than segments. *)
Theorem decomposition_trimmed_and_marked (question : str) :
  _break_down_question question = [question]
  \/ (len (split question) > 20
      /\ len (re_split connectors question) > 1
      /\ len (_break_down_question question)
         <= len (re_split connectors question)
      /\ Forall (fun sub => exists body,
                   sub = body ++ py "?" /\ body ≠ []
                   /\ no_space_at_ends body
                   /\ exists part, part ∈ re_split connectors question
                                   /\ body = strip part)
                (_break_down_question question)).
Proof.
  unfold _break_down_question.
  case_bool_decide as Hw; [ | by left ].
  case_bool_decide as Hp; [ | by left ].
  right. split_and!; try done.
  - unfold len. rewrite length_fmap.
    pose proof (length_filter (fun part => strip part ≠ [])
                  (re_split connectors question)). lia.
  - apply Forall_forall. intros sub Hsub.
    apply list_elem_of_fmap in Hsub as (part & -> & Hpart).
    apply list_elem_of_filter in Hpart as [Hne Hin].
    exists (strip part). split_and!; try done.
    + apply StripFacts.strip_no_space_at_ends.
    + by exists part.
Qed.

End SearchPlannerMore.

(** ** Further properties of CircuitBreaker *)

Module CircuitBreakerMore.

Import CircuitBreaker.

Section Calls.

Context {A : Type}.
Implicit Types (func : M world A).

(** X3: A success on a breaker that is not open closes it and wipes the count
    of failures, however many there were: only consecutive failures can
    open the breaker. *)
Theorem success_resets_the_count func (cb : t) (w w' : world) (r : A) :
  state cb ≠ "OPEN"%string ->
  func w = (Returned r, w') ->
  exists cb',
    call func (cb, w) = (Returned r, (cb', w'))
    /\ state cb' = "CLOSED"%string
    /\ failure_count cb' = 0
    /\ failure_threshold cb' = failure_threshold cb
    /\ recovery_timeout cb' = recovery_timeout cb.
Proof.
  intros Hst Hf. unfold call.
  rewrite CircuitBreakerFacts.gate_not_open by done. rewrite Hf.
  by eexists.
Qed.

(** X4: An open breaker whose last failure is more than [recovery_timeout]
    seconds old lets one call through. If the call succeeds the breaker is
    closed with no failure counted; if it fails the breaker is open again
    and the waiting time starts anew from that failure. *)
Theorem open_breaker_recovers func (cb : t) (w : world) (last : Q) :
  state cb = "OPEN"%string ->
  last_failure_time cb = Some last ->
  failure_threshold cb <= failure_count cb ->
  (inject_Z (recovery_timeout cb) < now w - last)%Q ->
  let out := call func (cb, w) in
  out.1 = (func w).1
  /\ out.2.2 = (func w).2
  /\ (is_raised (func w).1 = false ->
      state out.2.1 = "CLOSED"%string /\ failure_count out.2.1 = 0)
  /\ (is_raised (func w).1 = true ->
      state out.2.1 = "OPEN"%string
      /\ last_failure_time out.2.1 = Some (now (func w).2)
      /\ failure_count out.2.1 = failure_count cb + 1
      /\ forall func' (w2 : world),
           (now w2 - now (func w).2 < inject_Z (recovery_timeout cb))%Q ->
           call func' (out.2.1, w2) = (Raised blocked, (out.2.1, w2))).
Proof.
  intros Hst Hlast Hcount Hlate. cbv zeta.
  assert (Hgate : gate cb (now w) = Returned (set_state cb "HALF_OPEN")).
  { unfold gate. rewrite bool_decide_true by done. rewrite Hlast.
    apply FusionFacts.Qgt_bool_true in Hlate. by rewrite Hlate. }
  assert (Hcall :
    call func (cb, w)
    = match func w with
      | (Returned r, w') =>
        (Returned r, (_on_success (set_state cb "HALF_OPEN"), w'))
      | (Raised e, w') =>
        (Raised e, (_on_failure (set_state cb "HALF_OPEN") (now w'), w'))
      end).
  { unfold call. by rewrite Hgate. }
  rewrite Hcall. clear Hcall.
  destruct (func w) as [[r | e] w'] eqn:Hf; simpl.
  - split_and!; done.
  - split_and!; try done. intros _.
    rewrite bool_decide_true by lia.
    split_and!; try done.
    intros func' w2 Hearly.
    rewrite (CircuitBreakerFacts.gate_open_early _ (now w2) (now w')).
    + done.
    + simpl. by rewrite bool_decide_true by lia.
    + done.
    + simpl. by apply Qlt_le_weak.
Qed.

End Calls.

Lemma open_breaker_recovers_witness :
  let out := call Inputs.failing (Inputs.open_breaker, Inputs.at_time 2000) in
  provider_calls out.2.2 = 1%nat
  /\ state out.2.1 = "OPEN"%string
  /\ last_failure_time out.2.1 = Some (2000 : Q).
Proof.
  assert (Hcount : failure_threshold Inputs.open_breaker
                   <= failure_count Inputs.open_breaker) by (simpl; lia).
  assert (Hlate : (inject_Z (recovery_timeout Inputs.open_breaker)
                   < now (Inputs.at_time 2000) - 990)%Q) by reflexivity.
  pose proof (open_breaker_recovers Inputs.failing Inputs.open_breaker
                (Inputs.at_time 2000) 990 eq_refl eq_refl Hcount Hlate) as H.
  cbv zeta in H.
  destruct H as (_ & Hw & _ & Hfail).
  destruct Hfail as (Hst & Hlast & _); [ reflexivity | ].
  split_and!; [ by rewrite Hw | exact Hst | exact Hlast ].
Defined.

Lemma success_resets_the_count_witness :
  exists cb',
    call (ret 7) (CircuitBreaker._on_failure (__init__ 5 60) 990, Inputs.w0)
    = (Returned 7, (cb', Inputs.w0))
    /\ state cb' = "CLOSED"%string
    /\ failure_count cb' = 0.
Proof.
  destruct (success_resets_the_count (ret 7)
              (CircuitBreaker._on_failure (__init__ 5 60) 990)
              Inputs.w0 Inputs.w0 7) as (cb' & H1 & H2 & H3 & _).
  - simpl. discriminate.
  - reflexivity.
  - by exists cb'.
Defined.

Section Reachable.

Context {A : Type}.

(** What holds of a breaker after any calls *)
Local Abbreviation sound := (fun cb : t =>
  (state cb = "CLOSED"%string \/ state cb = "OPEN"%string)
  /\ (state cb = "OPEN"%string ->
      is_Some (last_failure_time cb)
      /\ failure_threshold cb <= failure_count cb)
  /\ 0 <= failure_count cb).

Lemma call_sound (func : M world A) (cb : t) (w : world) :
  sound cb ->
  sound (call func (cb, w)).2.1
  /\ failure_threshold (call func (cb, w)).2.1 = failure_threshold cb
  /\ recovery_timeout (call func (cb, w)).2.1 = recovery_timeout cb.
Proof.
  intros (Hstate & Hopen & Hcount). unfold call, gate.
  case_bool_decide as Hst.
  - destruct (Hopen Hst) as [[last Hlast] Hth]. rewrite Hlast.
    destruct (Qgt_bool _ _); [ | simpl; split_and!; done ].
    destruct (func w) as [[r | e] w']; simpl.
    + split_and!; try done; try lia. by left.
    + rewrite bool_decide_true by lia.
      split_and!; try done; try lia; [ by right | ].
      intros _. split; [ done | lia ].
  - destruct Hstate as [Hclosed | ]; [ | done ].
    destruct (func w) as [[r | e] w']; simpl.
    + split_and!; try done; try lia. by left.
    + case_bool_decide as Hreach.
      * split_and!; try done; try lia; [ by right | ].
        intros _. split; [ done | lia ].
      * rewrite Hclosed. split_and!; try done; try lia. by left.
Qed.

Lemma calls_sound (funcs : list (M world A)) : forall (cb : t) (w : world),
  sound cb ->
  sound (calls funcs (cb, w)).2.1
  /\ failure_threshold (calls funcs (cb, w)).2.1 = failure_threshold cb
  /\ recovery_timeout (calls funcs (cb, w)).2.1 = recovery_timeout cb.
Proof.
  induction funcs as [ | func funcs IH ]; intros cb w Hs; [ done | ].
  rewrite CircuitBreakerFacts.calls_cons. cbn [fst snd].
  destruct (call_sound func cb w Hs) as (Hs1 & Hth1 & Hrt1).
  destruct (call func (cb, w)) as [r [cb1 w1]]. cbn [fst snd] in *.
  destruct (IH cb1 w1 Hs1) as (Hs2 & Hth2 & Hrt2).
  split_and!; [ apply Hs2.. | congruence | congruence ].
Qed.

(** X5: Whatever calls were made since its construction, the breaker is
    closed or open between two calls (never left half-open), its failure
    count is not negative, and when it is open a failure time is recorded
    and the count has reached the threshold: the test of the elapsed time
    at the head of [call] always has a time to subtract. *)
Theorem breaker_states_between_calls (failure_threshold recovery_timeout : Z)
    (funcs : list (M world A)) (w : world) (time_time : Q) :
  let cb := (calls funcs (__init__ failure_threshold recovery_timeout, w)).2.1 in
  (state cb = "CLOSED"%string \/ state cb = "OPEN"%string)
  /\ 0 <= failure_count cb
  /\ (state cb = "OPEN"%string ->
      is_Some (last_failure_time cb)
      /\ failure_threshold <= failure_count cb)
  /\ (gate cb time_time = Returned cb
      \/ gate cb time_time = Returned (set_state cb "HALF_OPEN")
      \/ gate cb time_time = Raised blocked).
Proof.
  cbv zeta.
  destruct (calls_sound funcs (__init__ failure_threshold recovery_timeout) w)
    as ((Hstate & Hopen & Hcount) & Hth & _).
  { simpl. split_and!; [ by left | done | lia ]. }
  simpl in Hth. rewrite Hth in Hopen.
  split_and!; try done.
  unfold gate. case_bool_decide as Hst; [ | by left ].
  destruct (Hopen Hst) as [[last ->] _].
  destruct (Qgt_bool _ _); [ right; by left | right; by right ].
Qed.

End Reachable.

End CircuitBreakerMore.

(** ** Further properties of WebSearchEngine *)

Module WebSearchEngineMore.

Import WebSearchEngine.

Lemma validate_one_fixed (r r' : search_result) :
  validate_one r = Some r' -> validate_one r' = Some r'.
Proof.
  unfold validate_one at 1.
  destruct (title r) as [t | ]; [ | done ].
  destruct (url r) as [u | ]; [ | done ].
  destruct (snippet r) as [s | ]; [ | done ].
  destruct (negb _) eqn:Hpre; [ done | ].
  destruct (_ || _) eqn:Hblank; [ done | ].
  destruct (bool_decide (len (strip t) < 3) || _) eqn:Hshort; [ done | ].
  intros [= <-]. unfold validate_one.
  cbn [title url snippet source timestamp query].
  rewrite !StripFacts.strip_idempotent. by rewrite Hpre, Hblank, Hshort.
Qed.

(** X6: [_validate_results] only drops entries, and validating its output
    again changes nothing. *)
Theorem validate_results_idempotent (results : list search_result) :
  len (_validate_results results) <= len results
  /\ _validate_results (_validate_results results) = _validate_results results.
Proof.
  unfold _validate_results, len. split.
  - assert (H : (length (omap validate_one results) <= length results)%nat).
    { induction results as [ | r rest IH ]; [ done | ].
      csimpl. destruct (validate_one r); simpl; lia. }
    lia.
  - induction results as [ | r rest IH ]; [ done | ].
    csimpl. destruct (validate_one r) as [r' | ] eqn:Hr; [ | done ].
    csimpl. rewrite (validate_one_fixed r r' Hr). csimpl. by rewrite IH.
Qed.

Section Provider.

Variable provider : nat -> str -> Z -> Z -> result (list ddgs_result).

Local Abbreviation retry := (_perform_search_with_retry provider).

(** X7: An HTTP error whose status is below 500 and is not 429 ends the run at
    once: one call of the provider, no pause, no further attempt. *)
Theorem client_error_is_not_retried (self : t) (query : str)
    (max_results : Z) (w : world) (response : http_response) (msg : string) :
  1 <= max_retries self ->
  provider (provider_calls w) query max_results (timeout self)
    = Raised (Exn (HTTPError (Some response)) msg) ->
  truthy response = true ->
  status_code response ≠ 429 ->
  status_code response < 500 ->
  let out := retry self query max_results w in
  out.1 = Raised (exhausted self
                    (Some ("HTTP " +:+ pretty (status_code response))))
  /\ provider_calls out.2 = S (provider_calls w)
  /\ slept out.2 = slept w.
Proof.
  intros Hn Hp Htrue H429 H500. cbv zeta.
  unfold _perform_search_with_retry.
  destruct (range (max_retries self)) as [ | attempt rest ] eqn:Hrange.
  { apply (f_equal length) in Hrange.
    rewrite WebSearchEngineFacts.range_length in Hrange. simpl in Hrange. lia. }
  simpl. rewrite Hp. simpl. rewrite Htrue. simpl.
  rewrite bool_decide_false by done. rewrite bool_decide_false by lia.
  done.
Qed.

(** X8: An HTTP error that carries no response, or a response that counts as
    false, ends the run with a [TypeError]: its status is the string
    "Unknown", which the handler compares with 500. Nothing is retried. *)
Theorem http_error_without_response_escapes (self : t) (query : str)
    (max_results : Z) (w : world) (response : option http_response)
    (msg : string) :
  1 <= max_retries self ->
  provider (provider_calls w) query max_results (timeout self)
    = Raised (Exn (HTTPError response) msg) ->
  status_of response = Unknown ->
  let out := retry self query max_results w in
  (exists msg', out.1 = Raised (Exn TypeError msg'))
  /\ provider_calls out.2 = S (provider_calls w)
  /\ slept out.2 = slept w.
Proof.
  intros Hn Hp Hunknown. cbv zeta.
  unfold _perform_search_with_retry.
  destruct (range (max_retries self)) as [ | attempt rest ] eqn:Hrange.
  { apply (f_equal length) in Hrange.
    rewrite WebSearchEngineFacts.range_length in Hrange. simpl in Hrange. lia. }
  simpl. rewrite Hp. simpl. rewrite Hunknown. simpl.
  split_and!; [ by eexists | done | done ].
Qed.

(** One timeout: a pause of [2 ^ attempt] seconds unless the attempt is the
    last one, then the rest of the attempts. *)
Lemma retry_loop_timeout (self : t) (query : str) (max_results : Z)
    (attempt : Z) (rest : list Z) (last : option string) (w : world)
    (msg : string) :
  provider (provider_calls w) query max_results (timeout self)
    = Raised (Exn Timeout msg) ->
  exists w',
    retry_loop provider self query max_results (attempt :: rest) last w
    = retry_loop provider self query max_results rest
        (Some "Timeout"%string) w'
    /\ provider_calls w' = S (provider_calls w)
    /\ slept w'
       = slept w ++ (if bool_decide (attempt < max_retries self - 1)
                     then [2 ^ attempt] else []).
Proof.
  intros Hp. simpl. rewrite Hp. simpl. unfold bind.
  case_bool_decide; simpl.
  - eexists. split_and!; [ reflexivity | done | done ].
  - eexists. split_and!; [ reflexivity | done | by rewrite app_nil_r ].
Qed.

Lemma retry_loop_timeouts (self : t) (query : str) (max_results : Z)
    (attempts : list Z) :
  forall (last : option string) (w : world),
    attempts ≠ [] ->
    (forall i, (i < length attempts)%nat ->
       exists msg,
         provider (provider_calls w + i) query max_results (timeout self)
         = Raised (Exn Timeout msg)) ->
    exists w',
      retry_loop provider self query max_results attempts last w
      = (Raised (exhausted self (Some "Timeout"%string)), w')
      /\ provider_calls w' = (provider_calls w + length attempts)%nat
      /\ slept w'
         = slept w
           ++ map (fun a => 2 ^ a)
                  (filter (fun a => a < max_retries self - 1) attempts).
Proof.
  induction attempts as [ | attempt rest IH ]; intros last w Hne Hto;
    [ done | ].
  destruct (Hto 0%nat) as [msg Hp]; [ simpl; lia | ].
  rewrite Nat.add_0_r in Hp.
  destruct (retry_loop_timeout self query max_results attempt rest last w msg Hp)
    as (w1 & -> & Hc1 & Hs1).
  rewrite filter_cons.
  destruct rest as [ | attempt' rest ].
  - exists w1. split_and!; [ done | simpl; lia | ].
    rewrite Hs1. rewrite filter_nil. by case_decide; case_bool_decide.
  - destruct (IH (Some "Timeout"%string) w1) as (w' & -> & Hc & Hs).
    + done.
    + intros i Hi. rewrite Hc1.
      replace (S (provider_calls w) + i)%nat
        with (provider_calls w + S i)%nat by lia.
      apply Hto. simpl in *. lia.
    + exists w'. split_and!; [ done | simpl in *; lia | ].
      rewrite Hs, Hs1. rewrite <- app_assoc. f_equal.
      by case_decide; case_bool_decide.
Qed.

Lemma filter_below_seq (k : nat) : forall (s : nat) (bound : Z),
  Z.of_nat (s + k) <= bound ->
  filter (fun a => a < bound) (map Z.of_nat (seq s k)) = map Z.of_nat (seq s k).
Proof.
  induction k as [ | k IH ]; intros s bound Hb; [ done | ].
  simpl. rewrite filter_cons. rewrite decide_True by lia.
  f_equal. apply IH. lia.
Qed.

Lemma filter_range_but_last (n : Z) :
  1 <= n -> filter (fun a => a < n - 1) (range n) = range (n - 1).
Proof.
  intros Hn. unfold range.
  replace (Z.to_nat n) with (S (Z.to_nat (n - 1))) by lia.
  rewrite seq_S, map_app, filter_app. simpl.
  rewrite filter_below_seq by lia.
  rewrite filter_cons, filter_nil. rewrite decide_False by lia.
  by rewrite app_nil_r.
Qed.

(** X9: When every attempt times out, a run of [max_retries] attempts calls the
    provider [max_retries] times, pauses 1, 2, 4, ... seconds between the
    attempts ([2 ^ attempt], no pause after the last one) and fails with
    the last error "Timeout". *)
Theorem timeouts_back_off_exponentially (self : t) (query : str)
    (max_results : Z) (w : world) :
  1 <= max_retries self ->
  (forall i : nat,
     exists msg,
       provider (provider_calls w + i) query max_results (timeout self)
       = Raised (Exn Timeout msg)) ->
  let out := retry self query max_results w in
  out.1 = Raised (exhausted self (Some "Timeout"%string))
  /\ provider_calls out.2 = (provider_calls w + Z.to_nat (max_retries self))%nat
  /\ slept out.2
     = slept w ++ map (fun attempt => 2 ^ attempt) (range (max_retries self - 1)).
Proof.
  intros Hn Hto. cbv zeta. unfold _perform_search_with_retry.
  destruct (retry_loop_timeouts self query max_results
              (range (max_retries self)) None w) as (w' & -> & Hc & Hs).
  - intros Hnil. apply (f_equal length) in Hnil.
    rewrite WebSearchEngineFacts.range_length in Hnil. simpl in Hnil. lia.
  - intros i _. apply Hto.
  - rewrite WebSearchEngineFacts.range_length in Hc.
    rewrite filter_range_but_last in Hs by done. done.
Qed.

(** What one [search] costs and keeps: it returns, after at most
    [max_retries] calls of the provider, and leaves the settings of the
    engine as they were. *)
Lemma search_cost (query : str) (max_results : option Z) (self : t)
    (w : world) :
  let out := search provider query max_results (self, w) in
  (exists results, out.1 = Returned results)
  /\ (provider_calls out.2.2
      <= provider_calls w + Z.to_nat (max_retries self))%nat
  /\ max_retries out.2.1 = max_retries self
  /\ timeout out.2.1 = timeout self
  /\ WebSearchEngine.max_results out.2.1 = WebSearchEngine.max_results self.
Proof.
  cbv zeta. unfold search, CircuitBreaker.call.
  destruct (CircuitBreaker.gate _ _) as [cb | e]; simpl.
  - pose proof (WebSearchEngineFacts.retry_loop_calls_le provider self query
                  (default (WebSearchEngine.max_results self) max_results)
                  (range (max_retries self)) None w) as Hle.
    rewrite WebSearchEngineFacts.range_length in Hle.
    unfold _perform_search_with_retry.
    destruct (retry_loop _ _ _ _ _ _ _) as [[rs | e] w']; simpl in *;
      (split_and!; [ by eexists | lia | done | done | done ]).
  - split_and!; [ by eexists | lia | done | done | done ].
Qed.

Lemma search_multiple_loop_spec (queries : list str)
    (max_results_per_query : Z) :
  forall (results : gmap str (list search_result)) (self : t) (w : world),
    let out :=
      search_multiple_loop provider queries max_results_per_query results
        (self, w) in
    (exists found, out.1 = Returned found
                   /\ dom found = dom results ∪ list_to_set queries)
    /\ (provider_calls out.2.2
        <= provider_calls w + length queries * Z.to_nat (max_retries self))%nat
    /\ max_retries out.2.1 = max_retries self.
Proof.
  induction queries as [ | query rest IH ]; intros results self w.
  - simpl. split_and!; [ | lia | done ].
    exists results. split; [ done | set_solver ].
  - cbn [search_multiple_loop]. unfold bind. cbv zeta.
    destruct (search_cost query (Some max_results_per_query) self w)
      as ([found Hfound] & Hle & Hmr & _).
    destruct (search provider query (Some max_results_per_query) (self, w))
      as [r [self1 w1]]. simpl in Hfound, Hle, Hmr. subst r.
    specialize (IH (<[query := found]> results) self1 w1). cbv zeta in IH.
    destruct IH as ([all [Hall Hdom]] & Hle2 & Hmr2).
    split_and!.
    + exists all. split; [ done | ]. rewrite Hdom, dom_insert_L. set_solver.
    + rewrite Hmr in Hle2. simpl. lia.
    + congruence.
Qed.

(** X10: [search_multiple_queries] never fails; the dict it returns has exactly
    the queries as its keys (a query given twice has one entry), and it
    calls the provider at most [max_retries] times per query. *)
Theorem search_multiple_queries_keys (queries : list str)
    (max_results_per_query : Z) (self : t) (w : world) :
  let out :=
    search_multiple_queries provider queries max_results_per_query (self, w) in
  (exists results,
     out.1 = Returned results
     /\ dom results = list_to_set queries
     /\ forall query, query ∈ queries -> is_Some (results !! query))
  /\ (provider_calls out.2.2
      <= provider_calls w + length queries * Z.to_nat (max_retries self))%nat.
Proof.
  cbv zeta. unfold search_multiple_queries.
  destruct (search_multiple_loop_spec queries max_results_per_query ∅ self w)
    as ([results [Hres Hdom]] & Hle & _).
  split; [ | done ].
  exists results. rewrite dom_empty_L, (left_id_L ∅ (∪)) in Hdom.
  split_and!; try done.
  intros query Hq. apply elem_of_dom. rewrite Hdom. set_solver.
Qed.

End Provider.

Lemma client_error_is_not_retried_witness :
  let out :=
    _perform_search_with_retry
      (fun _ _ _ _ =>
         Raised (Exn (HTTPError (Some {| truthy := true; status_code := 404 |}))
                     "404 Client Error"))
      Inputs.engine0 (py "bitcoin") 5 Inputs.w0 in
  provider_calls out.2 = 1%nat /\ slept out.2 = [].
Proof.
  pose proof (client_error_is_not_retried
                (fun _ _ _ _ =>
                   Raised (Exn (HTTPError (Some {| truthy := true;
                                                   status_code := 404 |}))
                               "404 Client Error"))
                Inputs.engine0 (py "bitcoin") 5 Inputs.w0
                {| truthy := true; status_code := 404 |} "404 Client Error") as H.
  cbv zeta in H.
  destruct H as (_ & Hc & Hs);
    [ simpl; lia | reflexivity | reflexivity | discriminate | simpl; lia | ].
  split; [ exact Hc | exact Hs ].
Defined.

Lemma http_error_without_response_escapes_witness :
  is_raised
    (_perform_search_with_retry
       (fun _ _ _ _ => Raised (Exn (HTTPError None) "no response"))
       Inputs.engine0 (py "bitcoin") 5 Inputs.w0).1 = true
  /\ provider_calls
       (_perform_search_with_retry
          (fun _ _ _ _ => Raised (Exn (HTTPError None) "no response"))
          Inputs.engine0 (py "bitcoin") 5 Inputs.w0).2 = 1%nat.
Proof.
  pose proof (http_error_without_response_escapes
                (fun _ _ _ _ => Raised (Exn (HTTPError None) "no response"))
                Inputs.engine0 (py "bitcoin") 5 Inputs.w0 None "no response")
    as H.
  cbv zeta in H.
  destruct H as ([msg Hr] & Hc & _); [ simpl; lia | reflexivity | reflexivity | ].
  split; [ by rewrite Hr | exact Hc ].
Defined.

Lemma timeouts_back_off_exponentially_witness :
  let out :=
    _perform_search_with_retry Inputs.provider_down Inputs.engine0
      (py "bitcoin") 5 Inputs.w0 in
  provider_calls out.2 = 3%nat /\ slept out.2 = [1; 2].
Proof.
  pose proof (timeouts_back_off_exponentially Inputs.provider_down
                Inputs.engine0 (py "bitcoin") 5 Inputs.w0) as H.
  cbv zeta in H. destruct H as (_ & Hc & Hs).
  - simpl. lia.
  - intros i. by eexists.
  - split; [ exact Hc | exact Hs ].
Defined.

End WebSearchEngineMore.

(** ** Further properties of ConversationMemory *)

Module ConversationMemoryMore.

Import ConversationMemory.

Lemma fresh_lt (cutoff : Q) (i : interaction) :
  fresh cutoff i = true <-> (cutoff < timestamp i)%Q.
Proof. unfold fresh. apply FusionFacts.Qgt_bool_true. Qed.

(** X11: Right after a record, no stored interaction is older than [ttl_hours]:
    each one is younger than that at the time of the record. *)
Theorem record_purges_expired (self : t) (datetime_now : Q) (question : str)
    (response : response) :
  Forall (fun i => (cutoff datetime_now (ttl_hours self) < timestamp i)%Q)
         (interactions (add_interaction self datetime_now question response)).
Proof.
  rewrite ConversationMemoryFacts.add_interaction_interactions. cbv zeta.
  apply Forall_forall. intros i Hi.
  apply ConversationMemoryFacts.elem_of_List_filter in Hi as [_ Hi].
  by apply fresh_lt.
Qed.

Lemma List_filter_snoc {A} (f : A -> bool) (l : list A) (x : A) :
  f x = true -> last (List.filter f (l ++ [x])) = Some x.
Proof.
  intros Hx. rewrite List.filter_app. simpl. rewrite Hx. apply last_snoc.
Qed.

Lemma record_keeps_order_parts (self : t) (datetime_now : Q) (question : str)
    (response : response) :
  let new :=
    {| timestamp := datetime_now; question := question;
       i_search_queries := default [] (search_queries response);
       i_web_sources := default [] (web_sources response) |} in
  let after := add_interaction self datetime_now question response in
  interactions after `sublist_of` interactions self ++ [new]
  /\ (1 <= max_memory self -> 0 < ttl_hours self ->
      last (interactions after) = Some new).
Proof.
  cbv zeta. rewrite ConversationMemoryFacts.add_interaction_interactions.
  cbv zeta. split.
  - etrans; [ apply ConversationMemoryFacts.List_filter_sublist | ].
    case_bool_decide; [ apply ConversationMemoryFacts.tail_sublist | done ].
  - intros Hmax Httl.
    assert (Hfresh : fresh (cutoff datetime_now (ttl_hours self))
                       {| timestamp := datetime_now; question := question;
                          i_search_queries := default [] (search_queries response);
                          i_web_sources := default [] (web_sources response) |}
                     = true).
    { apply fresh_lt. simpl. unfold cutoff.
      assert (0 < inject_Z (ttl_hours self * 3600))%Q.
      { change 0%Q with (inject_Z 0). rewrite <- Zlt_Qlt. lia. }
      lra. }
    case_bool_decide as Hcap.
    + destruct (interactions self) as [ | i0 rest ] eqn:Hold.
      * unfold len in Hcap. simpl in Hcap. lia.
      * simpl. by apply List_filter_snoc.
    + by apply List_filter_snoc.
Qed.

(** X12: A record only appends and drops: what is stored afterwards is a
    sub-sequence, in the same order, of the old interactions followed by
    the new one. With room for at least one interaction and a positive
    [ttl_hours], the new interaction is the last one stored. *)
Theorem record_keeps_order (self : t) (datetime_now : Q) (question : str)
    (response : response) :
  let new :=
    {| timestamp := datetime_now; question := question;
       i_search_queries := default [] (search_queries response);
       i_web_sources := default [] (web_sources response) |} in
  let after := add_interaction self datetime_now question response in
  interactions after `sublist_of` interactions self ++ [new]
  /\ (1 <= max_memory self -> 0 < ttl_hours self ->
      last (interactions after) = Some new).
Proof. apply record_keeps_order_parts. Qed.

(** X13: Similarity of queries does not depend on their order. *)
Theorem similar_queries_symmetric (query1 query2 : str) :
  _similar_queries query1 query2 = _similar_queries query2 query1.
Proof.
  unfold _similar_queries.
  assert (Hi : word_set query1 ∩ word_set query2
               = word_set query2 ∩ word_set query1)
    by apply (comm_L (A:=gset (list N)) (∩)).
  assert (Hu : word_set query1 ∪ word_set query2
               = word_set query2 ∪ word_set query1)
    by apply (comm_L (A:=gset (list N)) (∪)).
  by rewrite Hi, Hu.
Qed.

Lemma word_set_empty (query : str) :
  word_set query = ∅ <-> split (lower query) = [].
Proof.
  unfold word_set. split.
  - intros H. destruct (split (lower query)) as [ | word rest ]; [ done | ].
    exfalso. assert (Hin : word ∈ (∅ : gset str)); [ | set_solver ].
    rewrite <- H. set_solver.
  - by intros ->.
Qed.

Lemma Qgt_ratio_7_10 (n m : nat) :
  m ≠ 0%nat ->
  Qgt_bool (Z.of_nat n # Pos.of_nat m) (7 # 10) = bool_decide (7 * m < 10 * n)%nat.
Proof.
  intros Hm.
  assert (Hpos : Z.pos (Pos.of_nat m) = Z.of_nat m).
  { rewrite <- (Nat2Pos.id m) at 2 by done. by rewrite positive_nat_Z. }
  case_bool_decide as Hlt.
  - apply FusionFacts.Qgt_bool_true. unfold Qlt. simpl. lia.
  - apply FusionFacts.Qgt_bool_false. unfold Qle. simpl. lia.
Qed.

Lemma similar_self (query : str) :
  _similar_queries query query = bool_decide (split (lower query) ≠ []).
Proof.
  unfold _similar_queries.
  assert (Hi : word_set query ∩ word_set query = word_set query)
    by apply (idemp_L (A:=gset (list N)) (∩)).
  assert (Hu : word_set query ∪ word_set query = word_set query)
    by apply (idemp_L (A:=gset (list N)) (∪)).
  rewrite Hi, Hu.
  assert (Hsize : word_set query ≠ ∅ -> size (word_set query) ≠ 0%nat).
  { intros Hne Hz. apply Hne. by apply size_empty_inv, leibniz_equiv in Hz. }
  case_bool_decide as Hne; case_bool_decide as Hw; try done.
  - exfalso. apply Hw. by apply word_set_empty.
  - specialize (Hsize Hne). rewrite Qgt_ratio_7_10 by done.
    apply bool_decide_eq_true. lia.
  - exfalso. apply Hne. apply word_set_empty.
    by destruct (split (lower query)).
Qed.

(** A query is similar to itself exactly when it has a word. *)
Lemma query_similar_to_itself (query : str) :
  _similar_queries query query = true <-> split (lower query) ≠ [].
Proof. rewrite similar_self. apply bool_decide_eq_true. Qed.

(** X14: A query without a word is similar to no query, and is never found to
    have been searched recently, whatever the memory holds. *)
Theorem blank_query_is_never_recent (self : t) (datetime_now : Q)
    (query : str) (hours : Z) :
  split (lower query) = [] ->
  (forall other, _similar_queries query other = false)
  /\ is_recently_searched self datetime_now query hours = false.
Proof.
  intros Hblank.
  assert (Hsim : forall other, _similar_queries query other = false).
  { intros other. unfold _similar_queries.
    apply word_set_empty in Hblank. rewrite Hblank.
    assert (Hi : ∅ ∩ word_set other = ∅)
      by apply (left_absorb_L (A:=gset (list N)) ∅ (∩)).
    assert (Hu : ∅ ∪ word_set other = word_set other)
      by apply (left_id_L (A:=gset (list N)) ∅ (∪)).
    rewrite Hi, Hu.
    case_bool_decide as Hne; [ done | ].
    rewrite Qgt_ratio_7_10.
    - apply bool_decide_eq_false. rewrite size_empty. lia.
    - intros Hz. apply Hne. by apply size_empty_inv, leibniz_equiv in Hz. }
  split; [ done | ].
  unfold is_recently_searched.
  apply not_true_is_false. intros Hex.
  apply existsb_exists in Hex as (i & _ & Hi).
  apply andb_true_iff in Hi as [_ Hi].
  apply existsb_exists in Hi as (other & _ & Hother).
  by rewrite Hsim in Hother.
Qed.

Lemma similar_self_true (query : str) :
  split (lower query) ≠ [] -> _similar_queries query query = true.
Proof. intros H. rewrite similar_self. by apply bool_decide_eq_true. Qed.

Lemma recorded_query_recent_again (self : t) (datetime_now later : Q)
    (question query searched : str) (response : response) (hours : Z) :
  1 <= max_memory self ->
  0 < ttl_hours self ->
  searched ∈ default [] (search_queries response) ->
  _similar_queries query searched = true ->
  (cutoff later hours < datetime_now)%Q ->
  is_recently_searched
    (add_interaction self datetime_now question response) later query hours
  = true.
Proof.
  intros Hmax Httl Hin Hsim Hwindow.
  destruct (record_keeps_order_parts self datetime_now question response)
    as [_ Hlast].
  specialize (Hlast Hmax Httl).
  unfold is_recently_searched. apply existsb_exists.
  eexists. split.
  - apply list_elem_of_In. apply last_Some_elem_of. exact Hlast.
  - apply andb_true_iff. split.
    + by apply fresh_lt.
    + simpl. apply existsb_exists. exists searched.
      split; [ by apply list_elem_of_In | done ].
Qed.

(** X15: A question recorded with one of its search queries is found to have
    been searched recently: by a similar query, at any time at which the
    record is younger than the window (the memory has room for one
    interaction at least and a positive [ttl_hours]). *)
Theorem recorded_query_is_recent (self : t) (datetime_now later : Q)
    (question query searched : str) (response : response) (hours : Z) :
  1 <= max_memory self ->
  0 < ttl_hours self ->
  searched ∈ default [] (search_queries response) ->
  _similar_queries query searched = true ->
  (cutoff later hours < datetime_now)%Q ->
  is_recently_searched
    (add_interaction self datetime_now question response) later query hours
  = true.
Proof.
  by apply recorded_query_recent_again.
Qed.

Lemma recorded_query_is_recent_witness :
  is_recently_searched
    (add_interaction (__init__ 10 24) 1000 Inputs.bitcoin_fr
       Inputs.searched_response)
    2000 (py "quel est le PRIX du bitcoin aujourd'hui?") 1
  = true.
Proof.
  apply (recorded_query_is_recent (__init__ 10 24) 1000 2000 Inputs.bitcoin_fr
           (py "quel est le PRIX du bitcoin aujourd'hui?") Inputs.bitcoin_fr
           Inputs.searched_response 1).
  - simpl. lia.
  - simpl. lia.
  - simpl. apply list_elem_of_here.
  - vm_compute. reflexivity.
  - reflexivity.
Defined.

Lemma blank_query_is_never_recent_witness :
  is_recently_searched
    (add_interaction (__init__ 10 24) 1000 (py "  ") Inputs.blank_response)
    1000 (py "  ") 1
  = false.
Proof.
  apply (blank_query_is_never_recent
           (add_interaction (__init__ 10 24) 1000 (py "  ")
              Inputs.blank_response)
           1000 (py "  ") 1).
  reflexivity.
Defined.

End ConversationMemoryMore.

(** ** Further properties of ExtendedRAGPipeline *)

Module PipelineMore.

Import ExtendedRAGPipeline.

Local Abbreviation has_text := (fun c : chunk => is_Some (text c)).
Local Abbreviation source_of :=
  (fun c : chunk => default (py "unknown") (source c)).

(** X16: [_build_context_text] returns exactly when every chunk has a text; it
    raises [KeyError] otherwise. *)
Theorem context_text_needs_every_text (context : list chunk) :
  ((exists context_text, _build_context_text context = Returned context_text)
   <-> Forall has_text context)
  /\ (forall e, _build_context_text context = Raised e -> exn_cls e = KeyError).
Proof.
  unfold _build_context_text.
  match goal with
  | |- context [match ?parts context with _ => _ end] =>
    assert (Hparts :
      ((exists ps, parts context = Returned ps) <-> Forall has_text context)
      /\ (forall e, parts context = Raised e -> exn_cls e = KeyError));
    [ | destruct (parts context) as [ps | e0] ]
  end.
  { induction context as [ | c rest [IH1 IH2] ].
    - split; [ | done ]. split; [ constructor | by eexists ].
    - cbn -[py nl]. destruct (text c) as [t | ] eqn:Ht.
      + match goal with
        | |- context [match ?x with Returned _ => _ | Raised _ => _ end] =>
          destruct x as [ps | e0]
        end.
        * split; [ | done ]. split; [ | by eexists ].
          intros _. constructor; [ by rewrite Ht | ]. apply IH1. by eexists.
        * split; [ | intros e [= <-]; by apply IH2 ].
          split; [ by intros [? ?] | ].
          intros [_ Hrest]%Forall_cons. by apply IH1 in Hrest as [? ?].
      + split; [ | by intros e [= <-] ].
        split; [ by intros [? ?] | ].
        intros [Hc _]%Forall_cons. rewrite Ht in Hc. by destruct Hc. }
  - destruct Hparts as [H1 _]. split; [ | done ].
    split; [ intros _; apply H1; by eexists | by eexists ].
  - destruct Hparts as [H1 H2]. split; [ | intros e [= <-]; by apply H2 ].
    split; [ by intros [? ?] | ].
    intros Hall. by apply H1 in Hall as [? ?].
Qed.

Lemma extract_loop_length (context : list chunk) : forall (seen : gset str),
  length (extract_loop seen context)
  = size ((list_to_set (map source_of context) : gset str) ∖ seen).
Proof.
  induction context as [ | c rest IH ]; intros seen.
  - simpl. replace ((∅ : gset str) ∖ seen) with (∅ : gset str) by set_solver.
    by rewrite size_empty.
  - cbn [extract_loop map list_to_set]. case_bool_decide as Hseen.
    + simpl. rewrite IH.
      set (k := default (py "unknown") (source c)) in *.
      set (others := list_to_set (map source_of rest) : gset str).
      assert (Heq : ({[k]} ∪ others) ∖ seen
                    = {[k]} ∪ others ∖ ({[k]} ∪ seen)).
      { apply set_eq. intros x. destruct (decide (x = k)); set_solver. }
      rewrite Heq. clearbody k others. unfold str, char in *.
      rewrite (size_union (C:=gset (list N)) {[k]} (others ∖ ({[k]} ∪ seen)))
        by set_solver.
      by rewrite size_singleton.
    + rewrite IH. f_equal. set_solver.
Qed.

Lemma extract_loop_urls (context : list chunk) : forall (seen : gset str),
  Forall (fun entry =>
            src_url entry = []
            \/ (src_type entry = py "web"
                /\ exists c, c ∈ context /\ src_url entry = source_of c))
         (extract_loop seen context).
Proof.
  induction context as [ | c rest IH ]; intros seen; [ constructor | ].
  cbn [extract_loop]. case_bool_decide.
  - constructor.
    + simpl. case_bool_decide; [ | by left ].
      right. split; [ done | ]. exists c. split; [ apply list_elem_of_here | done ].
    + eapply Forall_impl; [ apply IH | ].
      intros entry [ | (Ht & c' & Hc' & Hu)]; [ by left | right ].
      split; [ done | ]. exists c'. split; [ by apply list_elem_of_further | done ].
  - eapply Forall_impl; [ apply IH | ].
    intros entry [ | (Ht & c' & Hc' & Hu)]; [ by left | right ].
    split; [ done | ]. exists c'. split; [ by apply list_elem_of_further | done ].
Qed.

(** X17: [_extract_sources] lists each distinct source of the context once
    (chunks without a source count as the source "unknown"); an entry has a
    URL, the source itself, only when its chunk is of the type "web". *)
Theorem extract_sources_once_per_source (context : list chunk) :
  length (_extract_sources context)
  = size (list_to_set (map source_of context) : gset str)
  /\ Forall (fun entry =>
               src_url entry = []
               \/ (src_type entry = py "web"
                   /\ exists c, c ∈ context /\ src_url entry = source_of c))
            (_extract_sources context).
Proof.
  unfold _extract_sources. split; [ | apply extract_loop_urls ].
  rewrite extract_loop_length. f_equal. set_solver.
Qed.

Section Collaborators.

Variable provider : nat -> str -> Z -> Z -> result (list WebSearchEngine.ddgs_result).
Variable local_rag : str -> result (option str).
Variable process_search_result : WebSearchEngine.search_result -> result (list chunk).
Variable lm_studio : str -> list chunk -> option str.

Local Abbreviation ask :=
  (ask_question provider local_rag process_search_result lm_studio).

(** X18: The local search never fails: it yields no chunk when the local
    components are not available, when the local pipeline raises or when
    its answer has no context; every chunk it yields is of the type
    "local", with the score 0.8 and a text that is not empty and has no
    whitespace at its ends. *)
Theorem search_local_chunks (self : t) (question : str) :
  (local_available self = false -> _search_local local_rag self question = [])
  /\ (forall e, local_rag question = Raised e ->
                _search_local local_rag self question = [])
  /\ (local_rag question = Returned None ->
      _search_local local_rag self question = [])
  /\ Forall (fun c =>
               source_type c = Some (py "local")
               /\ source c = Some (py "local_documents")
               /\ relevance_score c = Some (8 # 10)%Q
               /\ exists t, text c = Some t /\ t ≠ [] /\ no_space_at_ends t)
            (_search_local local_rag self question).
Proof.
  unfold _search_local. split_and!.
  - by intros ->.
  - intros e ->. by destruct (local_available self).
  - intros ->. by destruct (local_available self).
  - destruct (local_available self); simpl; [ | constructor ].
    destruct (local_rag question) as [[context | ] | e]; try constructor.
    apply Forall_forall. intros c Hc.
    apply list_elem_of_omap in Hc as ([i part] & _ & Hc).
    case_bool_decide; [ | done ]. injection Hc as <-. simpl.
    split_and!; try done. eexists. split_and!; [ done | done | ].
    apply StripFacts.strip_no_space_at_ends.
Qed.

Lemma search_web_step_spec (question : str) (use_web : bool)
    (max_web_results : Z) (self : t) (w : world) :
  let recent :=
    ConversationMemory.is_recently_searched (memory self) (now w) question 1 in
  let searching := use_web && negb recent in
  exists web_results self' w',
    search_web_step provider process_search_result question use_web
      max_web_results (self, w)
    = (Returned (web_results, if searching then [question] else []),
       (self', w'))
    /\ memory self' = memory self
    /\ local_available self' = local_available self
    /\ total_queries (pstats self') = total_queries (pstats self)
    /\ local_searches (pstats self') = local_searches (pstats self)
    /\ web_searches (pstats self')
       = web_searches (pstats self) + (if searching then 1 else 0)
    /\ cache_hits (pstats self')
       = cache_hits (pstats self) + (if use_web && recent then 1 else 0)
    /\ (searching = false ->
        w' = w /\ web_search self' = web_search self /\ web_results = []).
Proof.
  cbv zeta. unfold search_web_step.
  destruct use_web; cbn [andb negb].
  - destruct (ConversationMemory.is_recently_searched _ _ _ _); cbn [andb negb].
    + eexists [], _, _. split_and!; try done; simpl; lia.
    + destruct (PipelineFacts.search_web_enhanced_returns provider
                  process_search_result question max_web_results self w)
        as (web_chunks & engine & w' & -> & _).
      eexists web_chunks, _, _. split_and!; try done; simpl; lia.
  - eexists [], _, _. split_and!; try done; simpl; lia.
Qed.

Lemma ask_question_spec (question : str) (use_web : bool)
    (max_web_results : Z) (self : t) (w : world) :
  let recent :=
    ConversationMemory.is_recently_searched (memory self) (now w) question 1 in
  let out := ask question use_web max_web_results (self, w) in
  let st := pstats self in
  let st' := pstats out.2.1 in
  exists r,
    out.1 = Returned r
    /\ total_queries st' = total_queries st + 1
    /\ local_searches st' = local_searches st + 1
    /\ web_searches st'
       = web_searches st + (if use_web && negb recent then 1 else 0)
    /\ cache_hits st' = cache_hits st + (if use_web && recent then 1 else 0)
    /\ match error r with
       | None =>
         ConversationMemory.adds (memory out.2.1)
         = S (ConversationMemory.adds (memory self))
         /\ search_queries r
            = Some (if use_web && negb recent then [question] else [])
         /\ memory out.2.1
            = ConversationMemory.add_interaction (memory self) (now out.2.2)
                question r
       | Some _ => memory out.2.1 = memory self /\ sources r = Some []
       end.
Proof.
  cbv zeta. unfold ask_question, try_except, ask_body.
  set (self1 := set_stats self (incr_total_queries (pstats self))).
  set (self2 := set_stats self1 (incr_local_searches (pstats self1))).
  set (local_results := _search_local local_rag self1 question).
  destruct (search_web_step_spec question use_web max_web_results self2 w)
    as (web_results & self3 & w3 & Hstep & Hmem & _ & Htq & Hls & Hws & Hch & _).
  cbv zeta in Hstep. change (memory self2) with (memory self) in *.
  rewrite Hstep.
  simpl in Htq, Hls, Hws, Hch.
  destruct (_generate_response lm_studio question _) as [g | e].
  - eexists. split; [ reflexivity | ].
    repeat (split; [ simpl; lia | ]).
    simpl. rewrite Hmem. done.
  - eexists. split; [ reflexivity | ].
    repeat (split; [ simpl; lia | ]).
    simpl. done.
Qed.

(** X19: What one [ask_question] does, whatever its collaborators do: it returns
    a response; it counts one query and one local search; when the web is
    asked for it counts either one web search or, if a similar query was
    searched within the last hour, one cache hit; and it records one
    interaction, for its question, unless the response is the error
    response, whose sources are empty. *)
Theorem ask_question_accounts (question : str) (use_web : bool)
    (max_web_results : Z) (self : t) (w : world) :
  let recent :=
    ConversationMemory.is_recently_searched (memory self) (now w) question 1 in
  let out := ask question use_web max_web_results (self, w) in
  let st := pstats self in
  let st' := pstats out.2.1 in
  exists r,
    out.1 = Returned r
    /\ total_queries st' = total_queries st + 1
    /\ local_searches st' = local_searches st + 1
    /\ web_searches st'
       = web_searches st + (if use_web && negb recent then 1 else 0)
    /\ cache_hits st' = cache_hits st + (if use_web && recent then 1 else 0)
    /\ match error r with
       | None =>
         ConversationMemory.adds (memory out.2.1)
         = S (ConversationMemory.adds (memory self))
         /\ search_queries r
            = Some (if use_web && negb recent then [question] else [])
         /\ memory out.2.1
            = ConversationMemory.add_interaction (memory self) (now out.2.2)
                question r
       | Some _ => memory out.2.1 = memory self /\ sources r = Some []
       end.
Proof. exact (ask_question_spec question use_web max_web_results self w). Qed.

Lemma ask_question_off_the_web (question : str) (use_web : bool)
    (max_web_results : Z) (self : t) (w : world) :
  use_web = false
  \/ ConversationMemory.is_recently_searched (memory self) (now w) question 1
     = true ->
  let out := ask question use_web max_web_results (self, w) in
  out.2.2 = w /\ web_search out.2.1 = web_search self.
Proof.
  intros Hneed. cbv zeta. unfold ask_question, try_except, ask_body.
  set (self1 := set_stats self (incr_total_queries (pstats self))).
  set (self2 := set_stats self1 (incr_local_searches (pstats self1))).
  destruct (search_web_step_spec question use_web max_web_results self2 w)
    as (web_results & self3 & w3 & Hstep & _ & _ & _ & _ & _ & _ & Hoff).
  cbv zeta in Hstep, Hoff. change (memory self2) with (memory self) in *.
  rewrite Hstep.
  destruct Hoff as (-> & Heng & _).
  { destruct Hneed as [-> | ->]; [ done | by destruct use_web ]. }
  destruct (_generate_response lm_studio question _) as [g | e]; simpl;
    by rewrite ?Heng.
Qed.

(** X20: [ask_question] stays off the web when it is not asked for it and when a
    similar query was searched within the last hour: the provider is not
    called, nothing is paused, and the search engine with its breaker is
    left as it was. *)
Theorem no_web_search_without_need (question : str) (use_web : bool)
    (max_web_results : Z) (self : t) (w : world) :
  use_web = false
  \/ ConversationMemory.is_recently_searched (memory self) (now w) question 1
     = true ->
  let out := ask question use_web max_web_results (self, w) in
  out.2.2 = w /\ web_search out.2.1 = web_search self.
Proof. exact (ask_question_off_the_web question use_web max_web_results self w). Qed.

(** X21: Asking the same question again within the hour does not search the web
    again: when the first call searched and recorded its interaction, a
    second call made less than an hour later calls the provider not once
    and counts a cache hit. (The memory has room for one interaction at
    least and a positive [ttl_hours]; the question has a word.) *)
Theorem repeated_question_is_not_searched_again (question : str)
    (max_web_results : Z) (self : t) (w later : world) :
  1 <= ConversationMemory.max_memory (memory self) ->
  0 < ConversationMemory.ttl_hours (memory self) ->
  split (lower question) ≠ [] ->
  ConversationMemory.is_recently_searched (memory self) (now w) question 1
    = false ->
  let first := ask question true max_web_results (self, w) in
  (forall r, first.1 = Returned r -> error r = None) ->
  (ConversationMemory.cutoff (now later) 1 < now first.2.2)%Q ->
  let second := ask question true max_web_results (first.2.1, later) in
  second.2.2 = later
  /\ cache_hits (pstats second.2.1) = cache_hits (pstats first.2.1) + 1
  /\ web_searches (pstats second.2.1) = web_searches (pstats first.2.1).
Proof.
  intros Hmax Httl Hword Hnot. cbv zeta.
  pose proof (ask_question_spec question true max_web_results self w)
    as Hfirst.
  cbv zeta in Hfirst. rewrite Hnot in Hfirst. cbn [andb negb] in Hfirst.
  remember (ask question true max_web_results (self, w)) as first eqn:Heq.
  clear Heq. intros Hok Hsoon.
  destruct Hfirst as (r & Hr & _ & _ & _ & _ & Hrec).
  rewrite (Hok r Hr) in Hrec. destruct Hrec as (_ & Hq & Hmem).
  assert (Hrecent :
    ConversationMemory.is_recently_searched (memory first.2.1)
      (now later) question 1 = true).
  { rewrite Hmem.
    apply (ConversationMemoryMore.recorded_query_recent_again
             (memory self) _ (now later) question question question r 1);
      try done.
    - rewrite Hq. simpl. apply list_elem_of_here.
    - by apply ConversationMemoryMore.similar_self_true. }
  destruct (ask_question_off_the_web question true max_web_results
              first.2.1 later) as [Hw _]; [ by right | ].
  destruct (ask_question_spec question true max_web_results
              first.2.1 later) as (r2 & _ & _ & _ & Hws & Hch & _).
  rewrite Hrecent in Hws, Hch. cbn [andb negb] in Hws, Hch.
  split_and!; [ done | lia | lia ].
Qed.

End Collaborators.

Import Inputs.

Lemma no_web_search_without_need_witness :
  let out :=
    ask_question provider_up local_none no_chunks lm_offline bitcoin_fr false
      5 (pipeline0, w0) in
  out.2.2 = w0 /\ web_search out.2.1 = web_search pipeline0.
Proof.
  apply (no_web_search_without_need provider_up local_none no_chunks
           lm_offline bitcoin_fr false 5 pipeline0 w0).
  left. reflexivity.
Defined.

Lemma repeated_question_is_not_searched_again_witness :
  let first :=
    ask_question provider_up local_none no_chunks lm_offline bitcoin_fr true
      5 (pipeline0, w0) in
  let second :=
    ask_question provider_up local_none no_chunks lm_offline bitcoin_fr true
      5 (first.2.1, at_time 2000) in
  second.2.2 = at_time 2000
  /\ cache_hits (pstats second.2.1) = cache_hits (pstats first.2.1) + 1
  /\ web_searches (pstats second.2.1) = web_searches (pstats first.2.1).
Proof.
  apply (repeated_question_is_not_searched_again provider_up local_none
           no_chunks lm_offline bitcoin_fr 5 pipeline0 w0 (at_time 2000)).
  - vm_compute. discriminate.
  - vm_compute. reflexivity.
  - vm_compute. discriminate.
  - vm_compute. reflexivity.
  - intros r Hr. vm_compute in Hr. injection Hr as <-. reflexivity.
  - vm_compute. reflexivity.
Defined.

End PipelineMore.

(** ** The chunks of a text *)

Module TextChunkerMore.

Import TextChunker.

Local Abbreviation too_small self words :=
  (fun i : Z =>
     len (py_slice words i (i + chunk_size self)) < min_chunk_size self / 2).

Lemma len_py_slice {A} (l : list A) (a b : Z) :
  0 <= a -> 0 <= b ->
  len (py_slice l a b) = Z.max 0 (Z.min b (len l) - Z.min a (len l)).
Proof.
  intros Ha Hb. unfold py_slice, slice_index, len.
  rewrite !bool_decide_false by lia.
  rewrite length_drop, length_take. lia.
Qed.

Lemma len_py_slice_le {A} (l : list A) (a b : Z) :
  len (py_slice l a b) <= len l.
Proof.
  unfold py_slice, len. rewrite length_drop, length_take. lia.
Qed.

Lemma py_slice_min {A} (l : list A) (a b : Z) :
  py_slice l a (Z.min b (len l)) = py_slice l a b.
Proof.
  destruct (decide (b < 0)) as [Hb | Hb].
  - rewrite Z.min_l; [ done | unfold len; lia ].
  - unfold py_slice, slice_index, len.
    rewrite (bool_decide_false (b < 0)) by done.
    rewrite (bool_decide_false (_ `min` _ < 0)) by lia.
    do 2 f_equal. lia.
Qed.

Lemma range_step_elem (n step i : Z) :
  i ∈ range_step n step <-> 0 < step /\ 0 <= i < n /\ (step | i).
Proof.
  unfold range_step. case_bool_decide as Hneg.
  - split; [ by intros ?%elem_of_nil | lia ].
  - rewrite list_elem_of_fmap. split.
    + intros (k & -> & Hk%elem_of_seq).
      destruct (decide (step = 0)) as [-> | Hstep].
      { rewrite Z.div_0_r in Hk. simpl in Hk. lia. }
      assert (Hpos : 0 < step) by lia.
      split; [ done | ]. split; [ | by apply Z.divide_factor_r ].
      split; [ lia | ].
      assert (Hlt : Z.of_nat k < (n + step - 1) / step).
      { destruct (decide (0 <= (n + step - 1) / step)); lia. }
      apply Z.lt_le_pred in Hlt.
      assert (Hmul : Z.of_nat k * step <= Z.pred ((n + step - 1) / step) * step)
        by nia.
      pose proof (Z.mul_div_le (n + step - 1) step Hpos). nia.
    + intros (Hpos & Hi & [q ->]). exists (Z.to_nat q).
      assert (0 <= q) by nia.
      split; [ lia | ]. apply elem_of_seq. split; [ lia | ]. simpl.
      assert (q + 1 <= (n + step - 1) / step); [ | lia ].
      apply Z.div_le_lower_bound; nia.
Qed.

(** The start words of the chunks: the start positions whose slice is not
    too small, in their order. *)
Lemma chunk_loop_starts (self : t) (md : option metadata) (words : list str)
    (starts : list Z) : forall acc,
  map cd_start_word (chunk_loop self md words starts acc)
  = map cd_start_word acc
    ++ filter (fun i => ¬ too_small self words i) starts.
Proof.
  induction starts as [ | i rest IH ]; intros acc.
  - simpl. by rewrite app_nil_r.
  - cbn [chunk_loop]. cbv zeta. rewrite filter_cons. case_bool_decide as Hi.
    + rewrite decide_False by tauto. apply IH.
    + rewrite decide_True by done. rewrite IH, map_app. simpl.
      by rewrite <- app_assoc.
Qed.

Lemma chunk_loop_ids (self : t) (md : option metadata) (words : list str)
    (starts : list Z) : forall acc,
  (forall k c, acc !! k = Some c -> cd_chunk_id c = Z.of_nat k) ->
  forall k c, chunk_loop self md words starts acc !! k = Some c ->
              cd_chunk_id c = Z.of_nat k.
Proof.
  induction starts as [ | i rest IH ]; intros acc Hacc; [ done | ].
  cbn [chunk_loop]. cbv zeta. case_bool_decide as Hi; [ by apply IH | ].
  apply IH. intros k c [Hk | [Hk Hc]]%lookup_app_Some; [ by apply Hacc | ].
  apply list_lookup_singleton_Some in Hc as [Hk0 <-]. simpl.
  unfold len. lia.
Qed.

(** What [chunk_text] writes into a chunk *)
Local Abbreviation well_made self md words :=
  (fun c : chunk_data =>
     let i := cd_start_word c in
     cd_end_word c = Z.min (i + chunk_size self) (len words)
     /\ cd_word_count c = len (py_slice words i (i + chunk_size self))
     /\ min_chunk_size self / 2 <= cd_word_count c
     /\ cd_text c = join (py " ") (py_slice words i (i + chunk_size self))
     /\ cd_source c = match md with
                      | Some m => m_source m
                      | None => py "web_parsed"
                      end
     /\ cd_metadata c = md).

Lemma chunk_loop_chunks (self : t) (md : option metadata) (words : list str)
    (starts : list Z) : forall acc,
  Forall (well_made self md words) acc ->
  Forall (well_made self md words) (chunk_loop self md words starts acc).
Proof.
  induction starts as [ | i rest IH ]; intros acc Hacc; [ done | ].
  cbn [chunk_loop]. cbv zeta. case_bool_decide as Hi; [ by apply IH | ].
  apply IH. apply Forall_app. split; [ done | ].
  constructor; [ | constructor ]. simpl. split_and!; try done. lia.
Qed.

Lemma filter_none {A} (P : A -> Prop) `{!forall x, Decision (P x)}
    (l : list A) :
  Forall (fun x => ¬ P x) l -> filter P l = [].
Proof.
  induction 1 as [ | a l Ha _ IH ]; [ done | ].
  rewrite filter_cons. by rewrite decide_False.
Qed.

(** A filter whose predicate, once false, stays false keeps a prefix. *)
Lemma filter_prefix {A} (P : A -> Prop) `{!forall x, Decision (P x)}
    (l : list A) :
  (forall i j x y, l !! i = Some x -> l !! j = Some y -> (i <= j)%nat ->
                   P y -> P x) ->
  exists m, filter P l = take m l.
Proof.
  induction l as [ | a l IH ]; intros Hanti; [ by exists 0%nat | ].
  rewrite filter_cons. destruct (decide (P a)) as [Ha | Ha].
  - destruct IH as [m Hm].
    { intros i j x y Hi Hj Hij. apply (Hanti (S i) (S j)); [ done | done | lia ]. }
    exists (S m). simpl. by rewrite Hm.
  - exists 0%nat. simpl. apply filter_none. apply Forall_forall.
    intros y [j Hj]%list_elem_of_lookup Hy. apply Ha.
    apply (Hanti 0%nat (S j) a y); [ done | done | lia | done ].
Qed.

Lemma range_step_lookup (n step : Z) (k : nat) (i : Z) :
  range_step n step !! k = Some i -> i = Z.of_nat k * step.
Proof.
  unfold range_step. case_bool_decide; [ done | ].
  rewrite list_lookup_fmap. intros Hk.
  apply fmap_Some in Hk as (k' & Hk' & ->).
  apply lookup_seq in Hk' as [-> _]. done.
Qed.

Lemma chunk_text_spec (self : t) (text : str) (md : option metadata) :
  let words := split text in
  let long_enough := text ≠ [] /\ min_chunk_size self <= len (strip text) in
  match chunk_text self text md with
  | ValueError _ => chunk_size self = overlap self /\ long_enough
  | Done chunks =>
    (long_enough -> chunk_size self ≠ overlap self)
    /\ (¬ long_enough \/ chunk_size self < overlap self -> chunks = [])
    /\ forall k c, chunks !! k = Some c ->
         cd_chunk_id c = Z.of_nat k
         /\ 0 <= cd_start_word c < len words
         /\ cd_text c
            = join (py " ") (py_slice words (cd_start_word c) (cd_end_word c))
         /\ cd_word_count c
            = len (py_slice words (cd_start_word c) (cd_end_word c))
         /\ min_chunk_size self / 2 <= cd_word_count c <= len words
         /\ well_made self md words c
  end.
Proof.
  cbv zeta. unfold chunk_text.
  destruct (bool_decide (text = []) || _) eqn:Hshort.
  { apply orb_true_iff in Hshort.
    split_and!; [ | done | done ].
    intros [Hne Hlen]. destruct Hshort as [?%bool_decide_eq_true | ?%bool_decide_eq_true];
      [ done | lia ]. }
  apply orb_false_iff in Hshort as [Hne%bool_decide_eq_false Hlen%bool_decide_eq_false].
  case_bool_decide as Hstep; [ split; [ lia | split; [ done | lia ] ] | ].
  set (words := split text).
  set (starts := range_step (len words) (chunk_size self - overlap self)).
  split_and!; [ intros _; lia | | ].
  - intros [Hno | Hneg]; [ destruct Hno; split; [ done | lia ] | ].
    unfold starts, range_step. by rewrite bool_decide_true by lia.
  - intros k c Hk.
    pose proof (chunk_loop_ids self md words starts [] ltac:(done) k c Hk) as Hid.
    pose proof (chunk_loop_chunks self md words starts [] ltac:(constructor))
      as Hall.
    pose proof (chunk_loop_starts self md words starts []) as Hstarts.
    eapply Forall_lookup_1 in Hall; [ | exact Hk ]. cbv zeta in Hall.
    destruct Hall as (Hend & Hcount & Hmin & Htext & Hsource & Hmd).
    assert (Hin : cd_start_word c ∈ starts).
    { assert (Hc : cd_start_word c
                   ∈ map cd_start_word (chunk_loop self md words starts [])).
      { apply list_elem_of_fmap. exists c. split; [ done | ].
        by eapply list_elem_of_lookup_2. }
      rewrite Hstarts in Hc. simpl in Hc.
      by apply list_elem_of_filter in Hc as [_ Hc]. }
    apply range_step_elem in Hin as (_ & Hrange & _).
    rewrite Hend, py_slice_min.
    split_and!; try done; try lia.
    rewrite Hcount. apply len_py_slice_le.
Qed.

(** X22: [chunk_text] raises [ValueError] exactly when the step of its loop is
    zero, that is when [chunk_size = overlap], on a text long enough to be
    chunked. Otherwise it returns chunks numbered from 0 in their order;
    each one holds the words from its start word to its end word, joined by
    one space, and at least [min_chunk_size // 2] of them. There is no chunk
    for a text that is empty or shorter than [min_chunk_size] characters,
    nor when [overlap] exceeds [chunk_size]. *)
Theorem chunk_text_chunks (self : t) (text : str) (md : option metadata) :
  let words := split text in
  let long_enough := text ≠ [] /\ min_chunk_size self <= len (strip text) in
  match chunk_text self text md with
  | ValueError _ => chunk_size self = overlap self /\ long_enough
  | Done chunks =>
    (long_enough -> chunk_size self ≠ overlap self)
    /\ (¬ long_enough \/ chunk_size self < overlap self -> chunks = [])
    /\ forall k c, chunks !! k = Some c ->
         cd_chunk_id c = Z.of_nat k
         /\ 0 <= cd_start_word c < len words
         /\ cd_text c
            = join (py " ") (py_slice words (cd_start_word c) (cd_end_word c))
         /\ cd_word_count c
            = len (py_slice words (cd_start_word c) (cd_end_word c))
         /\ min_chunk_size self / 2 <= cd_word_count c <= len words
  end.
Proof.
  cbv zeta. pose proof (chunk_text_spec self text md) as H. cbv zeta in H.
  destruct (chunk_text self text md) as [chunks | msg]; [ | done ].
  destruct H as (H1 & H2 & H3). split_and!; [ done | done | ].
  intros k c Hk. destruct (H3 k c Hk) as (? & ? & ? & ? & ? & _). done.
Qed.

Lemma chunk_text_steps (self : t) (text : str) (md : option metadata) :
  0 <= chunk_size self -> overlap self < chunk_size self ->
  let words := split text in
  exists chunks,
    chunk_text self text md = Done chunks
    /\ Forall (well_made self md words) chunks
    /\ (text ≠ [] -> min_chunk_size self <= len (strip text) ->
        map cd_start_word chunks
        = filter (fun i => ¬ too_small self words i)
            (range_step (len words) (chunk_size self - overlap self)))
    /\ exists m,
         map cd_start_word chunks
         = take m (range_step (len words) (chunk_size self - overlap self)).
Proof.
  intros Hsize Hstep. cbv zeta. unfold chunk_text.
  destruct (bool_decide (text = []) || _) eqn:Hshort.
  { exists []. split_and!; [ done | constructor | | by exists 0%nat ].
    intros Hne Hlen.
    apply orb_true_iff in Hshort
      as [?%bool_decide_eq_true | ?%bool_decide_eq_true]; [ done | lia ]. }
  rewrite bool_decide_false by lia.
  set (words := split text).
  set (starts := range_step (len words) (chunk_size self - overlap self)).
  eexists. split; [ reflexivity | ].
  pose proof (chunk_loop_starts self md words starts []) as Hstarts.
  simpl in Hstarts.
  split_and!; [ apply chunk_loop_chunks; constructor | done | ].
  rewrite Hstarts. apply filter_prefix.
  intros i j x y Hx Hy Hij Hkeep.
  pose proof (range_step_lookup _ _ _ _ Hx) as Hxi.
  pose proof (range_step_lookup _ _ _ _ Hy) as Hyj.
  apply list_elem_of_lookup_2, range_step_elem in Hx as (_ & Hxr & _).
  apply list_elem_of_lookup_2, range_step_elem in Hy as (_ & Hyr & _).
  assert (x <= y) by nia.
  rewrite len_py_slice in Hkeep |- * by lia. lia.
Qed.

(** X23: With [0 <= chunk_size] and [overlap < chunk_size], [chunk_text]
    returns, and its chunk number [k] starts at the word
    [k * (chunk_size - overlap)] and runs for [chunk_size] words or to the
    last word. *)
Theorem chunks_start_every_step (self : t) (text : str)
    (md : option metadata) :
  0 <= chunk_size self -> overlap self < chunk_size self ->
  exists chunks,
    chunk_text self text md = Done chunks
    /\ forall k c, chunks !! k = Some c ->
         cd_start_word c = Z.of_nat k * (chunk_size self - overlap self)
         /\ cd_end_word c
            = Z.min (cd_start_word c + chunk_size self) (len (split text))
         /\ cd_word_count c = cd_end_word c - cd_start_word c
         /\ cd_word_count c <= chunk_size self.
Proof.
  intros Hsize Hstep.
  destruct (chunk_text_steps self text md Hsize Hstep)
    as (chunks & Hchunks & Hall & _ & m & Hm).
  exists chunks. split; [ done | ]. intros k c Hk.
  eapply Forall_lookup_1 in Hall; [ | exact Hk ]. cbv zeta in Hall.
  destruct Hall as (Hend & Hcount & _).
  assert (Hs : range_step (len (split text)) (chunk_size self - overlap self)
               !! k = Some (cd_start_word c)).
  { assert (Hc : map cd_start_word chunks !! k = Some (cd_start_word c))
      by (by rewrite list_lookup_fmap, Hk).
    rewrite Hm in Hc. by apply lookup_take_Some in Hc as [Hc _]. }
  pose proof (range_step_lookup _ _ _ _ Hs) as Hstart.
  apply list_elem_of_lookup_2, range_step_elem in Hs as (_ & Hrange & _).
  rewrite len_py_slice in Hcount by lia. lia.
Qed.

(** X24: With [0 <= overlap < chunk_size] and
    [min_chunk_size // 2 <= overlap], no word is lost: every word of a text that is long enough to be chunked
    and has [min_chunk_size // 2] words at least lies in a chunk. *)
Theorem chunks_cover_every_word (self : t) (text : str)
    (md : option metadata) :
  0 <= overlap self < chunk_size self ->
  min_chunk_size self / 2 <= overlap self ->
  text ≠ [] ->
  min_chunk_size self <= len (strip text) ->
  min_chunk_size self / 2 <= len (split text) ->
  exists chunks,
    chunk_text self text md = Done chunks
    /\ forall j, 0 <= j < len (split text) ->
         exists c, c ∈ chunks /\ cd_start_word c <= j < cd_end_word c.
Proof.
  intros Hov Hhalf Hne Hlen Hwords.
  destruct (chunk_text_steps self text md ltac:(lia) ltac:(lia))
    as (chunks & Hchunks & Hall & Hstarts & _).
  specialize (Hstarts Hne Hlen).
  exists chunks. split; [ done | ]. intros j Hj.
  set (n := len (split text)) in *.
  set (step := chunk_size self - overlap self) in *.
  set (h := Z.max 1 (min_chunk_size self / 2)).
  assert (Hpos : 0 < step) by (unfold step; lia).
  pose proof (Z.mul_div_le j step Hpos) as Hq1.
  pose proof (Z.mul_succ_div_gt j step Hpos) as Hq1'.
  pose proof (Z.mul_div_le (n - h) step Hpos) as Hq2.
  pose proof (Z.mul_succ_div_gt (n - h) step Hpos) as Hq2'.
  assert (0 <= j / step) by (apply Z.div_pos; lia).
  assert (0 <= (n - h) / step) by (apply Z.div_pos; lia).
  set (k := Z.min (j / step) ((n - h) / step)).
  assert (Hk : 0 <= k * step <= n - h /\ k * step <= j
               /\ j < k * step + chunk_size self).
  { unfold k. destruct (Z.min_spec (j / step) ((n - h) / step))
      as [[Hlt ->] | [Hle ->]]; unfold step in *; nia. }
  assert (Hin : k * step ∈ map cd_start_word chunks).
  { rewrite Hstarts. apply list_elem_of_filter. split.
    - rewrite len_py_slice by lia. lia.
    - apply range_step_elem. split_and!; try lia.
      by apply Z.divide_factor_r. }
  apply list_elem_of_fmap in Hin as (c & Hc & Hcin).
  exists c. split; [ done | ].
  eapply Forall_forall in Hall; [ | exact Hcin ]. cbv zeta in Hall.
  destruct Hall as (Hend & _). lia.
Qed.

End TextChunkerMore.

Module TextChunkerExamples.

Import TextChunker.

Lemma chunks_start_every_step_witness :
  exists chunks,
    chunk_text (__init__ 4 2 4) (py "a b c d e f g") None = Done chunks
    /\ forall k c, chunks !! k = Some c ->
         cd_start_word c = Z.of_nat k * (4 - 2)
         /\ cd_end_word c = Z.min (cd_start_word c + 4) 7
         /\ cd_word_count c = cd_end_word c - cd_start_word c
         /\ cd_word_count c <= 4.
Proof.
  apply (TextChunkerMore.chunks_start_every_step (__init__ 4 2 4)
           (py "a b c d e f g") None); simpl; lia.
Defined.

Lemma chunks_cover_every_word_witness :
  exists chunks,
    chunk_text (__init__ 4 2 4) (py "a b c d e f g") None = Done chunks
    /\ forall j, 0 <= j < 7 ->
         exists c, c ∈ chunks /\ cd_start_word c <= j < cd_end_word c.
Proof.
  apply (TextChunkerMore.chunks_cover_every_word (__init__ 4 2 4)
           (py "a b c d e f g") None).
  - simpl. lia.
  - vm_compute. discriminate.
  - discriminate.
  - vm_compute. discriminate.
  - vm_compute. discriminate.
Defined.

End TextChunkerExamples.

(** ** The chunks of a web page, and what the pipeline makes of them *)

Module WebContentProcessorMore.

Import TextChunker WebContentProcessor.

Lemma unknown_is_not_web : py "unknown" ≠ py "web".
Proof. vm_compute. discriminate. Qed.

Lemma web_page_is_not_web : py "web_page" ≠ py "web".
Proof. vm_compute. discriminate. Qed.

Lemma web_page_is_not_local : py "web_page" ≠ py "local".
Proof. vm_compute. discriminate. Qed.

Lemma type_web_page_not_web : Some (py "web_page") ≠ Some (py "web").
Proof. vm_compute. discriminate. Qed.

Lemma type_local_not_web : Some (py "local") ≠ Some (py "web").
Proof. vm_compute. discriminate. Qed.

Lemma type_web_page_not_local : Some (py "web_page") ≠ Some (py "local").
Proof. vm_compute. discriminate. Qed.

(** No chunk of the type "web" in a context: no source with a URL. *)
Lemma extract_loop_no_url (context : list ExtendedRAGPipeline.chunk) :
  Forall (fun c => ExtendedRAGPipeline.source_type c ≠ Some (py "web")) context ->
  forall seen,
    Forall (fun entry => src_url entry = [])
           (ExtendedRAGPipeline.extract_loop seen context).
Proof.
  induction 1 as [ | c rest Hc _ IH ]; intros seen; [ constructor | ].
  cbn [ExtendedRAGPipeline.extract_loop]. case_bool_decide; [ | apply IH ].
  constructor; [ | apply IH ]. simpl.
  rewrite bool_decide_false; [ done | ].
  unfold ExtendedRAGPipeline.source_type_of.
  destruct (ExtendedRAGPipeline.source_type c) as [st | ]; simpl.
  - congruence.
  - apply unknown_is_not_web.
Qed.

Section Parser.

Variable parse_url : str -> option str.

(** What the processor writes into the chunks of a search result *)
Local Abbreviation web_made search_result :=
  (fun c : chunk_data =>
     cd_source c = py "web"
     /\ exists m,
          cd_metadata c = Some m
          /\ m_source_type m = py "web_page"
          /\ WebSearchEngine.url search_result = Some (m_url m)
          /\ m_url m ≠ []
          /\ m_title m = default [] (WebSearchEngine.title search_result)
          /\ m_timestamp m = WebSearchEngine.timestamp search_result
          /\ m_search_query m = WebSearchEngine.query search_result).

Lemma process_search_result_spec (self : t)
    (search_result : WebSearchEngine.search_result) :
  match process_search_result parse_url self search_result with
  | ValueError _ => chunk_size (chunker self) = overlap (chunker self)
  | Done chunks =>
    Forall (web_made search_result) chunks
    /\ (chunks ≠ [] ->
        exists url text,
          WebSearchEngine.url search_result = Some url
          /\ parse_url url = Some text
          /\ min_chunk_size (chunker self) <= len (strip text)
          /\ min_chunk_size (chunker self) / 2 <= len (split text))
  end.
Proof.
  unfold process_search_result.
  destruct (WebSearchEngine.url search_result) as [url | ] eqn:Hurl;
    [ | by split ].
  case_bool_decide as Hnone; [ by split | ].
  destruct (parse_url url) as [text | ] eqn:Htext; [ | by split ].
  case_bool_decide as Hempty; [ by split | ].
  match goal with
  | |- context [chunk_text _ _ ?md] =>
    pose proof (TextChunkerMore.chunk_text_spec (chunker self) text md) as H;
    cbv zeta in H;
    destruct (chunk_text (chunker self) text md) as [chunks | msg]
  end; [ | by destruct H ].
  destruct H as (_ & Hnil & Hall). split.
  - apply Forall_lookup_2. intros k c Hk.
    destruct (Hall k c Hk) as (_ & _ & _ & _ & _ & Hmade).
    cbv zeta in Hmade. destruct Hmade as (_ & _ & _ & _ & Hsource & Hmd).
    split; [ done | ]. eexists. split; [ exact Hmd | ]. by split_and!.
  - intros Hsome. exists url, text. split_and!; [ done | done | | ].
    + destruct (decide (min_chunk_size (chunker self) <= len (strip text)));
        [ done | ].
      destruct Hsome. apply Hnil. left. intros [_ ?]. lia.
    + destruct chunks as [ | c chunks ]; [ done | ].
      destruct (Hall 0%nat c eq_refl) as (_ & _ & _ & _ & Hcount & _). lia.
Qed.

(** X25: [process_search_result] gives no chunk for a result without a URL and
    for a page that cannot be fetched or is too short; its chunks are
    marked with the source "web", the type "web_page", and the URL, the
    title, the time and the query of the search result. It raises (the
    [ValueError] of [chunk_text]) only when the processor was built with
    [chunk_size = overlap]: the processor of the module, built with 500 and
    50, always returns. *)
Theorem process_search_result_chunks (self : t)
    (search_result : WebSearchEngine.search_result) :
  match process_search_result parse_url self search_result with
  | ValueError _ => chunk_size (chunker self) = overlap (chunker self)
  | Done chunks =>
    Forall (web_made search_result) chunks
    /\ (chunks ≠ [] ->
        exists url text,
          WebSearchEngine.url search_result = Some url
          /\ parse_url url = Some text
          /\ min_chunk_size (chunker self) <= len (strip text)
          /\ min_chunk_size (chunker self) / 2 <= len (split text))
  end
  /\ exists chunks,
       process_search_result parse_url web_processor search_result
       = Done chunks.
Proof.
  split; [ apply process_search_result_spec | ].
  pose proof (process_search_result_spec web_processor search_result) as H.
  destruct (process_search_result parse_url web_processor search_result)
    as [chunks | msg]; [ by exists chunks | done ].
Qed.

(** The chunks as the pipeline receives them *)
Local Abbreviation web_page search_result :=
  (fun c : ExtendedRAGPipeline.chunk =>
     is_Some (ExtendedRAGPipeline.text c)
     /\ ExtendedRAGPipeline.source c = Some (py "web")
     /\ ExtendedRAGPipeline.source_type c = Some (py "web_page")
     /\ ExtendedRAGPipeline.url c = WebSearchEngine.url search_result).

Lemma for_pipeline_spec (self : t)
    (search_result : WebSearchEngine.search_result) :
  match for_pipeline parse_url self search_result with
  | Raised _ => chunk_size (chunker self) = overlap (chunker self)
  | Returned chunks => Forall (web_page search_result) chunks
  end.
Proof.
  unfold for_pipeline.
  pose proof (process_search_result_spec self search_result) as H.
  destruct (process_search_result parse_url self search_result)
    as [chunks | msg]; [ | done ].
  destruct H as [Hall _]. apply Forall_fmap.
  eapply Forall_impl; [ exact Hall | ].
  intros c (Hsrc & m & Hmd & Htype & Hurl & _). simpl.
  rewrite Hmd, Hsrc, Hurl. simpl. rewrite Htype. by split_and!.
Qed.

(** X26: The pipeline looks for the type "web", the processor writes the type
    "web_page": the chunks of a web page get no bonus for being recent
    (their score does not depend on the time and is 0.6 at most), the
    sources extracted from them carry no URL, and the fallback answer made
    from them is not one of the two that announce information from the
    web. *)
Theorem web_page_chunks_are_not_taken_for_web (self : t)
    (search_result : WebSearchEngine.search_result) :
  match for_pipeline parse_url self search_result with
  | Raised _ => chunk_size (chunker self) = overlap (chunker self)
  | Returned chunks =>
    Forall (fun c =>
              ExtendedRAGPipeline.source_type c = Some (py "web_page")
              /\ (forall t1 t2,
                    ExtendedRAGPipeline._calculate_relevance_score t1 c
                    = ExtendedRAGPipeline._calculate_relevance_score t2 c)
              /\ (forall t,
                    (ExtendedRAGPipeline._calculate_relevance_score t c
                     <= 6 # 10)%Q))
           chunks
    /\ Forall (fun entry => src_url entry = [])
              (ExtendedRAGPipeline._extract_sources chunks)
    /\ forall question,
         ExtendedRAGPipeline._fallback_generation question chunks
         = py "Je n'ai pas trouvé d'informations pertinentes dans les sources disponibles."
  end.
Proof.
  pose proof (for_pipeline_spec self search_result) as H.
  destruct (for_pipeline parse_url self search_result) as [chunks | e];
    [ | done ].
  assert (Htype : Forall (fun c => ExtendedRAGPipeline.source_type c
                                   = Some (py "web_page")) chunks).
  { eapply Forall_impl; [ exact H | ]. by intros c (_ & _ & ? & _). }
  split_and!.
  - eapply Forall_impl; [ exact Htype | ]. intros c Hc.
    unfold ExtendedRAGPipeline._calculate_relevance_score. rewrite Hc.
    rewrite (bool_decide_false _ type_web_page_not_web).
    rewrite (bool_decide_false _ type_web_page_not_local).
    split_and!; [ done | done | ].
    intros _. unfold ExtendedRAGPipeline.clamp01.
    repeat case_bool_decide; vm_compute; discriminate.
  - apply extract_loop_no_url.
    eapply Forall_impl; [ exact Htype | ]. intros c ->.
    apply type_web_page_not_web.
  - intros question. unfold ExtendedRAGPipeline._fallback_generation.
    assert (Hnone : forall st, st ≠ py "web_page" ->
              existsb (fun c => bool_decide
                         (ExtendedRAGPipeline.source_type c = Some st)) chunks
              = false).
    { intros st Hst. clear H.
      induction Htype as [ | c rest Hc _ IH ]; [ done | ].
      cbn [existsb]. rewrite Hc, IH.
      rewrite bool_decide_false; [ done | congruence ]. }
    rewrite !Hnone; [ done | | ];
      intros Heq; symmetry in Heq; revert Heq;
      first [ apply web_page_is_not_web | apply web_page_is_not_local ].
Qed.

End Parser.

End WebContentProcessorMore.

(** ** The pipeline and the agent on the processor of the repository *)

Module AssembledFacts.

Import ExtendedRAGPipeline.

Local Abbreviation no_url := (fun entry : source_entry => src_url entry = []).

Lemma count_two_source_types (a b : str) (l : list chunk) :
  a ≠ b ->
  Forall (fun c => source_type_of c = a \/ source_type_of c = b) l ->
  length l = (count_source_type a l + count_source_type b l)%nat.
Proof.
  intros Hab. unfold count_source_type.
  induction 1 as [ | c rest Hc _ IH ]; [ done | ].
  rewrite !filter_cons. simpl. destruct Hc as [Hc | Hc].
  - rewrite decide_True by done. rewrite decide_False by congruence.
    simpl. lia.
  - rewrite decide_False by congruence. rewrite decide_True by done.
    simpl. lia.
Qed.

Lemma merge_loop_no_url (all : list source_entry) :
  Forall no_url all -> forall seen, WebAwareAgent.merge_loop seen all = [].
Proof.
  induction 1 as [ | entry rest Hentry _ IH ]; intros seen; [ done | ].
  cbn [WebAwareAgent.merge_loop]. cbv zeta. rewrite Hentry.
  rewrite bool_decide_false by (by intros []). apply IH.
Qed.

Section Collaborators.

Variable provider : nat -> str -> Z -> Z -> result (list WebSearchEngine.ddgs_result).
Variable local_rag : str -> result (option str).
Variable process_search_result : WebSearchEngine.search_result -> result (list chunk).
Variable lm_studio : str -> list chunk -> option str.

(** A property of chunks that the scoring keeps and that the chunks of both
    searches have *)
Variable P : chunk -> Prop.
Hypothesis P_scored : forall c s, P c -> P (set_relevance_score c s).
Hypothesis P_local :
  forall self question, Forall P (_search_local local_rag self question).
Hypothesis P_web :
  forall r chunks, process_search_result r = Returned chunks -> Forall P chunks.

Lemma process_all_Forall (search_results : list WebSearchEngine.search_result) :
  forall web_chunks,
    process_all process_search_result search_results = Returned web_chunks ->
    Forall P web_chunks.
Proof.
  induction search_results as [ | r rest IH ]; simpl; intros web_chunks.
  - intros [= <-]. constructor.
  - destruct (process_search_result r) as [chunks | e] eqn:Hr; [ | done ].
    destruct (process_all _ rest) as [more | e]; [ | done ].
    intros [= <-]. apply Forall_app. split; [ by eapply P_web | by apply IH ].
Qed.

Lemma search_web_step_Forall (question : str) (use_web : bool)
    (max_web_results : Z) (s s' : t * world) (web_results : list chunk)
    (search_queries : list str) :
  search_web_step provider process_search_result question use_web
    max_web_results s = (Returned (web_results, search_queries), s') ->
  Forall P web_results.
Proof.
  destruct s as [self w]. unfold search_web_step.
  destruct use_web; [ | by intros [= <- _ _] ].
  destruct (negb _); [ | by intros [= <- _ _] ].
  unfold _search_web_enhanced.
  destruct (WebSearchEngine.search _ _ _ _) as [[results | e] [engine w']].
  - destruct (process_all _ results) as [web_chunks | e] eqn:Hp.
    + intros [= <- _ _]. by eapply process_all_Forall.
    + by intros [= <- _ _].
  - by intros [= <- _ _].
Qed.

Lemma fuse_results_Forall (datetime_now : Q)
    (local_results web_results : list chunk) :
  Forall P local_results -> Forall P web_results ->
  Forall P (_fuse_results datetime_now local_results web_results).
Proof.
  intros Hl Hw. apply Forall_forall. intros c Hc.
  destruct (FusionFacts.fuse_results_bounded_sorted_parts datetime_now
              local_results web_results) as [Hsub Hperm].
  eapply elem_of_sublist in Hc; [ | exact Hsub ].
  rewrite Hperm in Hc. unfold scored in Hc.
  apply list_elem_of_fmap in Hc as (c0 & -> & Hc0). apply P_scored.
  apply elem_of_app in Hc0 as [Hc0 | Hc0];
    [ eapply Forall_forall in Hl | eapply Forall_forall in Hw ]; eauto.
Qed.

(** The context from which [ask_question] makes its response *)
Lemma ask_question_context (question : str) (use_web : bool)
    (max_web_results : Z) (self : t) (w : world) :
  exists context,
    Forall P context
    /\ (forall st, (count_source_type st context <= 3)%nat)
    /\ exists r,
         (ask_question provider local_rag process_search_result lm_studio
            question use_web max_web_results (self, w)).1 = Returned r
         /\ match _build_context_text context with
            | Returned _ =>
              error r = None
              /\ sources r = Some (_extract_sources context)
              /\ context_chunks r = Some (len context)
              /\ answer r = _simulate_generation lm_studio question context
            | Raised e => error r = Some (exn_msg e) /\ sources r = Some []
            end.
Proof.
  unfold ask_question, try_except, ask_body.
  set (self1 := set_stats self (incr_total_queries (pstats self))).
  set (self2 := set_stats self1 (incr_local_searches (pstats self1))).
  pose proof (P_local self1 question) as Hlocal.
  set (local_results := _search_local local_rag self1 question) in *.
  destruct (PipelineMore.search_web_step_spec provider process_search_result
              question use_web max_web_results self2 w)
    as (web_results & self3 & w3 & Hstep & _).
  cbv zeta in Hstep. pose proof (search_web_step_Forall _ _ _ _ _ _ _ Hstep) as Hweb.
  rewrite Hstep.
  exists (_fuse_results (now w3) local_results web_results).
  split; [ by apply fuse_results_Forall | ].
  split.
  { destruct (FusionFacts.fuse_with_bounded_sorted
                (_calculate_relevance_score (now w3)) local_results web_results)
      as (_ & Hcount & _). exact Hcount. }
  unfold _generate_response.
  destruct (_build_context_text _) as [context_text | e].
  - eexists. split; [ reflexivity | ]. by split_and!.
  - eexists. split; [ reflexivity | ]. by split_and!.
Qed.

End Collaborators.

Section Assembled.

Variable provider : nat -> str -> Z -> Z -> result (list WebSearchEngine.ddgs_result).
Variable local_rag : str -> result (option str).
Variable parse_url : str -> option str.
Variable lm_studio : str -> list chunk -> option str.
Variable processor : WebContentProcessor.t.

Local Abbreviation process :=
  (WebContentProcessor.for_pipeline parse_url processor).

(** The chunks of the assembled pipeline: they have a text and are of the
    type "local" or "web_page". *)
Local Abbreviation local_or_web_page :=
  (fun c : chunk =>
     is_Some (text c)
     /\ (source_type c = Some (py "local")
         \/ source_type c = Some (py "web_page"))).

Lemma search_local_types (self : t) (question : str) :
  Forall local_or_web_page (_search_local local_rag self question).
Proof.
  unfold _search_local.
  destruct (local_available self); simpl; [ | constructor ].
  destruct (local_rag question) as [[context | ] | e]; try constructor.
  apply Forall_forall. intros c Hc.
  apply list_elem_of_omap in Hc as ([i part] & _ & Hc).
  case_bool_decide; [ | done ]. injection Hc as <-. simpl.
  split; [ by eexists | by left ].
Qed.

Lemma process_types (r : WebSearchEngine.search_result) (chunks : list chunk) :
  process r = Returned chunks -> Forall local_or_web_page chunks.
Proof.
  intros Hr.
  pose proof (WebContentProcessorMore.for_pipeline_spec parse_url processor r)
    as H.
  rewrite Hr in H. eapply Forall_impl; [ exact H | ].
  intros c (Htext & _ & Htype & _). split; [ done | by right ].
Qed.

Lemma assembled_ask_question (question : str) (use_web : bool)
    (max_web_results : Z) (self : t) (w : world) :
  exists r l n,
    (ask_question provider local_rag process lm_studio question use_web
       max_web_results (self, w)).1 = Returned r
    /\ error r = None
    /\ sources r = Some l
    /\ Forall no_url l
    /\ context_chunks r = Some n
    /\ 0 <= n <= 6.
Proof.
  destruct (ask_question_context provider local_rag process lm_studio
              local_or_web_page ltac:(done) search_local_types process_types
              question use_web max_web_results self w)
    as (context & Hall & Hcount & r & Hr & Hresp).
  destruct (PipelineFacts.build_context_text_ok context) as [ct Hct].
  { eapply Forall_impl; [ exact Hall | ]. by intros c [? _]. }
  rewrite Hct in Hresp. destruct Hresp as (Herr & Hsrc & Hn & _).
  exists r, (_extract_sources context), (len context).
  split_and!; try done.
  - apply WebContentProcessorMore.extract_loop_no_url.
    eapply Forall_impl; [ exact Hall | ].
    intros c [_ [-> | ->]];
      [ apply WebContentProcessorMore.type_local_not_web
      | apply WebContentProcessorMore.type_web_page_not_web ].
  - unfold len. lia.
  - unfold len.
    rewrite (count_two_source_types (py "local") (py "web_page") context).
    + pose proof (Hcount (py "local")). pose proof (Hcount (py "web_page")).
      lia.
    + intros Heq. symmetry in Heq. revert Heq.
      apply WebContentProcessorMore.web_page_is_not_local.
    + eapply Forall_impl; [ exact Hall | ].
      unfold source_type_of. intros c [_ [-> | ->]]; [ by left | by right ].
Qed.

(** X27: On the processor of the repository, [ask_question] never gives its
    error response; no source of its response has a URL, whatever the web
    search found; and its context has at most 6 chunks (three for each of
    the two types of chunk there are), not 10. *)
Theorem assembled_pipeline_has_no_url (question : str) (use_web : bool)
    (max_web_results : Z) (self : t) (w : world) :
  exists r l n,
    (ask_question provider local_rag process lm_studio question use_web
       max_web_results (self, w)).1 = Returned r
    /\ error r = None
    /\ sources r = Some l
    /\ Forall no_url l
    /\ context_chunks r = Some n
    /\ 0 <= n <= 6.
Proof. exact (assembled_ask_question question use_web max_web_results self w). Qed.

Local Abbreviation ask :=
  (WebAwareAgent.pipeline_ask provider local_rag process lm_studio).
Local Abbreviation without_url :=
  (fun resp : sub_response => Forall no_url (sr_sources resp)).

Lemma pipeline_ask_no_url (question : str) (use_web : bool) (s : t * world) :
  exists r s' l,
    ask question use_web s = (Returned r, s')
    /\ error r = None /\ sources r = Some l /\ Forall no_url l.
Proof.
  destruct s as [self w]. unfold WebAwareAgent.pipeline_ask.
  destruct (assembled_ask_question question use_web 3 self w)
    as (r & l & n & Hr & Herr & Hl & Hno & _).
  destruct (ask_question _ _ _ _ _ _ _ _) as [out s'].
  simpl in Hr. subst out. by exists r, s', l.
Qed.

Lemma merge_sources_no_url (responses : list sub_response) :
  Forall without_url responses -> WebAwareAgent._merge_sources responses = [].
Proof.
  intros Hall. unfold WebAwareAgent._merge_sources.
  apply merge_loop_no_url. apply Forall_concat, Forall_fmap.
  exact Hall.
Qed.

Lemma parallel_loop_no_url (analysis : SearchPlanner.analysis)
    (sub_questions : list str) :
  forall sub_responses all_web_sources all_local_sources s,
    Forall without_url sub_responses ->
    exists res s',
      WebAwareAgent.parallel_loop ask analysis sub_questions sub_responses
        all_web_sources all_local_sources s = (Returned res, s')
      /\ Forall without_url res.1.1.
Proof.
  induction sub_questions as [ | sub_q rest IH ]; intros acc1 acc2 acc3 s Hacc.
  - by exists (acc1, acc2, acc3), s.
  - cbn [WebAwareAgent.parallel_loop].
    unfold bind, WebAwareAgent._execute_single_search.
    destruct (pipeline_ask_no_url sub_q (SearchPlanner.needs_web analysis) s)
      as (r & s1 & l & -> & _ & Hl & Hno).
    apply IH. apply Forall_app. split; [ done | ].
    constructor; [ | constructor ]. simpl. by rewrite Hl.
Qed.

Lemma sequential_loop_no_url (analysis : SearchPlanner.analysis)
    (max_depth : Z) (sub_questions : list str) :
  forall i current_context all_responses s,
    Forall without_url all_responses ->
    exists res s',
      WebAwareAgent.sequential_loop ask analysis max_depth i sub_questions
        current_context all_responses s = (Returned res, s')
      /\ Forall without_url res.
Proof.
  induction sub_questions as [ | sub_q rest IH ]; intros i ctx acc s Hacc.
  - by exists acc, s.
  - cbn [WebAwareAgent.sequential_loop]. case_bool_decide as Hdepth.
    + by exists acc, s.
    + unfold bind, WebAwareAgent._execute_single_search.
      match goal with
      | |- context [WebAwareAgent.pipeline_ask _ _ _ _ ?q ?u s] =>
        destruct (pipeline_ask_no_url q u s) as (r & s1 & l & -> & _ & Hl & Hno)
      end.
      apply IH. apply Forall_app. split; [ done | ].
      constructor; [ | constructor ]. simpl. by rewrite Hl.
Qed.

Lemma execute_no_url (question : str) (max_depth : Z) (ps : t * world) :
  let a := SearchPlanner.analyze_question question in
  exists r ps' l,
    WebAwareAgent.execute ask question a max_depth ps = (Returned r, ps')
    /\ error r = None /\ sources r = Some l /\ Forall no_url l
    /\ (SearchPlanner.search_strategy a = "parallel"%string
        \/ SearchPlanner.search_strategy a = "sequential"%string -> l = []).
Proof.
  cbv zeta. unfold WebAwareAgent.execute.
  set (a := SearchPlanner.analyze_question question).
  assert (Hsingle : exists r ps' l,
            WebAwareAgent._execute_single_search ask question a ps
            = (Returned r, ps')
            /\ error r = None /\ sources r = Some l /\ Forall no_url l).
  { unfold WebAwareAgent._execute_single_search.
    destruct (pipeline_ask_no_url question (SearchPlanner.needs_web a) ps)
      as (r & s1 & l & -> & ? & ? & ?). by exists r, s1, l. }
  case_bool_decide as H1.
  { destruct Hsingle as (r & ps' & l & -> & ? & ? & ?).
    exists r, ps', l. split_and!; try done. rewrite H1. by intros [ | ]. }
  case_bool_decide as H2.
  { unfold WebAwareAgent._execute_parallel_search, bind.
    destruct (parallel_loop_no_url a (SearchPlanner.sub_questions a) [] [] 0 ps)
      as ([[r1 r2] r3] & s' & -> & Hall); [ constructor | ].
    eexists _, _, []. simpl.
    split_and!; try done. by rewrite merge_sources_no_url. }
  case_bool_decide as H3.
  { unfold WebAwareAgent._execute_sequential_search, bind.
    destruct (sequential_loop_no_url a max_depth (SearchPlanner.sub_questions a)
                0 [] [] ps) as (res & s' & -> & Hall); [ constructor | ].
    eexists _, _, []. simpl.
    split_and!; try done. by rewrite merge_sources_no_url. }
  destruct Hsingle as (r & ps' & l & -> & ? & ? & ?).
  exists r, ps', l. split_and!; try done. by intros [ | ].
Qed.

(** X28: The agent on the processor of the repository reports no source for a
    question it decomposes: the sources of the sub-questions are merged by
    their URL, and no source of the pipeline has one. For a question it
    does not decompose, it reports the sources of the pipeline, without a
    URL. (The agent is available and has counted no negative number of
    questions, so that its mean response time is defined.) *)
Theorem decomposed_question_reports_no_source (question : str)
    (max_depth : Z) (self : WebAwareAgent.t) (ps : t * world) :
  WebAwareAgent.available self = true ->
  0 <= WebAwareAgent.total_questions (WebAwareAgent.astats self) ->
  let a := SearchPlanner.analyze_question question in
  let out :=
    WebAwareAgent.answer provider local_rag process lm_studio question
      max_depth (self, ps) in
  exists r l,
    out.1 = Returned r
    /\ error r = None
    /\ search_strategy r = Some (SearchPlanner.search_strategy a)
    /\ sources r = Some l
    /\ Forall no_url l
    /\ (SearchPlanner.search_strategy a = "parallel"%string
        \/ SearchPlanner.search_strategy a = "sequential"%string -> l = []).
Proof.
  intros Hav Hcount. cbv zeta.
  unfold WebAwareAgent.answer, WebAwareAgent.answer_question, try_except,
    WebAwareAgent.answer_body.
  replace (WebAwareAgent.available (WebAwareAgent.count_question self))
    with true by done.
  cbn [negb]. unfold WebAwareAgent.on_pipeline.
  destruct (execute_no_url question max_depth ps)
    as (r & ps' & l & Hex & Herr & Hl & Hno & Hmerged).
  cbv zeta in Hex, Hmerged. rewrite Hex.
  rewrite bool_decide_false by (simpl; lia).
  eexists _, l. split; [ reflexivity | ]. by split_and!.
Qed.

End Assembled.

End AssembledFacts.

Module AssembledExamples.

Import Inputs.

(** The types of the sources of each sub-response *)
Local Abbreviation source_types :=
  (fun subs : option (list sub_response) =>
     map (fun resp => map src_type (sr_sources resp)) <$> subs).

(** Two decomposed questions that need the web, one answered in parallel
    and one step by step, on a provider that answers and pages that can be
    read: each sub-question has a source, of the type "web_page", and the
    request reports none. *)
Lemma decomposed_question_reports_no_source_witness :
  let processor :=
    WebContentProcessor.for_pipeline parser_up
      WebContentProcessor.web_processor in
  let parallel :=
    WebAwareAgent.answer provider_up local_none processor lm_offline
      two_parts_news 3 (agent0, (pipeline0, w0)) in
  let sequential :=
    WebAwareAgent.answer provider_up local_none processor lm_offline
      two_steps 3 (agent0, (pipeline0, w0)) in
  match parallel.1, sequential.1 with
  | Returned r1, Returned r2 =>
    search_strategy r1 = Some "parallel"%string
    /\ source_types (sub_responses r1)
       = Some [[py "web_page"]; [py "web_page"]]
    /\ sources r1 = Some []
    /\ search_strategy r2 = Some "sequential"%string
    /\ source_types (sequential_steps r2)
       = Some [[py "web_page"]; [py "web_page"]]
    /\ sources r2 = Some []
  | _, _ => False
  end
  /\ provider_calls parallel.2.2.2 = 2%nat
  /\ provider_calls sequential.2.2.2 = 2%nat.
Proof.
  cbv zeta.
  pose proof (AssembledFacts.decomposed_question_reports_no_source provider_up
                local_none parser_up lm_offline
                WebContentProcessor.web_processor two_parts_news 3 agent0
                (pipeline0, w0)) as H1.
  pose proof (AssembledFacts.decomposed_question_reports_no_source provider_up
                local_none parser_up lm_offline
                WebContentProcessor.web_processor two_steps 3 agent0
                (pipeline0, w0)) as H2.
  cbv zeta in H1, H2.
  destruct H1 as (r1 & l1 & Hr1 & _ & _ & Hl1 & _ & Hnone1);
    [ reflexivity | simpl; lia | ].
  destruct H2 as (r2 & l2 & Hr2 & _ & _ & Hl2 & _ & Hnone2);
    [ reflexivity | simpl; lia | ].
  rewrite Hnone1 in Hl1 by (left; vm_compute; reflexivity).
  rewrite Hnone2 in Hl2 by (right; vm_compute; reflexivity).
  split; [ | split; vm_compute; reflexivity ].
  rewrite Hr1, Hr2.
  split_and!; [ | | exact Hl1 | | | exact Hl2 ].
  - vm_compute in Hr1. injection Hr1 as <-. reflexivity.
  - vm_compute in Hr1. injection Hr1 as <-. vm_compute. reflexivity.
  - vm_compute in Hr2. injection Hr2 as <-. reflexivity.
  - vm_compute in Hr2. injection Hr2 as <-. vm_compute. reflexivity.
Defined.

End AssembledExamples.

(** ** The bookkeeping of the agent *)

Module WebAwareAgentMore.

Import WebAwareAgent.

Lemma merge_loop_spec (all : list source_entry) : forall (seen : gset str),
  let out := merge_loop seen all in
  NoDup (map src_url out)
  /\ Forall (fun entry => src_url entry ≠ [] /\ src_url entry ∉ seen) out
  /\ out `sublist_of` all
  /\ (forall entry, entry ∈ all -> src_url entry ≠ [] ->
        src_url entry ∈ seen \/ src_url entry ∈ map src_url out).
Proof.
  induction all as [ | source rest IH ]; intros seen; cbv zeta.
  { split_and!; [ constructor | constructor | done | ].
    by intros entry ?%elem_of_nil. }
  cbn [merge_loop]. cbv zeta.
  destruct (bool_decide (src_url source ≠ [])) eqn:Hurl;
    [ destruct (bool_decide (src_url source ∉ seen)) eqn:Hseen | ];
    cbn [andb].
  - apply bool_decide_eq_true in Hurl, Hseen.
    destruct (IH ({[src_url source]} ∪ seen)) as (Hnd & Hall & Hsub & Hin).
    split_and!.
    + simpl. constructor; [ | done ].
      intros (entry & Heq & Hentry)%list_elem_of_fmap.
      eapply Forall_forall in Hall as [_ Hnot]; [ | exact Hentry ].
      apply Hnot. rewrite <- Heq. set_solver.
    + constructor; [ done | ].
      eapply Forall_impl; [ exact Hall | ]. intros entry [? ?].
      split; [ done | set_solver ].
    + by apply sublist_skip.
    + intros entry [-> | Hentry]%elem_of_cons Hne.
      * right. simpl. apply list_elem_of_here.
      * destruct (Hin entry Hentry Hne) as [Hs | Hs].
        -- apply elem_of_union in Hs as [->%elem_of_singleton | Hs];
             [ right; simpl; apply list_elem_of_here | by left ].
        -- right. simpl. by apply list_elem_of_further.
  - apply bool_decide_eq_true in Hurl. apply bool_decide_eq_false in Hseen.
    destruct (IH seen) as (Hnd & Hall & Hsub & Hin).
    split_and!; [ done | done | by apply sublist_cons | ].
    intros entry [-> | Hentry]%elem_of_cons Hne; [ | by apply Hin ].
    left. by apply dec_stable.
  - apply bool_decide_eq_false in Hurl.
    destruct (IH seen) as (Hnd & Hall & Hsub & Hin).
    split_and!; [ done | done | by apply sublist_cons | ].
    intros entry [-> | Hentry]%elem_of_cons Hne; [ | by apply Hin ].
    destruct Hurl. done.
Qed.

(** X29: [_merge_sources] keeps, in their order, one source for each URL
    among the sources of the responses: the URLs of its result are distinct
    and not empty, and every URL of a source is among them. Sources without
    a URL are dropped. *)
Theorem merge_sources_distinct_urls (responses : list sub_response) :
  let all := concat (map sr_sources responses) in
  let out := _merge_sources responses in
  NoDup (map src_url out)
  /\ Forall (fun entry => src_url entry ≠ []) out
  /\ out `sublist_of` all
  /\ (forall entry, entry ∈ all -> src_url entry ≠ [] ->
        src_url entry ∈ map src_url out).
Proof.
  cbv zeta. unfold _merge_sources.
  destruct (merge_loop_spec (concat (map sr_sources responses)) ∅)
    as (Hnd & Hall & Hsub & Hin).
  split_and!; [ done | | done | ].
  - eapply Forall_impl; [ exact Hall | ]. by intros entry [? _].
  - intros entry Hentry Hne.
    destruct (Hin entry Hentry Hne) as [Hs | Hs]; [ set_solver | done ].
Qed.

Section Pipeline.

Context {PS : Type}.
Variable rag_ask_question : str -> bool -> M PS response.
Variable datetime_now : PS -> Q.

(** X30: Every request is counted, whether it succeeds, fails or finds the
    agent unavailable. A request that succeeds adds the estimated searches
    and the sub-questions of its analysis to the counters and updates the
    mean response time with its processing time; a request that fails, or
    that finds the agent unavailable, leaves the other counters and the
    mean as they were. (The agent has counted no negative number of
    questions.) *)
Theorem every_request_is_counted (question : str) (max_depth : Z)
    (self : t) (ps : PS) :
  0 <= total_questions (astats self) ->
  let a := SearchPlanner.analyze_question question in
  let ran := execute rag_ask_question question a max_depth ps in
  let out :=
    answer_question rag_ask_question datetime_now question max_depth
      (self, ps) in
  let st := astats self in
  let st' := astats out.2.1 in
  available out.2.1 = available self
  /\ total_questions st' = total_questions st + 1
  /\ match (if available self then Some ran.1 else None) with
     | Some (Returned _) =>
       web_searches_performed st'
       = web_searches_performed st + SearchPlanner.estimated_searches a
       /\ sub_questions_generated st'
          = sub_questions_generated st + len (SearchPlanner.sub_questions a)
       /\ average_response_time st'
          = RunningMean (average_response_time st) (total_questions st + 1)
              (datetime_now ran.2 - datetime_now ps)
     | _ =>
       web_searches_performed st' = web_searches_performed st
       /\ sub_questions_generated st' = sub_questions_generated st
       /\ average_response_time st' = average_response_time st
     end.
Proof.
  intros Hcount. cbv zeta.
  unfold answer_question, try_except, answer_body, on_pipeline.
  replace (available (count_question self)) with (available self) by done.
  destruct (available self) eqn:Hav; cbn [negb];
    [ | by simpl; split_and! ].
  destruct (execute _ _ _ _ ps) as [[r | e] ps']; [ | by simpl; split_and! ].
  rewrite bool_decide_false by (simpl; lia).
  cbn [fst snd astats set_stats total_questions web_searches_performed
       sub_questions_generated average_response_time count_question
       available].
  by split_and!.
Qed.

End Pipeline.

Import Inputs.

(** Three requests on a new agent: one that the pipeline fails, one that
    finds the agent unavailable, and one that succeeds, with two
    sub-questions. *)
Lemma every_request_is_counted_witness :
  let failed :=
    answer_question broken_pipeline id bitcoin_fr 3 (agent0, 1000%Q) in
  let unavailable :=
    answer_question broken_pipeline id bitcoin_fr 3
      (agent_unavailable, 1000%Q) in
  let succeeded :=
    answer provider_up local_none no_chunks lm_offline two_parts_news 3
      (agent0, (pipeline0, w0)) in
  astats failed.2.1
  = {| total_questions := 1; web_searches_performed := 0;
       sub_questions_generated := 0; average_response_time := Float0 |}
  /\ astats unavailable.2.1
     = {| total_questions := 1; web_searches_performed := 0;
          sub_questions_generated := 0; average_response_time := Float0 |}
  /\ astats succeeded.2.1
     = {| total_questions := 1; web_searches_performed := 2;
          sub_questions_generated := 2;
          average_response_time := RunningMean Float0 1 0 |}.
Proof.
  cbv zeta.
  assert (H0 : 0 <= total_questions (astats agent0)) by (simpl; lia).
  assert (H0' : 0 <= total_questions (astats agent_unavailable))
    by (simpl; lia).
  pose proof (every_request_is_counted broken_pipeline id bitcoin_fr 3
                agent0 1000%Q H0) as Hfailed.
  pose proof (every_request_is_counted broken_pipeline id bitcoin_fr 3
                agent_unavailable 1000%Q H0') as Hunavailable.
  pose proof (every_request_is_counted
                (pipeline_ask provider_up local_none no_chunks lm_offline)
                pipeline_clock two_parts_news 3 agent0 (pipeline0, w0) H0)
    as Hsucceeded.
  cbv zeta in Hfailed, Hunavailable, Hsucceeded.
  unfold answer.
  split; [ | split ].
  - clear Hunavailable Hsucceeded.
    destruct Hfailed as (_ & F1 & F). revert F.
    destruct (if available agent0 then _ else None) as [[r | e] | ] eqn:E;
      [ vm_compute in E; discriminate E | | vm_compute in E; discriminate E ].
    intros (F2 & F3 & F4).
    set (st' := astats (answer_question broken_pipeline id bitcoin_fr 3
                          (agent0, 1000%Q)).2.1) in *.
    clearbody st'. destruct st' as [a b c d].
    vm_compute in F1, F2, F3, F4. subst. reflexivity.
  - clear Hfailed Hsucceeded.
    destruct Hunavailable as (_ & F1 & F). revert F.
    destruct (if available agent_unavailable then _ else None)
      as [[r | e] | ] eqn:E;
      [ vm_compute in E; discriminate E | vm_compute in E; discriminate E | ].
    intros (F2 & F3 & F4).
    set (st' := astats (answer_question broken_pipeline id bitcoin_fr 3
                          (agent_unavailable, 1000%Q)).2.1) in *.
    clearbody st'. destruct st' as [a b c d].
    vm_compute in F1, F2, F3, F4. subst. reflexivity.
  - clear Hfailed Hunavailable.
    destruct Hsucceeded as (_ & F1 & F). revert F.
    destruct (if available agent0 then _ else None) as [[r | e] | ] eqn:E;
      [ | vm_compute in E; discriminate E | vm_compute in E; discriminate E ].
    intros (F2 & F3 & F4).
    set (st' := astats (answer_question
                          (pipeline_ask provider_up local_none no_chunks
                             lm_offline)
                          pipeline_clock two_parts_news 3
                          (agent0, (pipeline0, w0))).2.1) in *.
    clearbody st'. destruct st' as [a b c d].
    vm_compute in F1, F2, F3, F4. subst. reflexivity.
Defined.

End WebAwareAgentMore.
